(** * Static analysers for annotated Java sources: a Rocq model

    The development embeds the extraction engine of the repository's
    analysis scripts and states its properties:

    - [analyze_project.py]  (module [AnalyzeProject]): marker-based
      classification of a file, component records, dependency flows;
    - [scan_events.py]      (module [ScanEvents]): event classes, record
      parameters, bounded contexts, the serialised summary;
    - [analyze_publishers.py] (module [AnalyzePublishers]): publish calls;
    - [analyze_listeners.py]  (module [AnalyzeListeners]): listener methods;
    - [generate_all_docs.py]  (module [Pipeline]): the five steps of a run;
    - [generate_mermaid.py]   (module [GenerateMermaid]): node ids, the
      data-flow diagram and the context diagram;
    - the listener annotation of [generate_diagrams.py] and
      [generate_event_docs.py] (module [ListenerRendering]).

    The scripts work on text with Python's [str] methods and the [re]
    module.  Both are modelled first ([Py], [Re]); every pattern of the
    scripts is then written as a term of [Re.regex] next to its source
    text.

    Characters are 8-bit codes, one code for one character.  The ASCII
    range is modelled exactly as Python treats it.  Text outside ASCII is
    outside the model: there Python's [\w], [\s], [lower] and
    [capitalize] follow the Unicode tables, while [Py.isword],
    [Py.isspace], [Py.lower] and [Py.capitalize] treat a code above 127 as
    a character that is neither a word character nor white space and has
    no case.  The theorems on the shape of names use of [\w] only that a
    group [(\w+)] holds a non-empty run of [\w] characters. *)

From Stdlib Require Import Ascii String List Arith Lia Bool DecimalString DecimalNat
  Sorted Permutation.
From stdpp Require Import gmap strings list.

(* ===================================================================== *)
(** * Part I: definitions *)
(* ===================================================================== *)

(** ** Python's [str] methods *)
Module Py.

(** [c.isspace()], which is also the class [\s] of a [str] pattern:
    TAB, LF, VT, FF, CR, the separators FS, GS, RS, US, and the space. *)
Definition isspace (c : ascii) : bool :=
  let n := nat_of_ascii c in
  ((9 <=? n) && (n <=? 13)) || ((28 <=? n) && (n <=? 32)).

Definition isupper (c : ascii) : bool :=
  let n := nat_of_ascii c in (65 <=? n) && (n <=? 90).

Definition islower (c : ascii) : bool :=
  let n := nat_of_ascii c in (97 <=? n) && (n <=? 122).

Definition isdigit (c : ascii) : bool :=
  let n := nat_of_ascii c in (48 <=? n) && (n <=? 57).

(** The class [\w]: letters, digits and the underscore. *)
Definition isword (c : ascii) : bool :=
  isupper c || islower c || isdigit c || Ascii.eqb c "_"%char.

Definition lower_char (c : ascii) : ascii :=
  if isupper c then ascii_of_nat (nat_of_ascii c + 32) else c.

Definition upper_char (c : ascii) : ascii :=
  if islower c then ascii_of_nat (nat_of_ascii c - 32) else c.

(** [s.lower()] *)
Fixpoint lower (s : string) : string :=
  match s with
  | EmptyString => EmptyString
  | String c s' => String (lower_char c) (lower s')
  end.

(** [s.capitalize()]: the first character in upper case, the rest in
    lower case. *)
Definition capitalize (s : string) : string :=
  match s with
  | EmptyString => EmptyString
  | String c s' => String (upper_char c) (lower s')
  end.

(** [s.split(sep)] for a one-character separator: never the empty list. *)
Fixpoint split (sep : ascii) (s : string) : list string :=
  match s with
  | EmptyString => [EmptyString]
  | String c s' =>
      if Ascii.eqb c sep then EmptyString :: split sep s'
      else match split sep s' with
           | w :: ws => String c w :: ws
           | [] => [String c EmptyString]
           end
  end.

(** [s.split()]: the maximal runs of characters that are not white space.
    The auxiliary function returns the run the string starts with (empty
    when it starts with white space) and the runs after it. *)
Fixpoint split_ws_aux (s : string) : string * list string :=
  match s with
  | EmptyString => (EmptyString, [])
  | String c s' =>
      let '(w, ws) := split_ws_aux s' in
      if isspace c
      then (EmptyString, match w with EmptyString => ws | _ => w :: ws end)
      else (String c w, ws)
  end.

Definition split_ws (s : string) : list string :=
  let '(w, ws) := split_ws_aux s in
  match w with EmptyString => ws | _ => w :: ws end.

Fixpoint lstrip (s : string) : string :=
  match s with
  | EmptyString => EmptyString
  | String c s' => if isspace c then lstrip s' else s
  end.

Fixpoint rstrip (s : string) : string :=
  match s with
  | EmptyString => EmptyString
  | String c s' =>
      match rstrip s' with
      | EmptyString => if isspace c then EmptyString else String c EmptyString
      | r => String c r
      end
  end.

(** [s.strip()] *)
Definition strip (s : string) : string := rstrip (lstrip s).

(** [s.startswith(p)] *)
Definition startswith (p s : string) : bool := String.prefix p s.

(** [needle in s] *)
Fixpoint contains (needle s : string) : bool :=
  String.prefix needle s ||
  match s with
  | EmptyString => false
  | String _ s' => contains needle s'
  end.

(** [sep.join(l)] *)
Definition join (sep : string) (l : list string) : string := String.concat sep l.

(** [s[a:b]] for 0 <= a <= b. *)
Definition slice (a b : nat) (s : string) : string := String.substring a (b - a) s.

(** [s[:b]] *)
Definition slice_to (b : nat) (s : string) : string := String.substring 0 b s.

(** [x in l] for a list of strings. *)
Definition mem (x : string) (l : list string) : bool :=
  existsb (String.eqb x) l.

(** [l[-1]] *)
Definition last_item (l : list string) : option string := List.last (map Some l) None.

(** [dict.fromkeys(l)]-style removal of repeats, keeping first occurrences:
    the elements of [set(l)], in one particular order. *)
Fixpoint dedup (l : list string) : list string :=
  match l with
  | [] => []
  | x :: l' => x :: List.filter (fun y => negb (String.eqb x y)) (dedup l')
  end.

End Py.

(** ** Python's [re] module: a backtracking matcher

    The matcher tries alternatives in Python's order (left branch first,
    greedy loops longest first, lazy loops shortest first) and returns the
    first success, so that the match found and its groups are the ones
    [re] reports.  No pattern of the scripts uses anchors, look-around or
    back-references, and every loop body consumes at least one character. *)
Module Re.

Inductive regex : Type :=
| Eps
| Lit (c : ascii)
| Cls (p : ascii -> bool)
| Seq (a b : regex)
| Alt (a b : regex)
| Star (greedy : bool) (a : regex)
| Group (n : nat) (a : regex).

(** Spans of the groups set so far, most recent first. *)
Definition caps : Type := list (nat * (nat * nat)).

Record rmatch : Type := MkMatch { m_start : nat; m_end : nat; m_caps : caps }.

Section Run.
Context {R : Type}.

(** The iterations of a loop [a*] or [a*?]: [body] matches [a] once, [k]
    continues after the loop.  A greedy loop tries one more iteration
    before it leaves, a lazy loop leaves before it tries one more; an
    iteration that consumes nothing is not taken.  [fuel] bounds the
    number of iterations by the length of the text. *)
Fixpoint loop (body : string -> nat -> caps -> (string -> nat -> caps -> option R) -> option R)
    (greedy : bool) (k : string -> nat -> caps -> option R)
    (fuel : nat) (s : string) (pos : nat) (cs : caps) {struct fuel} : option R :=
  match fuel with
  | 0 => k s pos cs
  | S fuel' =>
      let again :=
        body s pos cs
             (fun s' pos' cs' =>
                if pos' <=? pos then None else loop body greedy k fuel' s' pos' cs') in
      if greedy
      then match again with Some x => Some x | None => k s pos cs end
      else match k s pos cs with Some x => Some x | None => again end
  end.

(** [run r s pos cs k]: match [r] at the front of [s], which starts at
    offset [pos] of the subject; [k] continues with the rest. *)
Fixpoint run (r : regex) (s : string) (pos : nat) (cs : caps)
    (k : string -> nat -> caps -> option R) {struct r} : option R :=
  match r with
  | Eps => k s pos cs
  | Lit c =>
      match s with
      | String c' s' => if Ascii.eqb c c' then k s' (S pos) cs else None
      | EmptyString => None
      end
  | Cls p =>
      match s with
      | String c' s' => if p c' then k s' (S pos) cs else None
      | EmptyString => None
      end
  | Seq a b => run a s pos cs (fun s' pos' cs' => run b s' pos' cs' k)
  | Alt a b =>
      match run a s pos cs k with
      | Some x => Some x
      | None => run b s pos cs k
      end
  | Star greedy a => loop (run a) greedy k (S (String.length s)) s pos cs
  | Group n a => run a s pos cs (fun s' pos' cs' => k s' pos' ((n, (pos, pos')) :: cs'))
  end.

End Run.

(** [pattern.match] at offset [pos], where [s] is the subject from there. *)
Definition match_at (r : regex) (s : string) (pos : nat) : option rmatch :=
  run r s pos [] (fun _ e cs => Some (MkMatch pos e cs)).

(** The leftmost match in [s], the subject from offset [pos] on. *)
Fixpoint search_from (r : regex) (s : string) (pos : nat) : option rmatch :=
  match match_at r s pos with
  | Some m => Some m
  | None =>
      match s with
      | EmptyString => None
      | String _ s' => search_from r s' (S pos)
      end
  end.

(** [re.search(r, s)] *)
Definition search (r : regex) (s : string) : option rmatch := search_from r s 0.

Definition matches (r : regex) (s : string) : bool :=
  match search r s with Some _ => true | None => false end.

Fixpoint drop (n : nat) (s : string) : string :=
  match n, s with
  | S n', String _ s' => drop n' s'
  | _, _ => s
  end.

(** [re.finditer(r, s)]: the matches from left to right, each search
    starting where the last match ended (one further after an empty one). *)
Fixpoint finditer_from (fuel : nat) (r : regex) (s : string) (pos : nat) : list rmatch :=
  match fuel with
  | 0 => []
  | S fuel' =>
      match search_from r s pos with
      | None => []
      | Some m =>
          let next := if m_end m <=? m_start m then S (m_end m) else m_end m in
          m :: (if String.length s + pos <? next then []
                else finditer_from fuel' r (drop (next - pos) s) next)
      end
  end.

Definition finditer (r : regex) (s : string) : list rmatch :=
  finditer_from (S (String.length s)) r s 0.

(** [m.group(0)] and [m.group(n)] of a match in subject [s]. *)
Definition group0 (s : string) (m : rmatch) : string :=
  String.substring (m_start m) (m_end m - m_start m) s.

Fixpoint lookup_cap (n : nat) (cs : caps) : option (nat * nat) :=
  match cs with
  | [] => None
  | (i, span) :: cs' => if i =? n then Some span else lookup_cap n cs'
  end.

Definition group (s : string) (m : rmatch) (n : nat) : option string :=
  match lookup_cap n (m_caps m) with
  | Some (a, b) => Some (String.substring a (b - a) s)
  | None => None
  end.

(** A group of a pattern in which the group takes part in every match. *)
Definition group_str (s : string) (m : rmatch) (n : nat) : string :=
  match group s m n with Some g => g | None => EmptyString end.

(** [re.findall(r, s)] for a pattern without groups, and with one group. *)
Definition findall0 (r : regex) (s : string) : list string :=
  map (group0 s) (finditer r s).

Definition findall1 (r : regex) (s : string) : list string :=
  map (fun m => group_str s m 1) (finditer r s).

(** *** Pattern syntax *)

Fixpoint lit (s : string) : regex :=
  match s with
  | EmptyString => Eps
  | String c EmptyString => Lit c
  | String c s' => Seq (Lit c) (lit s')
  end.

Fixpoint cat (rs : list regex) : regex :=
  match rs with
  | [] => Eps
  | [r] => r
  | r :: rs' => Seq r (cat rs')
  end.

Fixpoint alt (rs : list regex) : regex :=
  match rs with
  | [] => Cls (fun _ => false)
  | [r] => r
  | r :: rs' => Alt r (alt rs')
  end.

(** [r*], [r*?], [r+], [r?] *)
Definition star (r : regex) : regex := Star true r.
Definition lazy (r : regex) : regex := Star false r.
Definition plus (r : regex) : regex := Seq r (Star true r).
Definition opt (r : regex) : regex := Alt r Eps.
Definition grp (n : nat) (r : regex) : regex := Group n r.

(** [\s], [\w], [.] (without and with DOTALL), [[^c]] *)
Definition ws : regex := Cls Py.isspace.
Definition word : regex := Cls Py.isword.
Definition dot : regex := Cls (fun c => negb (Ascii.eqb c "010"%char)).
Definition dotall : regex := Cls (fun _ => true).
Definition notchar (c : ascii) : regex := Cls (fun x => negb (Ascii.eqb x c)).

End Re.

Definition newline : ascii := "010"%char.
Definition dquote : ascii := "034"%char.

(** Files as the walker hands them to an analyser: the path as enumerated,
    the path relative to the source root, and the text ([None] when the
    file cannot be read or decoded). *)
Record SourceFile : Type := MkSourceFile {
  sf_path : string;
  sf_rel : string;
  sf_text : option string
}.

(** ** [analyze_project.py] *)
Module AnalyzeProject.
Import Re.

Module ExternalEntity.
Record t : Type := Mk { name : string; type : string; references : list string }.
End ExternalEntity.

Module Process.
Record t : Type := Mk {
  name : string;
  class_name : string;
  file_path : string;
  type : string;
  methods : list string;
  dependencies : list string
}.
End Process.

Module DataStore.
Record t : Type := Mk {
  name : string;
  type : string;
  entity_class : string;
  file_path : string
}.
End DataStore.

Module DataFlow.
Record t : Type := Mk {
  from_component : string;
  to_component : string;
  data_type : string;
  flow_type : string
}.
End DataFlow.

(** The analyser's accumulating lists ([JavaProjectAnalyzer.__init__]). *)
Record JavaProjectAnalyzer : Type := MkAnalyzer {
  external_entities : list ExternalEntity.t;
  processes : list Process.t;
  data_stores : list DataStore.t;
  data_flows : list DataFlow.t
}.

Definition init : JavaProjectAnalyzer := MkAnalyzer [] [] [] [].

(** *** Patterns *)

(** [public\s+(?:class|interface)\s+(\w+)] *)
Definition re_class : regex :=
  cat [lit "public"; plus ws; alt [lit "class"; lit "interface"]; plus ws; grp 1 (plus word)].

(** [@RestController|@Controller] *)
Definition re_controller : regex := alt [lit "@RestController"; lit "@Controller"].
(** [@Service] *)
Definition re_service : regex := lit "@Service".
(** [@Repository] *)
Definition re_repository : regex := lit "@Repository".
(** [@Entity|@Table] *)
Definition re_entity : regex := alt [lit "@Entity"; lit "@Table"].
(** [@FeignClient|@RestTemplate] *)
Definition re_external_client : regex := alt [lit "@FeignClient"; lit "@RestTemplate"].

(** [@(?:Get|Post|Put|Delete|Patch)Mapping.*?\n.*?public\s+\w+\s+(\w+)\s*\(], DOTALL *)
Definition re_mapping_method : regex :=
  cat [lit "@"; alt [lit "Get"; lit "Post"; lit "Put"; lit "Delete"; lit "Patch"];
       lit "Mapping"; lazy dotall; Lit newline; lazy dotall;
       lit "public"; plus ws; plus word; plus ws; grp 1 (plus word); star ws; lit "("].

(** [@Autowired.*?\n.*?private\s+(\w+)], DOTALL *)
Definition re_autowired : regex :=
  cat [lit "@Autowired"; lazy dotall; Lit newline; lazy dotall;
       lit "private"; plus ws; grp 1 (plus word)].

(** [public\s+\w+\s+(\w+)\s*\(] *)
Definition re_public_method : regex :=
  cat [lit "public"; plus ws; plus word; plus ws; grp 1 (plus word); star ws; lit "("].

(** [(?:find|save|delete|update)\w+] *)
Definition re_repository_method : regex :=
  cat [alt [lit "find"; lit "save"; lit "delete"; lit "update"]; plus word].

(** [@Table\(name\s*=\s*Q(\w+)Q], where Q stands for the double quote *)
Definition re_table_name : regex :=
  cat [lit "@Table(name"; star ws; lit "="; star ws; Lit dquote; grp 1 (plus word); Lit dquote].

(** [@FeignClient\(.*?url\s*=\s*Q([^Q]+)Q] *)
Definition re_feign_url : regex :=
  cat [lit "@FeignClient("; lazy dot; lit "url"; star ws; lit "="; star ws;
       Lit dquote; grp 1 (plus (notchar dquote)); Lit dquote].

(** [@FeignClient\(.*?name\s*=\s*Q([^Q]+)Q] *)
Definition re_feign_name : regex :=
  cat [lit "@FeignClient("; lazy dot; lit "name"; star ws; lit "="; star ws;
       Lit dquote; grp 1 (plus (notchar dquote)); Lit dquote].

Section Analyzer.

(** [list(set(l))]: the order in which the interpreter of one run iterates
    a set of strings built from [l]. *)
Variable list_of_set : list string -> list string.

(** *** The per-kind analysers *)

Definition _analyze_controller (self : JavaProjectAnalyzer)
    (class_name content file_path : string) : JavaProjectAnalyzer :=
  let methods := findall1 re_mapping_method content in
  let dependencies := findall1 re_autowired content in
  let process := Process.Mk class_name class_name file_path "controller" methods dependencies in
  let entities :=
    if Py.mem class_name (map ExternalEntity.name (external_entities self))
    then external_entities self
    else external_entities self ++
         [ExternalEntity.Mk ("API Client (" +:+ class_name +:+ ")") "client" [class_name]] in
  MkAnalyzer entities (processes self ++ [process]) (data_stores self) (data_flows self).

Definition _analyze_service (self : JavaProjectAnalyzer)
    (class_name content file_path : string) : JavaProjectAnalyzer :=
  let methods := findall1 re_public_method content in
  let dependencies := findall1 re_autowired content in
  let process :=
    Process.Mk class_name class_name file_path "service" (take 10 methods) dependencies in
  MkAnalyzer (external_entities self) (processes self ++ [process])
             (data_stores self) (data_flows self).

Definition _analyze_repository (self : JavaProjectAnalyzer)
    (class_name content file_path : string) : JavaProjectAnalyzer :=
  let methods := findall0 re_repository_method content in
  let process :=
    Process.Mk class_name class_name file_path "repository" (list_of_set methods) [] in
  MkAnalyzer (external_entities self) (processes self ++ [process])
             (data_stores self) (data_flows self).

Definition _analyze_entity (self : JavaProjectAnalyzer)
    (class_name content file_path : string) : JavaProjectAnalyzer :=
  let table_name :=
    match search re_table_name content with
    | Some table_match => group_str content table_match 1
    | None => Py.lower class_name
    end in
  let data_store := DataStore.Mk table_name "database" class_name file_path in
  MkAnalyzer (external_entities self) (processes self)
             (data_stores self ++ [data_store]) (data_flows self).

Definition _analyze_external_client (self : JavaProjectAnalyzer)
    (class_name content file_path : string) : JavaProjectAnalyzer :=
  let url_match := search re_feign_url content in
  let service_name := search re_feign_name content in
  let name :=
    match service_name with
    | Some m => group_str content m 1
    | None =>
        match url_match with
        | Some m => group_str content m 1
        | None => class_name
        end
    end in
  let external_entity := ExternalEntity.Mk name "external_service" [class_name] in
  MkAnalyzer (external_entities self ++ [external_entity]) (processes self)
             (data_stores self) (data_flows self).

(** *** [_analyze_file] *)
Definition _analyze_file (self : JavaProjectAnalyzer) (f : SourceFile) : JavaProjectAnalyzer :=
  match sf_text f with
  | None => self
  | Some content =>
      match search re_class content with
      | None => self
      | Some class_match =>
          let class_name := group_str content class_match 1 in
          let relative_path := sf_rel f in
          if matches re_controller content
          then _analyze_controller self class_name content relative_path
          else if matches re_service content
          then _analyze_service self class_name content relative_path
          else if matches re_repository content
          then _analyze_repository self class_name content relative_path
          else if matches re_entity content
          then _analyze_entity self class_name content relative_path
          else if matches re_external_client content
          then _analyze_external_client self class_name content relative_path
          else self
      end
  end.

(** *** [_infer_data_flows] *)

(** [{p.class_name: p for p in self.processes}]: a later process replaces
    an earlier one of the same class name. *)
Definition process_map (ps : list Process.t) : gmap string Process.t :=
  foldl (fun m p => <[Process.class_name p := p]> m) ∅ ps.

Definition flow_type_of (process target : Process.t) : string :=
  let flow_type := "request" in
  if String.eqb (Process.type process) "controller" && String.eqb (Process.type target) "service"
  then "request"
  else if String.eqb (Process.type process) "service"
          && String.eqb (Process.type target) "repository"
  then "query"
  else flow_type.

(** The body of the inner loop for one dependency of one process. *)
Definition flows_of_dependency (pm : gmap string Process.t) (process : Process.t)
    (dep : string) : list DataFlow.t :=
  match pm !! dep with
  | Some target =>
      [DataFlow.Mk (Process.class_name process) (Process.class_name target)
                   "business_data" (flow_type_of process target)]
  | None => []
  end.

Definition inferred_flows (ps : list Process.t) : list DataFlow.t :=
  let pm := process_map ps in
  flat_map (fun process => flat_map (flows_of_dependency pm process) (Process.dependencies process)) ps.

Definition _infer_data_flows (self : JavaProjectAnalyzer) : JavaProjectAnalyzer :=
  MkAnalyzer (external_entities self) (processes self) (data_stores self)
             (data_flows self ++ inferred_flows (processes self)).

(** *** [analyze] over the enumerated files *)
Definition analyze (java_files : list SourceFile) : JavaProjectAnalyzer :=
  _infer_data_flows (foldl _analyze_file init java_files).

End Analyzer.

(** *** The classifier as the specification words it

    An ordered list of (kind, marker) pairs, the first match wins; a text
    in which no class or interface name is found has no kind. *)
Inductive Kind : Type :=
| Controller | Service | Repository | PersistedEntity | ExternalClient.

Definition markers : list (Kind * regex) :=
  [(Controller, re_controller); (Service, re_service); (Repository, re_repository);
   (PersistedEntity, re_entity); (ExternalClient, re_external_client)].

Fixpoint first_marker (ms : list (Kind * regex)) (content : string) : option Kind :=
  match ms with
  | [] => None
  | (k, r) :: ms' => if matches r content then Some k else first_marker ms' content
  end.

Definition spec_classify (content : string) : option Kind :=
  match search re_class content with
  | None => None
  | Some _ => first_marker markers content
  end.

(** The name [_analyze_file] reads off the text (the empty string when
    there is none, in which case no kind is assigned either). *)
Definition declared_name (content : string) : string :=
  match search re_class content with
  | Some class_match => group_str content class_match 1
  | None => EmptyString
  end.

(** What the analyser does for a file of a given kind. *)
Definition analyze_as (list_of_set : list string -> list string) (k : Kind)
    (self : JavaProjectAnalyzer) (class_name content file_path : string) : JavaProjectAnalyzer :=
  match k with
  | Controller => _analyze_controller self class_name content file_path
  | Service => _analyze_service self class_name content file_path
  | Repository => _analyze_repository list_of_set self class_name content file_path
  | PersistedEntity => _analyze_entity self class_name content file_path
  | ExternalClient => _analyze_external_client self class_name content file_path
  end.

(** The flow kind as the specification words it: a function of the two
    endpoint kinds. *)
Definition spec_flow_kind (source_kind destination_kind : string) : string :=
  if decide (source_kind = "controller" ∧ destination_kind = "service") then "request"
  else if decide (source_kind = "service" ∧ destination_kind = "repository") then "query"
  else "request".

End AnalyzeProject.

(** ** [json.dump(data, f, indent=2, ensure_ascii=False)] *)
Module Json.

(** The values the scripts serialise: [None], booleans, non-negative
    integers, strings, lists, and dictionaries in insertion order. *)
#[local] Unset Elimination Schemes.
Inductive value : Type :=
| JNull
| JBool (b : bool)
| JInt (n : nat)
| JStr (s : string)
| JList (items : list value)
| JDict (items : list (string * value)).
#[local] Set Elimination Schemes.

Definition hex_digit (n : nat) : ascii :=
  if n <? 10 then ascii_of_nat (48 + n) else ascii_of_nat (87 + n).

(** One character inside a string literal: the quote, the backslash and
    the control characters are escaped, everything else is written as is. *)
Definition escape_char (c : ascii) : string :=
  let n := nat_of_ascii c in
  let backslash := "\"%char in
  if Ascii.eqb c dquote then String backslash (String dquote EmptyString)
  else if Ascii.eqb c backslash then String backslash (String backslash EmptyString)
  else if n =? 8 then String backslash "b"
  else if n =? 9 then String backslash "t"
  else if n =? 10 then String backslash "n"
  else if n =? 12 then String backslash "f"
  else if n =? 13 then String backslash "r"
  else if n <? 32
  then String backslash ("u00" +:+ String (hex_digit (n / 16))
                                     (String (hex_digit (n mod 16)) EmptyString))
  else String c EmptyString.

Fixpoint escape (s : string) : string :=
  match s with
  | EmptyString => EmptyString
  | String c s' => escape_char c +:+ escape s'
  end.

Definition quote (s : string) : string :=
  String dquote (escape s +:+ String dquote EmptyString).

Definition decimal (n : nat) : string := NilEmpty.string_of_uint (Nat.to_uint n).

Fixpoint spaces (n : nat) : string :=
  match n with
  | 0 => EmptyString
  | S n' => String " "%char (spaces n')
  end.

(** A line break followed by the indentation of nesting depth [level]. *)
Definition newline_indent (level : nat) : string :=
  String newline (spaces (2 * level)).

(** [json.dumps(v, indent=2, ensure_ascii=False)] at nesting depth [level]. *)
Fixpoint encode (level : nat) (v : value) {struct v} : string :=
  match v with
  | JNull => "null"
  | JBool true => "true"
  | JBool false => "false"
  | JInt n => decimal n
  | JStr s => quote s
  | JList [] => "[]"
  | JList items =>
      "[" +:+ newline_indent (S level)
      +:+ String.concat ("," +:+ newline_indent (S level)) (map (encode (S level)) items)
      +:+ newline_indent level +:+ "]"
  | JDict [] => "{}"
  | JDict items =>
      "{" +:+ newline_indent (S level)
      +:+ String.concat ("," +:+ newline_indent (S level))
            (map (fun kv => match kv with
                            | (k, x) => quote k +:+ ": " +:+ encode (S level) x
                            end) items)
      +:+ newline_indent level +:+ "}"
  end.

Definition dumps (v : value) : string := encode 0 v.

Definition of_option (o : option string) : value :=
  match o with
  | Some s => JStr s
  | None => JNull
  end.

End Json.

(** ** [scan_events.py] *)
Module ScanEvents.
Import Re.

Module FieldInfo.
Record t : Type := Mk {
  name : string;
  type : string;
  javadoc : option string;
  annotations : list string
}.
End FieldInfo.

Module EventInfo.
Record t : Type := Mk {
  name : string;
  package : string;
  file_path : string;
  bounded_context : string;
  javadoc : option string;
  fields : list FieldInfo.t;
  extends : option string;
  annotations : list string;
  is_record : bool
}.
End EventInfo.

(** *** Patterns *)

(** [EVENT_PATTERNS]: [class\s+\w+Event\s+extends], [class\s+\w+Event\s+implements],
    [record\s+\w+Event\s*\(], [@DomainEvent] *)
Definition EVENT_PATTERNS : list regex :=
  [cat [lit "class"; plus ws; plus word; lit "Event"; plus ws; lit "extends"];
   cat [lit "class"; plus ws; plus word; lit "Event"; plus ws; lit "implements"];
   cat [lit "record"; plus ws; plus word; lit "Event"; star ws; lit "("];
   lit "@DomainEvent"].

(** [package\s+([\w.]+);] *)
Definition re_package : regex :=
  cat [lit "package"; plus ws;
       grp 1 (plus (Cls (fun c => Py.isword c || Ascii.eqb c "."%char))); lit ";"].

(** [(?:public\s+)?(?:final\s+)?class\s+(\w+)] *)
Definition re_class_name : regex :=
  cat [opt (cat [lit "public"; plus ws]); opt (cat [lit "final"; plus ws]);
       lit "class"; plus ws; grp 1 (plus word)].

(** [(?:public\s+)?record\s+(\w+)] *)
Definition re_record_name : regex :=
  cat [opt (cat [lit "public"; plus ws]); lit "record"; plus ws; grp 1 (plus word)].

(** [(?:class|record)\s+{class_name}] *)
Definition re_declaration (class_name : string) : regex :=
  cat [alt [lit "class"; lit "record"]; plus ws; lit class_name].

(** [/\*\*(.*?)\*/], DOTALL *)
Definition re_javadoc : regex := cat [lit "/**"; grp 1 (lazy dotall); lit "*/"].

(** [record\s+\w+\s*\((.*?)\)], DOTALL *)
Definition re_record_params : regex :=
  cat [lit "record"; plus ws; plus word; star ws; lit "("; grp 1 (lazy dotall); lit ")"].

(** The class [[\w<>,\s]] *)
Definition type_char (c : ascii) : bool :=
  Py.isword c || Ascii.eqb c "<"%char || Ascii.eqb c ">"%char || Ascii.eqb c ","%char
  || Py.isspace c.

(** [private\s+(?:final\s+)?([\w<>,\s]+)\s+(\w+)\s*;] *)
Definition re_field : regex :=
  cat [lit "private"; plus ws; opt (cat [lit "final"; plus ws]);
       grp 1 (plus (Cls type_char)); plus ws; grp 2 (plus word); star ws; lit ";"].

(** [(\w+)\s+{field_name}\s*;] *)
Definition re_field_declaration (field_name : string) : regex :=
  cat [grp 1 (plus word); plus ws; lit field_name; star ws; lit ";"].

(** [(@\w+(?:\([^)]*\))?)\s+(?:private\s+)?(?:final\s+)?[\w<>,\s]+\s+{field_name}\s*;] *)
Definition re_field_annotation (field_name : string) : regex :=
  cat [grp 1 (cat [lit "@"; plus word;
                   opt (cat [lit "("; star (notchar ")"%char); lit ")"])]);
       plus ws; opt (cat [lit "private"; plus ws]); opt (cat [lit "final"; plus ws]);
       plus (Cls type_char); plus ws; lit field_name; star ws; lit ";"].

(** [class\s+{class_name}\s+extends\s+([\w<>]+)] *)
Definition re_extends (class_name : string) : regex :=
  cat [lit "class"; plus ws; lit class_name; plus ws; lit "extends"; plus ws;
       grp 1 (plus (Cls (fun c => Py.isword c || Ascii.eqb c "<"%char
                                  || Ascii.eqb c ">"%char)))].

(** [@(\w+)(?:\([^)]*\))?] *)
Definition re_annotation : regex :=
  cat [lit "@"; grp 1 (plus word); opt (cat [lit "("; star (notchar ")"%char); lit ")"])].

(** *** Extractors *)

(** [_is_event_package]: a test on the enumerated path. *)
Definition _is_event_package (file_path : string) : bool :=
  let path_str := Py.lower file_path in
  existsb (fun pattern => Py.contains pattern path_str)
          ["/event/"; "/events/"; "domain/event"; "domain/events"].

Definition _is_event_class (content : string) : bool :=
  existsb (fun pattern => matches pattern content) EVENT_PATTERNS.

Definition _extract_package (content : string) : string :=
  match search re_package content with
  | Some m => group_str content m 1
  | None => EmptyString
  end.

Definition _extract_class_name (content : string) : option string :=
  match search re_class_name content with
  | Some m => Some (group_str content m 1)
  | None =>
      match search re_record_name content with
      | Some m => Some (group_str content m 1)
      | None => None
      end
  end.

(** The clean-up both Javadoc extractors apply to the comment body. *)
Definition javadoc_line (line : string) : string :=
  let line := Py.strip line in
  if Py.startswith "*" line then Py.strip (Re.drop 1 line) else line.

Definition clean_javadoc (javadoc_text : string) : string :=
  let lines :=
    List.filter (fun line => negb (String.eqb line EmptyString) && negb (Py.startswith "@" line))
           (map javadoc_line (Py.split newline javadoc_text)) in
  Py.strip (Py.join " " lines).

(** The last Javadoc comment of [before], cleaned. *)
Definition last_javadoc (before : string) : option string :=
  match List.last (map Some (finditer re_javadoc before)) None with
  | Some javadoc_match => Some (clean_javadoc (group_str before javadoc_match 1))
  | None => None
  end.

Definition _extract_class_javadoc (content class_name : string) : option string :=
  match search (re_declaration class_name) content with
  | None => None
  | Some class_match => last_javadoc (Py.slice_to (m_start class_match) content)
  end.

Definition _extract_field_javadoc (content field_name : string) : option string :=
  match search (re_field_declaration field_name) content with
  | None => None
  | Some field_match => last_javadoc (Py.slice_to (m_start field_match) content)
  end.

Definition _extract_field_annotations (content field_name : string) : list string :=
  map (fun m => group_str content m 1) (finditer (re_field_annotation field_name) content).

(** One parameter of a record header: the last blank-separated part is
    the name, the parts before it the type. *)
Definition record_field (param : string) : list FieldInfo.t :=
  let param := Py.strip param in
  if String.eqb param EmptyString then []
  else
    let parts := Py.split_ws param in
    if 2 <=? length parts
    then match List.last (map Some parts) None with
         | Some field_name =>
             [FieldInfo.Mk field_name (Py.join " " (take (length parts - 1) parts)) None []]
         | None => []
         end
    else [].

Definition _extract_fields (content : string) (is_record : bool) : list FieldInfo.t :=
  if is_record
  then match search re_record_params content with
       | Some m => flat_map record_field (Py.split ","%char (group_str content m 1))
       | None => []
       end
  else map (fun m =>
              let field_type := Py.strip (group_str content m 1) in
              let field_name := group_str content m 2 in
              FieldInfo.Mk field_name field_type
                           (_extract_field_javadoc content field_name)
                           (_extract_field_annotations content field_name))
           (finditer re_field content).

Definition _extract_extends (content class_name : string) : option string :=
  match search (re_extends class_name) content with
  | Some m => Some (group_str content m 1)
  | None => None
  end.

Definition _extract_class_annotations (content class_name : string) : list string :=
  match search (re_declaration class_name) content with
  | None => []
  | Some class_match =>
      let start_pos := m_start class_match - 500 in
      let before_class := Py.slice start_pos (m_start class_match) content in
      map (group0 before_class) (finditer re_annotation before_class)
  end.

(** *** [_infer_bounded_context] *)

Definition context_markers : list string := ["domain"; "event"; "events"].
Definition generic_parts : list string := ["com"; "org"; "net"; "domain"; "event"; "events"].

(** The [for i, part in enumerate(parts)] loop from index [i] on, [rest]
    being [parts[i:]]; [None] when the loop ends without returning. *)
Fixpoint context_loop (parts : list string) (i : nat) (rest : list string) : option string :=
  match rest with
  | [] => None
  | part :: rest' =>
      if Py.mem part context_markers && (0 <? i)
      then Some (Py.capitalize (nth (i - 1) parts EmptyString))
      else context_loop parts (S i) rest'
  end.

Definition _infer_bounded_context (package : string) : string :=
  let parts := Py.split "."%char package in
  match context_loop parts 0 parts with
  | Some context => context
  | None =>
      let meaningful_parts := List.filter (fun p => negb (Py.mem p generic_parts)) parts in
      match List.last (map Some meaningful_parts) None with
      | Some p => Py.capitalize p
      | None => "Unknown"
      end
  end.

(** *** [_parse_event_file], [scan] *)

Definition _parse_event_file (f : SourceFile) : option EventInfo.t :=
  match sf_text f with
  | None => None
  | Some content =>
      if negb (_is_event_class content) then None
      else
        let package := _extract_package content in
        match _extract_class_name content with
        | None => None
        | Some class_name =>
            let javadoc := _extract_class_javadoc content class_name in
            let is_record := Py.contains ("record " +:+ class_name) content in
            let fields := _extract_fields content is_record in
            let extends := _extract_extends content class_name in
            let annotations := _extract_class_annotations content class_name in
            let bounded_context := _infer_bounded_context package in
            Some (EventInfo.Mk class_name package (sf_rel f) bounded_context javadoc
                               fields extends annotations is_record)
        end
  end.

(** The loop body of [scan]: the events found so far, then one more file. *)
Definition scan_file (events : list EventInfo.t) (java_file : SourceFile) : list EventInfo.t :=
  if _is_event_package (sf_path java_file)
  then match _parse_event_file java_file with
       | Some event_info => events ++ [event_info]
       | None => events
       end
  else events.

Definition scan (java_files : list SourceFile) : list EventInfo.t :=
  foldl scan_file [] java_files.

(** *** [save_to_json] *)

(** [asdict] of the two dataclasses, fields in declaration order. *)
Definition asdict_field (f : FieldInfo.t) : Json.value :=
  Json.JDict [("name", Json.JStr (FieldInfo.name f)); ("type", Json.JStr (FieldInfo.type f));
              ("javadoc", Json.of_option (FieldInfo.javadoc f));
              ("annotations", Json.JList (map Json.JStr (FieldInfo.annotations f)))].

Definition asdict_event (e : EventInfo.t) : Json.value :=
  Json.JDict [("name", Json.JStr (EventInfo.name e));
              ("package", Json.JStr (EventInfo.package e));
              ("file_path", Json.JStr (EventInfo.file_path e));
              ("bounded_context", Json.JStr (EventInfo.bounded_context e));
              ("javadoc", Json.of_option (EventInfo.javadoc e));
              ("fields", Json.JList (map asdict_field (EventInfo.fields e)));
              ("extends", Json.of_option (EventInfo.extends e));
              ("annotations", Json.JList (map Json.JStr (EventInfo.annotations e)));
              ("is_record", Json.JBool (EventInfo.is_record e))].

(** The summary's grouping labels, [list(set(e.bounded_context for e in
    self.events))], given the iteration order of sets in this run. *)
Definition summary_contexts (list_of_set : list string -> list string)
    (events : list EventInfo.t) : list string :=
  list_of_set (map EventInfo.bounded_context events).

(** What every run guarantees of [list(set(l))]: the elements of [l], each
    once.  The order is the interpreter's and may change between runs. *)
Definition set_listing (list_of_set : list string -> list string) : Prop :=
  forall l, NoDup (list_of_set l) /\ forall x, x ∈ list_of_set l <-> x ∈ l.

(** The dictionary [save_to_json] builds. *)
Definition report (list_of_set : list string -> list string) (events : list EventInfo.t)
    : Json.value :=
  Json.JDict
    [("events", Json.JList (map asdict_event events));
     ("summary",
      Json.JDict [("total_events", Json.JInt (length events));
                  ("bounded_contexts",
                   Json.JList (map Json.JStr (summary_contexts list_of_set events)))])].

(** The text [save_to_json] writes to the output file. *)
Definition save_to_json (list_of_set : list string -> list string)
    (events : list EventInfo.t) : string :=
  Json.dumps (report list_of_set events).

(** A scan followed by the serialisation, as [main] runs them. *)
Definition run (list_of_set : list string -> list string) (java_files : list SourceFile)
    : string :=
  save_to_json list_of_set (scan java_files).

End ScanEvents.

(** ** [analyze_publishers.py] *)
Module AnalyzePublishers.
Import Re.

Module PublisherInfo.
Record t : Type := Mk {
  event_name : string;
  class_name : string;
  method_name : string;
  file_path : string;
  line_number : nat;
  code_snippet : string;
  package : string
}.
End PublisherInfo.

(** [package\s+([\w.]+);] *)
Definition re_package : regex :=
  cat [lit "package"; plus ws;
       grp 1 (plus (Cls (fun c => Py.isword c || Ascii.eqb c "."%char))); lit ";"].

(** [(?:public\s+)?(?:class|interface|record)\s+(\w+)] *)
Definition re_class_name : regex :=
  cat [opt (cat [lit "public"; plus ws]); alt [lit "class"; lit "interface"; lit "record"];
       plus ws; grp 1 (plus word)].

(** The event type of a constructor call: [(\w+Event)] *)
Definition event_type : regex := grp 1 (cat [plus word; lit "Event"]).

(** [patterns]: [\.publishEvent\s*\(\s*new\s+(\w+Event)],
    [\.publish\s*\(\s*new\s+(\w+Event)], [publishEvent\s*\(\s*new\s+(\w+Event)] *)
Definition patterns : list regex :=
  [cat [lit ".publishEvent"; star ws; lit "("; star ws; lit "new"; plus ws; event_type];
   cat [lit ".publish"; star ws; lit "("; star ws; lit "new"; plus ws; event_type];
   cat [lit "publishEvent"; star ws; lit "("; star ws; lit "new"; plus ws; event_type]].

(** [(?:public|private|protected)?\s*(?:static\s+)?(?:\w+\s+)*(\w+)\s*\(] *)
Definition re_method : regex :=
  cat [opt (alt [lit "public"; lit "private"; lit "protected"]); star ws;
       opt (cat [lit "static"; plus ws]); star (cat [plus word; plus ws]);
       grp 1 (plus word); star ws; lit "("].

Definition _extract_package (content : string) : string :=
  match search re_package content with
  | Some m => group_str content m 1
  | None => EmptyString
  end.

Definition _extract_class_name (content : string) : string :=
  match search re_class_name content with
  | Some m => group_str content m 1
  | None => "Unknown"
  end.

(** The loop of [_find_method_name] over the lines it visits, nearest
    first. *)
Fixpoint first_signature (visited : list string) : string :=
  match visited with
  | [] => "unknown"
  | l :: visited' =>
      let line := Py.strip l in
      match search re_method line with
      | Some m => group_str line m 1
      | None => first_signature visited'
      end
  end.

(** [for i in range(target_line - 1, -1, -1)]: the lines of indices
    [target_line - 1] down to [0]. *)
Definition _find_method_name (lines : list string) (target_line : nat) : string :=
  first_signature (rev (take target_line lines)).

Definition _get_code_snippet (lines : list string) (line_num context : nat) : string :=
  let start := line_num - context - 1 in
  let end_ := Nat.min (length lines) (line_num + context) in
  let snippet_lines :=
    map (fun i =>
           (if i =? line_num - 1 then ">>> " else "    ") +:+ nth i lines EmptyString)
        (seq start (end_ - start)) in
  Py.join (String newline EmptyString) snippet_lines.

(** The inner loop over [patterns] for one line ([line_num] counts from 1). *)
Definition findings_of_line (lines : list string) (file_path package class_name : string)
    (line_num : nat) (line : string) : list PublisherInfo.t :=
  flat_map (fun pattern =>
              match search pattern line with
              | Some m =>
                  let event_name := group_str line m 1 in
                  let method_name := _find_method_name lines line_num in
                  let code_snippet := _get_code_snippet lines line_num 2 in
                  [PublisherInfo.Mk event_name class_name method_name file_path
                                    line_num code_snippet package]
              | None => []
              end)
           patterns.

Definition _find_publish_calls (publishers : list PublisherInfo.t)
    (content file_path package class_name : string) : list PublisherInfo.t :=
  let lines := Py.split newline content in
  publishers ++
  concat (imap (fun i line => findings_of_line lines file_path package class_name (S i) line)
               lines).

Definition _analyze_file (publishers : list PublisherInfo.t) (f : SourceFile)
    : list PublisherInfo.t :=
  match sf_text f with
  | None => publishers
  | Some content =>
      let package := _extract_package content in
      let class_name := _extract_class_name content in
      _find_publish_calls publishers content (sf_rel f) package class_name
  end.

Definition analyze (java_files : list SourceFile) : list PublisherInfo.t :=
  foldl _analyze_file [] java_files.

End AnalyzePublishers.

(** ** [analyze_listeners.py] *)
Module AnalyzeListeners.
Import Re.

Module ListenerInfo.
Record t : Type := Mk {
  event_name : string;
  class_name : string;
  method_name : string;
  file_path : string;
  line_number : nat;
  package : string;
  is_async : bool;
  is_transactional : bool;
  transaction_phase : option string;
  condition : option string;
  javadoc : option string
}.
End ListenerInfo.

(** [package\s+([\w.]+);] *)
Definition re_package : regex :=
  cat [lit "package"; plus ws;
       grp 1 (plus (Cls (fun c => Py.isword c || Ascii.eqb c "."%char))); lit ";"].

(** [(?:public\s+)?(?:class|interface)\s+(\w+)] *)
Definition re_class_name : regex :=
  cat [opt (cat [lit "public"; plus ws]); alt [lit "class"; lit "interface"];
       plus ws; grp 1 (plus word)].

(** [phase\s*=\s*TransactionPhase\.(\w+)] *)
Definition re_phase : regex :=
  cat [lit "phase"; star ws; lit "="; star ws; lit "TransactionPhase."; grp 1 (plus word)].

(** [condition\s*=\s*Q([^Q]+)Q], where Q stands for the double quote *)
Definition re_condition : regex :=
  cat [lit "condition"; star ws; lit "="; star ws;
       Lit dquote; grp 1 (plus (notchar dquote)); Lit dquote].

(** [(public|private|protected)\s+\w+\s+(\w+)\s*\(]; the search for the
    method line uses the same pattern with its second group unnamed. *)
Definition re_method : regex :=
  cat [grp 1 (alt [lit "public"; lit "private"; lit "protected"]); plus ws; plus word;
       plus ws; grp 2 (plus word); star ws; lit "("].

(** [\(([^)]+)\)] *)
Definition re_params : regex :=
  cat [lit "("; grp 1 (plus (notchar ")"%char)); lit ")"].

(** [(\w+Event)\s+\w+] *)
Definition re_event_param : regex :=
  cat [grp 1 (cat [plus word; lit "Event"]); plus ws; plus word].

(** [classes\s*=\s*\{?\s*(\w+Event)\.class] *)
Definition re_classes : regex :=
  cat [lit "classes"; star ws; lit "="; star ws; opt (lit "{"); star ws;
       grp 1 (cat [plus word; lit "Event"]); lit ".class"].

(** [@\w+EventListener\s*\(\s*(\w+Event)\.class] *)
Definition re_single_class : regex :=
  cat [lit "@"; plus word; lit "EventListener"; star ws; lit "("; star ws;
       grp 1 (cat [plus word; lit "Event"]); lit ".class"].

Definition _extract_package (content : string) : string :=
  match search re_package content with
  | Some m => group_str content m 1
  | None => EmptyString
  end.

Definition _extract_class_name (content : string) : string :=
  match search re_class_name content with
  | Some m => group_str content m 1
  | None => "Unknown"
  end.

Definition _extract_event_from_parameter (method_line : string) : option string :=
  match search re_params method_line with
  | None => None
  | Some param_match =>
      let params := group_str method_line param_match 1 in
      match search re_event_param params with
      | Some event_match => Some (group_str params event_match 1)
      | None => None
      end
  end.

(** The loop of [_extract_javadoc] over the line indices it visits. *)
Fixpoint javadoc_loop (lines : list string) (indices : list nat) (in_javadoc : bool)
    (javadoc_lines : list string) : list string :=
  match indices with
  | [] => javadoc_lines
  | i :: indices' =>
      let line := Py.strip (nth i lines EmptyString) in
      if String.eqb line "*/" then javadoc_loop lines indices' true javadoc_lines
      else if Py.startswith "/**" line then javadoc_lines
      else if in_javadoc
      then
        let line := if Py.startswith "*" line then Py.strip (Re.drop 1 line) else line in
        if negb (String.eqb line EmptyString) && negb (Py.startswith "@" line)
        then javadoc_loop lines indices' in_javadoc (line :: javadoc_lines)
        else javadoc_loop lines indices' in_javadoc javadoc_lines
      else javadoc_loop lines indices' in_javadoc javadoc_lines
  end.

(** [range(line_num - 1, max(0, line_num - 20), -1)] *)
Definition javadoc_range (line_num : nat) : list nat :=
  let stop := line_num - 20 in
  rev (seq (S stop) (line_num - 1 - stop)).

Definition _extract_javadoc (lines : list string) (line_num : nat) : option string :=
  match javadoc_loop lines (javadoc_range line_num) false [] with
  | [] => None
  | javadoc_lines => Some (Py.strip (Py.join " " javadoc_lines))
  end.

(** The [while] loop looking for [@Async] between the annotation and the
    first line that starts with [public]. *)
Fixpoint async_loop (rest : list string) (is_async : bool) : bool :=
  match rest with
  | [] => is_async
  | l :: rest' =>
      if Py.startswith "public" (Py.strip l) then is_async
      else async_loop rest' (if Py.contains "@Async" l then true else is_async)
  end.

(** [for j in range(start_line + 1, min(start_line + 10, len(lines)))]:
    the first index whose line has a method signature. *)
Definition find_method_line (lines : list string) (start_line : nat) : option nat :=
  let stop := Nat.min (start_line + 10) (length lines) in
  List.find (fun j => matches re_method (nth j lines EmptyString))
            (seq (S start_line) (stop - S start_line)).

(** The event type for a listener: from the parameter list of the method
    line or, failing that, from the annotation's class reference. *)
Definition resolve_event_name (method_line annotation_line : string) : option string :=
  match _extract_event_from_parameter method_line with
  | Some event_name => Some event_name
  | None =>
      match search re_classes annotation_line with
      | Some classes_match => Some (group_str annotation_line classes_match 1)
      | None =>
          match search re_single_class annotation_line with
          | Some class_match => Some (group_str annotation_line class_match 1)
          | None => None
          end
      end
  end.

Definition _parse_listener (lines : list string) (start_line : nat)
    (file_path package class_name : string) (has_class_async : bool)
    : option ListenerInfo.t :=
  let annotation_line := nth start_line lines EmptyString in
  let is_transactional := Py.contains "@TransactionalEventListener" annotation_line in
  let transaction_phase :=
    if is_transactional
    then match search re_phase annotation_line with
         | Some phase_match => Some (group_str annotation_line phase_match 1)
         | None => None
         end
    else None in
  let condition :=
    match search re_condition annotation_line with
    | Some condition_match => Some (group_str annotation_line condition_match 1)
    | None => None
    end in
  let is_async := async_loop (skipn (S start_line) lines) has_class_async in
  match find_method_line lines start_line with
  | None => None
  | Some 0 => None
  | Some method_line =>
      let method_text := nth method_line lines EmptyString in
      match search re_method method_text with
      | None => None
      | Some method_match =>
          let method_name := group_str method_text method_match 2 in
          match resolve_event_name method_text annotation_line with
          | None => None
          | Some event_name =>
              let javadoc := _extract_javadoc lines start_line in
              Some (ListenerInfo.Mk event_name class_name method_name file_path
                                    (start_line + 1) package is_async is_transactional
                                    transaction_phase condition javadoc)
          end
      end
  end.

(** The body of the loop of [_find_listeners] for line [i]. *)
Definition listeners_of_line (lines : list string) (file_path package class_name : string)
    (has_class_async : bool) (i : nat) (line : string) : list ListenerInfo.t :=
  if Py.contains "@EventListener" line || Py.contains "@TransactionalEventListener" line
  then match _parse_listener lines i file_path package class_name has_class_async with
       | Some listener_info => [listener_info]
       | None => []
       end
  else [].

Definition _find_listeners (listeners : list ListenerInfo.t) (content file_path package
    class_name : string) (has_class_async : bool) : list ListenerInfo.t :=
  let lines := Py.split newline content in
  listeners ++
  concat (imap (listeners_of_line lines file_path package class_name has_class_async) lines).

Definition _analyze_file (listeners : list ListenerInfo.t) (f : SourceFile)
    : list ListenerInfo.t :=
  match sf_text f with
  | None => listeners
  | Some content =>
      let package := _extract_package content in
      let class_name := _extract_class_name content in
      let has_class_async := Py.contains "@Async" content in
      _find_listeners listeners content (sf_rel f) package class_name has_class_async
  end.

Definition analyze (java_files : list SourceFile) : list ListenerInfo.t :=
  foldl _analyze_file [] java_files.

End AnalyzeListeners.

(** ** [group_by_event]

    The same loop stands in [analyze_publishers.py] and
    [analyze_listeners.py] ([group_by_event], keyed by [event_name]) and in
    [generate_event_docs.py] ([_group_by_event]): a dictionary from the key
    of an item to the list of the items with that key.  The dictionary is
    read by key; the order in which Python would iterate it is not part of
    the model. *)
Module Grouping.

Section GroupBy.
Context {A : Type}.
Variable key : A -> string.

(** The body of the loop for one item. *)
Definition group_step (grouped : gmap string (list A)) (item : A) : gmap string (list A) :=
  let event_name := key item in
  let grouped :=
    match grouped !! event_name with
    | None => <[event_name := []]> grouped
    | Some _ => grouped
    end in
  <[event_name := default [] (grouped !! event_name) ++ [item]]> grouped.

Definition group_by_event (items : list A) : gmap string (list A) :=
  foldl group_step ∅ items.

End GroupBy.

End Grouping.

(** [PublisherAnalyzer.group_by_event] and [ListenerAnalyzer.group_by_event] *)
Definition publishers_group_by_event
    : list AnalyzePublishers.PublisherInfo.t ->
      gmap string (list AnalyzePublishers.PublisherInfo.t) :=
  Grouping.group_by_event AnalyzePublishers.PublisherInfo.event_name.

Definition listeners_group_by_event
    : list AnalyzeListeners.ListenerInfo.t ->
      gmap string (list AnalyzeListeners.ListenerInfo.t) :=
  Grouping.group_by_event AnalyzeListeners.ListenerInfo.event_name.

(** ** [generate_all_docs.py]: the pipeline *)
Module Pipeline.

(** The five scripts [EventDocPipeline.run] launches, in its order. *)
Inductive Script : Type :=
| ScanEventsScript | AnalyzePublishersScript | AnalyzeListenersScript
| GenerateEventDocsScript | GenerateDiagramsScript.

(** What the world answers: the return code of [subprocess.run] for a
    script ([None] when the call itself raises), and whether
    [generate_diagrams.py] stands beside the pipeline. *)
Record World : Type := MkWorld {
  returncode : Script -> option Z;
  diagram_script_exists : bool
}.

(** The scripts launched so far, oldest first. *)
Definition Trace : Type := list Script.

(** A step either returns or raises; either way it leaves a trace. *)
Inductive Outcome : Type := Returned | Raised.

(** [_step1_scan_events] to [_step4_generate_docs]: launch, and raise
    unless the return code is zero. *)
Definition required_step (w : World) (s : Script) (t : Trace) : Outcome * Trace :=
  match returncode w s with
  | None => (Raised, t ++ [s])
  | Some rc => if (rc =? 0)%Z then (Returned, t ++ [s]) else (Raised, t ++ [s])
  end.

(** [_step5_generate_diagrams]: launched only if the script exists; a
    return code other than zero is reported and tolerated. *)
Definition _step5_generate_diagrams (w : World) (t : Trace) : Outcome * Trace :=
  if diagram_script_exists w
  then match returncode w GenerateDiagramsScript with
       | None => (Raised, t ++ [GenerateDiagramsScript])
       | Some _ => (Returned, t ++ [GenerateDiagramsScript])
       end
  else (Returned, t).

(** Sequencing inside the [try] block: the first exception ends it. *)
Definition and_then (step : Trace -> Outcome * Trace) (rest : Trace -> Outcome * Trace)
    (t : Trace) : Outcome * Trace :=
  match step t with
  | (Returned, t') => rest t'
  | (Raised, t') => (Raised, t')
  end.

(** The scripts whose failure ends the run, in the order of the steps. *)
Definition required : list Script :=
  [ScanEventsScript; AnalyzePublishersScript; AnalyzeListenersScript;
   GenerateEventDocsScript].

(** [run]: the exit code and the scripts that were launched. *)
Definition run (w : World) : nat * Trace :=
  match and_then (required_step w ScanEventsScript)
         (and_then (required_step w AnalyzePublishersScript)
           (and_then (required_step w AnalyzeListenersScript)
             (and_then (required_step w GenerateEventDocsScript)
                       (_step5_generate_diagrams w)))) [] with
  | (Returned, t) => (0, t)
  | (Raised, t) => (1, t)
  end.

End Pipeline.

(** ** [generate_mermaid.py] *)
Module GenerateMermaid.

(** The generator's mutable state: [node_ids] and [counter]. *)
Record MermaidDFDGenerator : Type := MkGenerator {
  node_ids : gmap string string;
  counter : nat
}.

Definition init : MermaidDFDGenerator := MkGenerator ∅ 0.

(** [_get_node_id]: the id and the state after the call. *)
Definition _get_node_id (self : MermaidDFDGenerator) (name : string)
    : string * MermaidDFDGenerator :=
  match node_ids self !! name with
  | Some node_id => (node_id, self)
  | None =>
      let counter := S (counter self) in
      let node_id := "node" +:+ Json.decimal counter in
      (node_id, MkGenerator (<[name := node_id]> (node_ids self)) counter)
  end.

(** The generator after asking for the ids of [names], one after the
    other. *)
Definition allocate (g : MermaidDFDGenerator) (names : list string) : MermaidDFDGenerator :=
  foldl (fun g name => (_get_node_id g name).2) g names.

(** The ids are [node1] to [node<counter>], one for each name. *)
Definition well_numbered (g : MermaidDFDGenerator) : Prop :=
  size (node_ids g) = counter g
  /\ (forall name id, node_ids g !! name = Some id ->
        exists k, 1 <= k <= counter g /\ id = "node" +:+ Json.decimal k)
  /\ (forall a b id, node_ids g !! a = Some id -> node_ids g !! b = Some id -> a = b).

Definition _get_shape (component_type : string) : string * string :=
  if String.eqb component_type "client" then ("[[", "]]")
  else if String.eqb component_type "external_service" then ("[[", "]]")
  else if String.eqb component_type "database" then ("[[(", ")]]")
  else if String.eqb component_type "controller" then ("[", "]")
  else if String.eqb component_type "service" then ("[", "]")
  else if String.eqb component_type "repository" then ("[", "]")
  else if String.eqb component_type "cache" then ("[[(", ")]]")
  else if String.eqb component_type "message_queue" then ("[[(", ")]]")
  else ("[", "]").

(** The generator and the lines written so far. *)
Definition Writer : Type := (MermaidDFDGenerator * list string)%type.

Definition append (line : string) (w : Writer) : Writer := (w.1, w.2 ++ [line]).

Definition quote : string := String dquote EmptyString.

(** The generator reads the dictionary that [analyze_project.py] prints.
    The model takes the analyser's record, in which the four lists are
    always present, so that the defaults of [self.data.get] play no part. *)
Definition entity_node (w : Writer) (entity : AnalyzeProject.ExternalEntity.t) : Writer :=
  let '(node_id, g) := _get_node_id w.1 (AnalyzeProject.ExternalEntity.name entity) in
  let '(start_shape, end_shape) := _get_shape (AnalyzeProject.ExternalEntity.type entity) in
  append ("    " +:+ node_id +:+ start_shape +:+ quote
          +:+ AnalyzeProject.ExternalEntity.name entity +:+ "<br/>("
          +:+ AnalyzeProject.ExternalEntity.type entity +:+ ")" +:+ quote +:+ end_shape)
         (g, w.2).

Definition process_node (w : Writer) (process : AnalyzeProject.Process.t) : Writer :=
  let '(node_id, g) := _get_node_id w.1 (AnalyzeProject.Process.class_name process) in
  let '(start_shape, end_shape) := _get_shape (AnalyzeProject.Process.type process) in
  let method_info :=
    match AnalyzeProject.Process.methods process with
    | [] => EmptyString
    | methods => "<br/>" +:+ Json.decimal (length methods) +:+ " methods"
    end in
  append ("    " +:+ node_id +:+ start_shape +:+ quote
          +:+ AnalyzeProject.Process.name process +:+ "<br/>("
          +:+ AnalyzeProject.Process.type process +:+ ")" +:+ method_info
          +:+ quote +:+ end_shape)
         (g, w.2).

Definition store_node (w : Writer) (store : AnalyzeProject.DataStore.t) : Writer :=
  let '(node_id, g) := _get_node_id w.1 (AnalyzeProject.DataStore.name store) in
  let '(start_shape, end_shape) := _get_shape (AnalyzeProject.DataStore.type store) in
  append ("    " +:+ node_id +:+ start_shape +:+ quote
          +:+ AnalyzeProject.DataStore.name store +:+ "<br/>("
          +:+ AnalyzeProject.DataStore.entity_class store +:+ ")" +:+ quote +:+ end_shape)
         (g, w.2).

Definition flow_edge (w : Writer) (flow : AnalyzeProject.DataFlow.t) : Writer :=
  let '(from_id, g) := _get_node_id w.1 (AnalyzeProject.DataFlow.from_component flow) in
  let '(to_id, g) := _get_node_id g (AnalyzeProject.DataFlow.to_component flow) in
  let label := AnalyzeProject.DataFlow.flow_type flow in
  append ("    " +:+ from_id +:+ " -->|" +:+ label +:+ "| " +:+ to_id) (g, w.2).

(** A client entity is connected to those of its references that already
    have a node. *)
Definition client_edge (entity : AnalyzeProject.ExternalEntity.t) (w : Writer) (ref : string)
    : Writer :=
  match node_ids w.1 !! ref with
  | Some _ =>
      let '(entity_id, g) := _get_node_id w.1 (AnalyzeProject.ExternalEntity.name entity) in
      let '(ref_id, g) := _get_node_id g ref in
      append ("    " +:+ entity_id +:+ " -->|HTTP Request| " +:+ ref_id) (g, w.2)
  | None => w
  end.

Definition client_edges (w : Writer) (entity : AnalyzeProject.ExternalEntity.t) : Writer :=
  if String.eqb (AnalyzeProject.ExternalEntity.type entity) "client"
  then foldl (client_edge entity) w (AnalyzeProject.ExternalEntity.references entity)
  else w.

(** A repository is connected to every store whose entity class name, in
    lower case, occurs in its own. *)
Definition crud_edge (process : AnalyzeProject.Process.t) (w : Writer)
    (store : AnalyzeProject.DataStore.t) : Writer :=
  if Py.contains (Py.lower (AnalyzeProject.DataStore.entity_class store))
                 (Py.lower (AnalyzeProject.Process.class_name process))
  then
    let '(repo_id, g) := _get_node_id w.1 (AnalyzeProject.Process.class_name process) in
    let '(store_id, g) := _get_node_id g (AnalyzeProject.DataStore.name store) in
    append ("    " +:+ repo_id +:+ " <-->|CRUD| " +:+ store_id) (g, w.2)
  else w.

Definition crud_edges (data : AnalyzeProject.JavaProjectAnalyzer) (w : Writer)
    (process : AnalyzeProject.Process.t) : Writer :=
  if String.eqb (AnalyzeProject.Process.type process) "repository"
  then foldl (crud_edge process) w (AnalyzeProject.data_stores data)
  else w.

Definition class_line (style : string) (w : Writer) (name : string) : Writer :=
  let '(node_id, g) := _get_node_id w.1 name in
  append ("    class " +:+ node_id +:+ " " +:+ style) (g, w.2).

(** The names for which [generate] declares a node, in its order. *)
Definition declared_names (data : AnalyzeProject.JavaProjectAnalyzer) : list string :=
  map AnalyzeProject.ExternalEntity.name (AnalyzeProject.external_entities data)
  ++ map AnalyzeProject.Process.class_name (AnalyzeProject.processes data)
  ++ map AnalyzeProject.DataStore.name (AnalyzeProject.data_stores data).

(** The three loops that declare the nodes. *)
Definition declare_nodes (data : AnalyzeProject.JavaProjectAnalyzer) (w : Writer) : Writer :=
  let w := append "    %% External Entities" w in
  let w := foldl entity_node w (AnalyzeProject.external_entities data) in
  let w := append "    %% Processes" (append EmptyString w) in
  let w := foldl process_node w (AnalyzeProject.processes data) in
  let w := append "    %% Data Stores" (append EmptyString w) in
  foldl store_node w (AnalyzeProject.data_stores data).

(** The loops that draw the edges. *)
Definition draw_flows (data : AnalyzeProject.JavaProjectAnalyzer) (w : Writer) : Writer :=
  foldl flow_edge w (AnalyzeProject.data_flows data).

Definition draw_edges (data : AnalyzeProject.JavaProjectAnalyzer) (w : Writer) : Writer :=
  let w := append "    %% Data Flows" (append EmptyString w) in
  let w := draw_flows data w in
  let w := foldl client_edges w (AnalyzeProject.external_entities data) in
  foldl (crud_edges data) w (AnalyzeProject.processes data).

Definition apply_styles (data : AnalyzeProject.JavaProjectAnalyzer) (w : Writer) : Writer :=
  let w := append "    %% Styling" (append EmptyString w) in
  let w := append "    classDef externalEntity fill:#e1f5ff,stroke:#01579b,stroke-width:2px" w in
  let w := append "    classDef process fill:#fff9c4,stroke:#f57f17,stroke-width:2px" w in
  let w := append "    classDef dataStore fill:#f3e5f5,stroke:#4a148c,stroke-width:2px" w in
  let w := foldl (class_line "externalEntity") w
                 (map AnalyzeProject.ExternalEntity.name (AnalyzeProject.external_entities data)) in
  let w := foldl (class_line "process") w
                 (map AnalyzeProject.Process.class_name (AnalyzeProject.processes data)) in
  foldl (class_line "dataStore") w
        (map AnalyzeProject.DataStore.name (AnalyzeProject.data_stores data)).

(** [generate]: the generator afterwards and the diagram. *)
Definition generate_writer (self : MermaidDFDGenerator)
    (data : AnalyzeProject.JavaProjectAnalyzer) : Writer :=
  apply_styles data (draw_edges data (declare_nodes data (self, ["graph TB"]))).

Definition generate (self : MermaidDFDGenerator) (data : AnalyzeProject.JavaProjectAnalyzer)
    : string :=
  Py.join (String newline EmptyString) (generate_writer self data).2.

(** [generate_context_diagram]: one node for the system, one for each
    external entity and each data store, each connected to the system. *)
Definition system_id : string := "system".

(** The edges an external entity gets in the context diagram. *)
Definition context_edges (entity : AnalyzeProject.ExternalEntity.t) : nat :=
  if String.eqb (AnalyzeProject.ExternalEntity.type entity) "client" then 2
  else if String.eqb (AnalyzeProject.ExternalEntity.type entity) "external_service" then 1
  else 0.

Definition context_entity (w : Writer) (entity : AnalyzeProject.ExternalEntity.t) : Writer :=
  let '(node_id, g) := _get_node_id w.1 (AnalyzeProject.ExternalEntity.name entity) in
  let '(start_shape, end_shape) := _get_shape (AnalyzeProject.ExternalEntity.type entity) in
  let w := append ("    " +:+ node_id +:+ start_shape +:+ quote
                   +:+ AnalyzeProject.ExternalEntity.name entity +:+ quote +:+ end_shape)
                  (g, w.2) in
  if String.eqb (AnalyzeProject.ExternalEntity.type entity) "client"
  then append ("    " +:+ system_id +:+ " -->|Responses| " +:+ node_id)
              (append ("    " +:+ node_id +:+ " -->|Requests| " +:+ system_id) w)
  else if String.eqb (AnalyzeProject.ExternalEntity.type entity) "external_service"
  then append ("    " +:+ system_id +:+ " -->|API Calls| " +:+ node_id) w
  else w.

Definition context_store (w : Writer) (store : AnalyzeProject.DataStore.t) : Writer :=
  let '(node_id, g) := _get_node_id w.1 (AnalyzeProject.DataStore.name store) in
  let '(start_shape, end_shape) := _get_shape (AnalyzeProject.DataStore.type store) in
  append ("    " +:+ system_id +:+ " <-->|Data| " +:+ node_id)
         (append ("    " +:+ node_id +:+ start_shape +:+ quote
                  +:+ AnalyzeProject.DataStore.name store +:+ quote +:+ end_shape)
                 (g, w.2)).

Definition generate_context_writer (self : MermaidDFDGenerator)
    (data : AnalyzeProject.JavaProjectAnalyzer) : Writer :=
  let w := (self, ["graph TB"; "    %% Context Diagram - Level 0"; EmptyString]) in
  let w := append ("    " +:+ system_id +:+ "[" +:+ quote +:+ "System<br/>(Application)"
                   +:+ quote +:+ "]") w in
  let w := foldl context_entity w (AnalyzeProject.external_entities data) in
  let w := foldl context_store w (AnalyzeProject.data_stores data) in
  let w := append "    %% Styling" (append EmptyString w) in
  let w := append "    classDef systemNode fill:#ffecb3,stroke:#ff6f00,stroke-width:3px" w in
  let w := append "    classDef externalEntity fill:#e1f5ff,stroke:#01579b,stroke-width:2px" w in
  let w := append "    classDef dataStore fill:#f3e5f5,stroke:#4a148c,stroke-width:2px" w in
  let w := append ("    class " +:+ system_id +:+ " systemNode") w in
  let w := foldl (class_line "externalEntity") w
                 (map AnalyzeProject.ExternalEntity.name (AnalyzeProject.external_entities data)) in
  foldl (class_line "dataStore") w
        (map AnalyzeProject.DataStore.name (AnalyzeProject.data_stores data)).

Definition generate_context_diagram (self : MermaidDFDGenerator)
    (data : AnalyzeProject.JavaProjectAnalyzer) : string :=
  Py.join (String newline EmptyString) (generate_context_writer self data).2.

End GenerateMermaid.

(** ** The listener annotation of the renderers

    [generate_diagrams.py] (sequence diagrams) and [generate_event_docs.py]
    (event pages) compute the same annotation from a listener dictionary
    of [listeners.json], which holds what [asdict] makes of a
    [ListenerInfo]: scalars under eleven keys. *)
Module ListenerRendering.

Inductive Scalar : Type :=
| PyNone | PyBool (b : bool) | PyInt (n : nat) | PyStr (s : string).

Definition of_option (o : option string) : Scalar :=
  match o with
  | Some s => PyStr s
  | None => PyNone
  end.

(** [asdict(listener)], as [save_to_json] serialises it and [json.load]
    gives it back. *)
Definition asdict (l : AnalyzeListeners.ListenerInfo.t) : list (string * Scalar) :=
  [("event_name", PyStr (AnalyzeListeners.ListenerInfo.event_name l));
   ("class_name", PyStr (AnalyzeListeners.ListenerInfo.class_name l));
   ("method_name", PyStr (AnalyzeListeners.ListenerInfo.method_name l));
   ("file_path", PyStr (AnalyzeListeners.ListenerInfo.file_path l));
   ("line_number", PyInt (AnalyzeListeners.ListenerInfo.line_number l));
   ("package", PyStr (AnalyzeListeners.ListenerInfo.package l));
   ("is_async", PyBool (AnalyzeListeners.ListenerInfo.is_async l));
   ("is_transactional", PyBool (AnalyzeListeners.ListenerInfo.is_transactional l));
   ("transaction_phase", of_option (AnalyzeListeners.ListenerInfo.transaction_phase l));
   ("condition", of_option (AnalyzeListeners.ListenerInfo.condition l));
   ("javadoc", of_option (AnalyzeListeners.ListenerInfo.javadoc l))].

(** [d.get(key, default)] *)
Fixpoint get (key : string) (default : Scalar) (d : list (string * Scalar)) : Scalar :=
  match d with
  | [] => default
  | (k, v) :: d' => if String.eqb k key then v else get key default d'
  end.

(** The truth value Python gives a scalar. *)
Definition truthy (v : Scalar) : bool :=
  match v with
  | PyNone => false
  | PyBool b => b
  | PyInt n => negb (n =? 0)
  | PyStr s => negb (String.eqb s EmptyString)
  end.

(** [str(v)], as an f-string formats it. *)
Definition str (v : Scalar) : string :=
  match v with
  | PyNone => "None"
  | PyBool true => "True"
  | PyBool false => "False"
  | PyInt n => Json.decimal n
  | PyStr s => s
  end.

(** The annotation behind [handle] in a sequence diagram. *)
Definition annotation (listener : list (string * Scalar)) : string :=
  if truthy (get "is_async" PyNone listener) then " (async)"
  else if truthy (get "is_transactional" PyNone listener)
  then
    let phase := get "transaction_phase" (PyStr "AFTER_COMMIT") listener in
    " (" +:+ str phase +:+ ")"
  else EmptyString.

End ListenerRendering.

(** ** What a pattern matches, told without the matcher

    [lang r w]: the word [w] is in the language of [r].  The matcher is
    sound for it: every match it reports is a word of the language, and
    every group it reports is a word of the language of that group. *)
Module ReLang.
Import Re.

Inductive lang : regex -> string -> Prop :=
| lang_eps : lang Eps EmptyString
| lang_lit c : lang (Lit c) (String c EmptyString)
| lang_cls (p : ascii -> bool) c : p c = true -> lang (Cls p) (String c EmptyString)
| lang_seq a b w1 w2 : lang a w1 -> lang b w2 -> lang (Seq a b) (w1 +:+ w2)
| lang_alt_l a b w : lang a w -> lang (Alt a b) w
| lang_alt_r a b w : lang b w -> lang (Alt a b) w
| lang_star_nil greedy a : lang (Star greedy a) EmptyString
| lang_star_cons greedy a w1 w2 :
    lang a w1 -> lang (Star greedy a) w2 -> lang (Star greedy a) (w1 +:+ w2)
| lang_group n a w : lang a w -> lang (Group n a) w.

(** [groups_in Q r]: every word of every group [n] of [r] satisfies
    [Q n]. *)
Fixpoint groups_in (Q : nat -> string -> Prop) (r : regex) : Prop :=
  match r with
  | Eps | Lit _ | Cls _ => True
  | Seq a b | Alt a b => groups_in Q a /\ groups_in Q b
  | Star _ a => groups_in Q a
  | Group n a => (forall w, lang a w -> Q n w) /\ groups_in Q a
  end.

(** The spans of [cs] cut words out of the subject that satisfy [Q]. *)
Definition caps_in (Q : nat -> string -> Prop) (subject : string) (cs : caps) : Prop :=
  Forall (fun c => Q c.1 (String.substring c.2.1 (c.2.2 - c.2.1) subject)) cs.

(** All characters of a word pass a test. *)
Definition all_chars (p : ascii -> bool) (w : string) : Prop :=
  forall c, In c (list_ascii_of_string w) -> p c = true.

(** [sets n r]: every match of [r] sets group [n]. *)
Fixpoint sets (n : nat) (r : regex) : bool :=
  match r with
  | Eps | Lit _ | Cls _ | Star _ _ => false
  | Seq a b => sets n a || sets n b
  | Alt a b => sets n a && sets n b
  | Group m a => (m =? n) || sets n a
  end.

(** [s] is what the subject holds from offset [pos] on. *)
Definition at_pos (subject : string) (pos : nat) (s : string) : Prop :=
  exists pre, subject = pre +:+ s /\ String.length pre = pos.

(** What a successful run says: it has read a word [w] of the language
    of [r] off the front of [s] and handed the rest over to [k]; the
    groups it holds afterwards cut words out of the subject that satisfy
    [Q]; a group that was set stays set, and the groups [grp] are set. *)
Definition hands_over {R : Type} (Q : nat -> string -> Prop) (subject : string)
    (r : regex) (s : string) (pos : nat) (cs : caps)
    (k : string -> nat -> caps -> option R) (x : R) (grp : nat -> bool) : Prop :=
  exists w s' cs',
    s = w +:+ s' /\ lang r w /\ k s' (pos + String.length w) cs' = Some x
    /\ caps_in Q subject cs'
    /\ (forall n, grp n = true \/ is_Some (lookup_cap n cs) -> is_Some (lookup_cap n cs')).

(** What a match of a search says. *)
Definition sound_match (Q : nat -> string -> Prop) (subject : string) (r : regex)
    (m : rmatch) : Prop :=
  lang r (group0 subject m)
  /\ caps_in Q subject (m_caps m)
  /\ (forall n, sets n r = true -> is_Some (lookup_cap n (m_caps m)))
  /\ m_start m <= m_end m <= String.length subject.

(** A non-empty word of [\w] characters. *)
Definition word_string (w : string) : Prop :=
  w <> EmptyString /\ all_chars Py.isword w.

(** A non-empty word of [\w] characters followed by [Event]. *)
Definition event_word (w : string) : Prop :=
  exists v, word_string v /\ w = v +:+ "Event".

End ReLang.

(** ** Sample inputs *)
Module Samples.

(** A controller that depends on a service, the service, which depends on
    a repository, and the repository. *)
Definition order_controller : SourceFile :=
  MkSourceFile "shop/src/web/OrderController.java" "src/web/OrderController.java" (Some
"package com.shop.web;

@RestController
public class OrderController {
    @Autowired
    private OrderService orderService;

    @PostMapping
    public String create(String id) { return id; }
}
").

Definition order_service : SourceFile :=
  MkSourceFile "shop/src/order/OrderService.java" "src/order/OrderService.java" (Some
"package com.shop.order;

@Service
public class OrderService {
    @Autowired
    private OrderRepository orderRepository;
    @Autowired
    private MailGateway mailGateway;

    public void placeOrder(String id) {
        orderRepository.saveOrder(id);
        eventPublisher.publishEvent(new OrderPlacedEvent(id));
    }
}
").

Definition order_repository : SourceFile :=
  MkSourceFile "shop/src/order/OrderRepository.java" "src/order/OrderRepository.java" (Some
"package com.shop.order;

@Repository
public interface OrderRepository {
    void saveOrder(String id);
}
").

Definition shop : list SourceFile := [order_controller; order_service; order_repository].

(** A file without any marker. *)
Definition plain_class : SourceFile :=
  MkSourceFile "shop/src/util/Strings.java" "src/util/Strings.java" (Some
"package com.shop.util;

public class Strings {
    public static String trim(String s) { return s; }
}
").

(** A controller with eleven mapped methods. *)
Definition wide_controller : string :=
"@RestController
public class WideController {
    @GetMapping
    public String m01() { return null; }
    @GetMapping
    public String m02() { return null; }
    @GetMapping
    public String m03() { return null; }
    @GetMapping
    public String m04() { return null; }
    @GetMapping
    public String m05() { return null; }
    @GetMapping
    public String m06() { return null; }
    @GetMapping
    public String m07() { return null; }
    @GetMapping
    public String m08() { return null; }
    @GetMapping
    public String m09() { return null; }
    @GetMapping
    public String m10() { return null; }
    @GetMapping
    public String m11() { return null; }
}
".

(** A service with eleven public methods. *)
Definition wide_service : string :=
"@Service
public class WideService {
    public void s01() { }
    public void s02() { }
    public void s03() { }
    public void s04() { }
    public void s05() { }
    public void s06() { }
    public void s07() { }
    public void s08() { }
    public void s09() { }
    public void s10() { }
    public void s11() { }
}
".

(** A record event, a class event of the same package, and an event of
    another bounded context. *)
Definition order_placed_text : string :=
"package com.shop.order.event;

/** An order was placed. */
public record OrderPlacedEvent(String orderId, java.util.List<String> items) {}
".

Definition order_placed_event : SourceFile :=
  MkSourceFile "shop/src/com/shop/order/event/OrderPlacedEvent.java"
               "com/shop/order/event/OrderPlacedEvent.java" (Some order_placed_text).

Definition order_paid_event : SourceFile :=
  MkSourceFile "shop/src/com/shop/order/event/OrderPaidEvent.java"
               "com/shop/order/event/OrderPaidEvent.java" (Some
"package com.shop.order.event;

public class OrderPaidEvent extends BaseEvent {
    private final String orderId;
}
").

Definition user_created_event : SourceFile :=
  MkSourceFile "shop/src/com/shop/user/domain/event/UserCreatedEvent.java"
               "com/shop/user/domain/event/UserCreatedEvent.java" (Some
"package com.shop.user.domain.event;

public record UserCreatedEvent(String userId) {}
").

(** A transactional listener without a phase argument. *)
Definition mail_listener_text : string :=
"package com.shop.mail;

public class MailListener {
    @TransactionalEventListener
    public void onOrderPlaced(OrderPlacedEvent event) {
    }
}
".

Definition mail_listener : SourceFile :=
  MkSourceFile "shop/src/mail/MailListener.java" "src/mail/MailListener.java"
               (Some mail_listener_text).

(** The record the listener analyser emits for it. *)
Definition mail_listener_info : AnalyzeListeners.ListenerInfo.t :=
  AnalyzeListeners.ListenerInfo.Mk
    "OrderPlacedEvent" "MailListener" "onOrderPlaced" "src/mail/MailListener.java" 4
    "com.shop.mail" false true None None None.

(** A listener whose event type is neither a parameter type that ends in
    Event nor a class reference of the annotation. *)
Definition text_listener_text : string :=
"package com.shop.mail;

public class TextListener {
    @EventListener
    public void onText(String message) {
    }
}
".

Definition text_listener : SourceFile :=
  MkSourceFile "shop/src/mail/TextListener.java" "src/mail/TextListener.java"
               (Some text_listener_text).

(** Two edges one expects from [shop]. *)
Definition request_edge : AnalyzeProject.DataFlow.t :=
  AnalyzeProject.DataFlow.Mk "OrderController" "OrderService" "business_data" "request".

Definition query_edge : AnalyzeProject.DataFlow.t :=
  AnalyzeProject.DataFlow.Mk "OrderService" "OrderRepository" "business_data" "query".

End Samples.

(* ===================================================================== *)
(** * Part II: properties *)
(* ===================================================================== *)

(** ** Matches are found from left to right *)
Module ReFacts.
Import Re.

(** A successful run hands over to its continuation at an offset that is
    not before the one it started at. *)
Lemma loop_advances {R : Type}
    (body : string -> nat -> caps -> (string -> nat -> caps -> option R) -> option R)
    (greedy : bool) (k : string -> nat -> caps -> option R) (x : R) :
  (forall s pos cs k',
      body s pos cs k' = Some x ->
      exists s' pos' cs', pos <= pos' /\ k' s' pos' cs' = Some x) ->
  forall fuel s pos cs,
    loop body greedy k fuel s pos cs = Some x ->
    exists s' pos' cs', pos <= pos' /\ k s' pos' cs' = Some x.
Proof.
  intros Hbody. induction fuel as [|fuel IH]; intros s pos cs H; cbn [loop] in H.
  - exists s, pos, cs. split; [lia | exact H].
  - cbv zeta in H.
    match type of H with
    | (if greedy then match ?again with _ => _ end else _) = _ =>
        assert (again = Some x -> exists s' pos' cs', pos <= pos' /\ k s' pos' cs' = Some x)
          as Hagain
    end.
    { intros E. apply Hbody in E as (s1 & pos1 & cs1 & Hle1 & E).
      destruct (pos1 <=? pos); [discriminate|].
      apply IH in E as (s2 & pos2 & cs2 & Hle2 & E).
      exists s2, pos2, cs2. split; [lia | exact E]. }
    destruct greedy.
    + match type of H with
      | match ?again with _ => _ end = _ => destruct again eqn:E
      end.
      * injection H as ->. now apply Hagain.
      * exists s, pos, cs. split; [lia | exact H].
    + destruct (k s pos cs) eqn:E.
      * injection H as ->. exists s, pos, cs. split; [lia | exact E].
      * now apply Hagain.
Qed.

(** A successful run hands over to its continuation at an offset that is
    not before the one it started at. *)
Lemma run_advances {R : Type} (r : regex) :
  forall (s : string) (pos : nat) (cs : caps)
         (k : string -> nat -> caps -> option R) (x : R),
    run r s pos cs k = Some x ->
    exists s' pos' cs', pos <= pos' /\ k s' pos' cs' = Some x.
Proof.
  induction r as [| c | p | a IHa b IHb | a IHa b IHb | greedy a IHa | n a IHa];
    intros s pos cs k x H; cbn [run] in H.
  - exists s, pos, cs. split; [lia | exact H].
  - destruct s as [|c' s']; [discriminate|].
    destruct (Ascii.eqb c c'); [|discriminate].
    exists s', (S pos), cs. split; [lia | exact H].
  - destruct s as [|c' s']; [discriminate|].
    destruct (p c'); [|discriminate].
    exists s', (S pos), cs. split; [lia | exact H].
  - apply IHa in H as (s1 & pos1 & cs1 & Hle1 & H).
    apply IHb in H as (s2 & pos2 & cs2 & Hle2 & H).
    exists s2, pos2, cs2. split; [lia | exact H].
  - destruct (run a s pos cs k) eqn:E.
    + injection H as ->. now apply IHa in E.
    + now apply IHb in H.
  - eapply loop_advances; [|exact H]. intros s0 pos0 cs0 k' E. now apply IHa in E.
  - apply IHa in H as (s1 & pos1 & cs1 & Hle1 & H).
    exists s1, pos1, ((n, (pos, pos1)) :: cs1). split; [lia | exact H].
Qed.

Lemma match_at_span r s pos m :
  match_at r s pos = Some m -> m_start m = pos /\ pos <= m_end m.
Proof.
  unfold match_at. intros H.
  apply run_advances in H as (s' & pos' & cs' & Hle & H).
  injection H as <-. split; [reflexivity | exact Hle].
Qed.

Lemma search_from_span r s pos m :
  search_from r s pos = Some m -> pos <= m_start m /\ m_start m <= m_end m.
Proof.
  revert pos. induction s as [|c s IH]; intros pos H; simpl in H.
  - destruct (match_at r EmptyString pos) eqn:E; [|discriminate].
    injection H as ->. apply match_at_span in E as [-> ?]. lia.
  - destruct (match_at r (String c s) pos) eqn:E.
    + injection H as ->. apply match_at_span in E as [-> ?]. lia.
    + apply IH in H. lia.
Qed.

(** The matches of [finditer] do not overlap and come in text order: each
    one starts where an earlier one has ended, or later. *)
Lemma finditer_from_ordered fuel r :
  forall s pos,
    Forall (fun m => pos <= m_start m /\ m_start m <= m_end m) (finditer_from fuel r s pos)
    /\ StronglySorted (fun a b => m_end a <= m_start b) (finditer_from fuel r s pos).
Proof.
  induction fuel as [|fuel IH]; intros s pos; simpl.
  - split; constructor.
  - destruct (search_from r s pos) as [m|] eqn:E; [|split; constructor].
    apply search_from_span in E as [Hs He].
    set (next := if m_end m <=? m_start m then S (m_end m) else m_end m).
    assert (m_end m <= next) as Hnext by (unfold next; destruct (_ <=? _); lia).
    destruct (String.length s + pos <? next).
    + split; repeat constructor; assumption.
    + destruct (IH (drop (next - pos) s) next) as [Hall Hsorted].
      split; constructor; try assumption; try (split; assumption).
      * eapply Forall_impl; [exact Hall|]. cbn beta. intros b [? ?]. split; lia.
      * eapply Forall_impl; [exact Hall|]. cbn beta. intros b [? ?]. lia.
Qed.

Lemma finditer_ordered r s :
  StronglySorted (fun a b => m_end a <= m_start b) (finditer r s).
Proof. apply finditer_from_ordered. Qed.

End ReFacts.

(** ** Dependency flows of [analyze_project.py] *)
Module AnalyzeProjectFacts.
Import AnalyzeProject.

Lemma foldl_insert_lookup (ps : list Process.t) (m : gmap string Process.t) d t :
  foldl (fun m p => <[Process.class_name p := p]> m) m ps !! d = Some t ->
  (t ∈ ps ∧ Process.class_name t = d) ∨ m !! d = Some t.
Proof.
  revert m. induction ps as [|p ps IH]; intros m H; simpl in H.
  - now right.
  - destruct (IH _ H) as [[Hin Hn]|Hm].
    + left. split; [now apply list_elem_of_further | exact Hn].
    + destruct (decide (Process.class_name p = d)) as [Heq|Hne].
      * subst d. rewrite lookup_insert_eq in Hm. injection Hm as <-.
        left. split; [apply list_elem_of_here | reflexivity].
      * rewrite lookup_insert_ne in Hm by exact Hne. now right.
Qed.

(** A name the dictionary resolves is the class name of the process it
    resolves to, and that process is one of the run. *)
Lemma process_map_lookup (ps : list Process.t) d t :
  process_map ps !! d = Some t -> t ∈ ps ∧ Process.class_name t = d.
Proof.
  intros H. destruct (foldl_insert_lookup ps ∅ d t H) as [?|Hm]; [assumption|].
  rewrite lookup_empty in Hm. discriminate.
Qed.

Lemma foldl_insert_is_Some (ps : list Process.t) (m : gmap string Process.t) d :
  is_Some (m !! d) ∨ (∃ p, p ∈ ps ∧ Process.class_name p = d) ->
  is_Some (foldl (fun m p => <[Process.class_name p := p]> m) m ps !! d).
Proof.
  revert m. induction ps as [|p ps IH]; intros m H; simpl.
  - destruct H as [H|(p & Hp & _)]; [exact H | inversion Hp].
  - apply IH. destruct H as [H|(q & Hq & Hn)].
    + left. destruct (decide (Process.class_name p = d)) as [<-|Hne].
      * rewrite lookup_insert_eq. eauto.
      * now rewrite lookup_insert_ne.
    + apply elem_of_cons in Hq as [->|Hq].
      * left. subst d. rewrite lookup_insert_eq. eauto.
      * right. eauto.
Qed.

(** Conversely, every class name of the run is resolved. *)
Lemma process_map_is_Some (ps : list Process.t) p :
  p ∈ ps -> is_Some (process_map ps !! Process.class_name p).
Proof. intros H. apply foldl_insert_is_Some. right. eauto. Qed.

Lemma process_map_None (ps : list Process.t) d :
  (∀ q, q ∈ ps -> Process.class_name q ≠ d) -> process_map ps !! d = None.
Proof.
  intros H. destruct (process_map ps !! d) as [t|] eqn:E; [|reflexivity].
  apply process_map_lookup in E as [Hin Hn]. now destruct (H t Hin).
Qed.

(** The label the code computes is the specification's function of the
    two kinds. *)
Lemma flow_type_of_spec process target :
  flow_type_of process target
  = spec_flow_kind (Process.type process) (Process.type target).
Proof.
  unfold flow_type_of, spec_flow_kind.
  destruct (String.eqb_spec (Process.type process) "controller") as [Hc|Hc];
    destruct (String.eqb_spec (Process.type target) "service") as [Hs|Hs];
    destruct (String.eqb_spec (Process.type process) "service") as [Hs'|Hs'];
    destruct (String.eqb_spec (Process.type target) "repository") as [Hr|Hr];
    simpl; repeat case_decide; try reflexivity;
    repeat match goal with H : _ ∧ _ |- _ => destruct H end;
    repeat match goal with H : ¬ (_ ∧ _) |- _ => exfalso; apply H; now split end;
    congruence.
Qed.

(** Every inferred edge comes from one dependency of one process that the
    dictionary resolves. *)
Lemma inferred_flows_inv (ps : list Process.t) f :
  f ∈ inferred_flows ps ->
  ∃ process dep target,
    process ∈ ps ∧ dep ∈ Process.dependencies process
    ∧ process_map ps !! dep = Some target
    ∧ f = DataFlow.Mk (Process.class_name process) (Process.class_name target)
                      "business_data" (flow_type_of process target).
Proof.
  unfold inferred_flows. intros H.
  apply list_elem_of_In, in_flat_map in H as (process & Hp & H).
  apply in_flat_map in H as (dep & Hd & H).
  unfold flows_of_dependency in H.
  destruct (process_map ps !! dep) as [target|] eqn:E; [|destruct H].
  destruct H as [<-|[]].
  exists process, dep, target. repeat split; try assumption; now apply list_elem_of_In.
Qed.

Section Run.
Variable list_of_set : list string -> list string.

Lemma analyze_file_data_flows self f :
  data_flows (_analyze_file list_of_set self f) = data_flows self.
Proof.
  unfold _analyze_file. destruct (sf_text f) as [content|]; [|reflexivity].
  destruct (Re.search re_class content); [|reflexivity].
  repeat match goal with |- context [if ?b then _ else _] => destruct b end; reflexivity.
Qed.

Lemma foldl_analyze_file_data_flows files self :
  data_flows (foldl (_analyze_file list_of_set) self files) = data_flows self.
Proof.
  revert self. induction files as [|f files IH]; intros self; simpl; [reflexivity|].
  now rewrite IH, analyze_file_data_flows.
Qed.

(** The flows of a finished run are the inferred ones of its processes. *)
Lemma analyze_data_flows files :
  data_flows (analyze list_of_set files)
  = inferred_flows (processes (analyze list_of_set files)).
Proof.
  unfold analyze, _infer_data_flows. simpl.
  now rewrite foldl_analyze_file_data_flows.
Qed.

End Run.

(** C2.  Every dependency edge of a finished run joins a process of the
    run to the process its destination name resolves to, and its flow kind
    is the function [spec_flow_kind] of the two kinds: request for
    controller to service, query for service to repository, request for
    every other pair. *)
Theorem dependency_flow_kind_by_endpoint_kinds
    (list_of_set : list string -> list string) (files : list SourceFile) (f : DataFlow.t) :
  f ∈ data_flows (analyze list_of_set files) ->
  ∃ source destination,
    source ∈ processes (analyze list_of_set files)
    ∧ process_map (processes (analyze list_of_set files)) !! DataFlow.to_component f
      = Some destination
    ∧ DataFlow.from_component f = Process.class_name source
    ∧ DataFlow.to_component f = Process.class_name destination
    ∧ DataFlow.flow_type f
      = spec_flow_kind (Process.type source) (Process.type destination)
    ∧ (Process.type source = "controller" -> Process.type destination = "service" ->
       DataFlow.flow_type f = "request")
    ∧ (Process.type source = "service" -> Process.type destination = "repository" ->
       DataFlow.flow_type f = "query")
    ∧ (¬ (Process.type source = "controller" ∧ Process.type destination = "service") ->
       ¬ (Process.type source = "service" ∧ Process.type destination = "repository") ->
       DataFlow.flow_type f = "request").
Proof.
  rewrite analyze_data_flows. intros H.
  apply inferred_flows_inv in H as (process & dep & target & Hp & _ & Hm & ->).
  destruct (process_map_lookup _ _ _ Hm) as [_ Hn].
  exists process, target. simpl. rewrite Hn, flow_type_of_spec.
  repeat split; try assumption; try reflexivity; unfold spec_flow_kind.
  - intros -> ->. reflexivity.
  - intros -> ->. reflexivity.
  - intros H1 H2. now repeat case_decide.
Qed.

Lemma dependency_flow_kind_by_endpoint_kinds_witness :
  ∃ source destination,
    source ∈ processes (analyze Py.dedup Samples.shop)
    ∧ process_map (processes (analyze Py.dedup Samples.shop)) !! "OrderRepository"
      = Some destination
    ∧ "OrderService" = Process.class_name source
    ∧ "OrderRepository" = Process.class_name destination
    ∧ "query" = spec_flow_kind (Process.type source) (Process.type destination)
    ∧ (Process.type source = "controller" -> Process.type destination = "service" ->
       "query" = "request")
    ∧ (Process.type source = "service" -> Process.type destination = "repository" ->
       "query" = "query")
    ∧ (¬ (Process.type source = "controller" ∧ Process.type destination = "service") ->
       ¬ (Process.type source = "service" ∧ Process.type destination = "repository") ->
       "query" = "request").
Proof.
  apply (dependency_flow_kind_by_endpoint_kinds Py.dedup Samples.shop Samples.query_edge).
  vm_compute. apply list_elem_of_further, list_elem_of_here.
Defined.

(** C9.  Both endpoints of every dependency edge of a finished run are
    class names of processes extracted in that run, and a dependency whose
    type is the class name of no process of the run yields no edge. *)
Theorem dependency_flow_endpoints_resolve
    (list_of_set : list string -> list string) (files : list SourceFile) :
  (∀ f, f ∈ data_flows (analyze list_of_set files) ->
     ∃ source destination,
       source ∈ processes (analyze list_of_set files)
       ∧ destination ∈ processes (analyze list_of_set files)
       ∧ DataFlow.from_component f = Process.class_name source
       ∧ DataFlow.to_component f = Process.class_name destination)
  ∧ (∀ process dep,
       (∀ q, q ∈ processes (analyze list_of_set files) -> Process.class_name q ≠ dep) ->
       flows_of_dependency (process_map (processes (analyze list_of_set files))) process dep
       = []).
Proof.
  split.
  - intros f. rewrite analyze_data_flows. intros H.
    apply inferred_flows_inv in H as (process & dep & target & Hp & _ & Hm & ->).
    destruct (process_map_lookup _ _ _ Hm) as [Ht _].
    exists process, target. now repeat split.
  - intros process dep H. unfold flows_of_dependency.
    now rewrite (process_map_None _ _ H).
Qed.

Lemma dependency_flow_endpoints_resolve_witness :
  (∃ source destination,
     source ∈ processes (analyze Py.dedup Samples.shop)
     ∧ destination ∈ processes (analyze Py.dedup Samples.shop)
     ∧ "OrderController" = Process.class_name source
     ∧ "OrderService" = Process.class_name destination)
  ∧ (∀ process,
       flows_of_dependency (process_map (processes (analyze Py.dedup Samples.shop)))
                           process "MailGateway" = []).
Proof.
  split.
  - apply (proj1 (dependency_flow_endpoints_resolve Py.dedup Samples.shop) Samples.request_edge).
    vm_compute. apply list_elem_of_here.
  - intros process.
    apply (proj2 (dependency_flow_endpoints_resolve Py.dedup Samples.shop) process).
    vm_compute. intros q Hq.
    repeat (apply elem_of_cons in Hq as [->|Hq]; [discriminate|]).
    inversion Hq.
Defined.

Lemma analyze_service_processes self class_name content file_path :
  processes (_analyze_service self class_name content file_path)
  = processes self
    ++ [Process.Mk class_name class_name file_path "service"
                   (take 10 (Re.findall1 re_public_method content))
                   (Re.findall1 re_autowired content)].
Proof. reflexivity. Qed.

Lemma analyze_controller_processes self class_name content file_path :
  processes (_analyze_controller self class_name content file_path)
  = processes self
    ++ [Process.Mk class_name class_name file_path "controller"
                   (Re.findall1 re_mapping_method content)
                   (Re.findall1 re_autowired content)].
Proof. reflexivity. Qed.

(** C10.  A service keeps the first ten names that the method pattern
    finds in its text, in the order of the text (the matches of the
    pattern do not overlap and are listed from left to right), and no
    more; a controller keeps every name that the mapping pattern finds.
    Eleven methods in the sample sources: ten are kept for the service,
    eleven for the controller. *)
Theorem service_methods_limited_to_ten :
  (∀ self class_name content file_path,
     ∃ p found,
       processes (_analyze_service self class_name content file_path)
       = processes self ++ [p]
       ∧ Process.type p = "service"
       ∧ found = Re.finditer re_public_method content
       ∧ StronglySorted (fun a b => Re.m_end a <= Re.m_start b) found
       ∧ Process.methods p = take 10 (map (fun m => Re.group_str content m 1) found)
       ∧ length (Process.methods p) <= 10)
  ∧ (∀ self class_name content file_path,
       ∃ p found,
         processes (_analyze_controller self class_name content file_path)
         = processes self ++ [p]
         ∧ Process.type p = "controller"
         ∧ found = Re.finditer re_mapping_method content
         ∧ Process.methods p = map (fun m => Re.group_str content m 1) found)
  ∧ (∀ self class_name file_path,
       length (Re.findall1 re_public_method Samples.wide_service) = 11
       ∧ (Process.methods <$> processes (_analyze_service self class_name
                                           Samples.wide_service file_path))
         = (Process.methods <$> processes self)
           ++ [["s01"; "s02"; "s03"; "s04"; "s05"; "s06"; "s07"; "s08"; "s09"; "s10"]]
       ∧ (Process.methods <$> processes (_analyze_controller self class_name
                                           Samples.wide_controller file_path))
         = (Process.methods <$> processes self)
           ++ [["m01"; "m02"; "m03"; "m04"; "m05"; "m06"; "m07"; "m08"; "m09"; "m10";
                "m11"]]).
Proof.
  split; [|split].
  - intros self class_name content file_path.
    exists (Process.Mk class_name class_name file_path "service"
                       (take 10 (Re.findall1 re_public_method content))
                       (Re.findall1 re_autowired content)),
           (Re.finditer re_public_method content).
    do 3 (split; [reflexivity|]). split; [apply ReFacts.finditer_ordered|].
    split; [reflexivity|]. cbn [Process.methods]. rewrite length_take. lia.
  - intros self class_name content file_path.
    exists (Process.Mk class_name class_name file_path "controller"
                       (Re.findall1 re_mapping_method content)
                       (Re.findall1 re_autowired content)),
           (Re.finditer re_mapping_method content).
    repeat split.
  - intros self class_name file_path.
    rewrite analyze_service_processes, analyze_controller_processes, !fmap_app.
    cbn [fmap list_fmap Process.methods].
    assert (Re.findall1 re_public_method Samples.wide_service
            = ["s01"; "s02"; "s03"; "s04"; "s05"; "s06"; "s07"; "s08"; "s09"; "s10"; "s11"])
      as -> by (vm_compute; reflexivity).
    assert (Re.findall1 re_mapping_method Samples.wide_controller
            = ["m01"; "m02"; "m03"; "m04"; "m05"; "m06"; "m07"; "m08"; "m09"; "m10"; "m11"])
      as -> by (vm_compute; reflexivity).
    repeat split.
Qed.

End AnalyzeProjectFacts.

(** ** The lexical classifiers *)
Module ClassifierFacts.
Import AnalyzeProject.

(** The first match of an ordered marker list: everything before it does
    not match. *)
Lemma first_marker_Some ms content k :
  first_marker ms content = Some k ->
  ∃ earlier r later,
    ms = earlier ++ (k, r) :: later
    ∧ Re.matches r content = true
    ∧ Forall (fun kr => Re.matches kr.2 content = false) earlier.
Proof.
  induction ms as [|[k' r'] ms IH]; simpl; intros H; [discriminate|].
  destruct (Re.matches r' content) eqn:E.
  - injection H as <-. exists [], r', ms. repeat split; [assumption | constructor].
  - destruct (IH H) as (earlier & r & later & -> & Hr & Hall).
    exists ((k', r') :: earlier), r, later. repeat split; [assumption|].
    constructor; assumption.
Qed.

Lemma first_marker_None ms content :
  Forall (fun kr => Re.matches kr.2 content = false) ms ->
  first_marker ms content = None.
Proof.
  induction 1 as [|[k r] ms Hr _ IH]; simpl; [reflexivity|].
  simpl in Hr. now rewrite Hr.
Qed.

(** [_analyze_file] is the dispatch on the kind [spec_classify] assigns. *)
Lemma analyze_file_dispatch list_of_set self f content :
  sf_text f = Some content ->
  _analyze_file list_of_set self f
  = match spec_classify content with
    | Some k => analyze_as list_of_set k self (declared_name content) content (sf_rel f)
    | None => self
    end.
Proof.
  intros Htext. unfold _analyze_file, spec_classify, declared_name. rewrite Htext.
  destruct (Re.search re_class content) as [class_match|]; [|reflexivity].
  cbn [markers first_marker].
  repeat match goal with
         | |- context [if Re.matches ?r content then _ else _] =>
             destruct (Re.matches r content)
         end; reflexivity.
Qed.

Lemma existsb_false_Forall {A} (p : A -> bool) (l : list A) :
  Forall (fun x => p x = false) l -> existsb p l = false.
Proof. induction 1 as [|x l Hx _ IH]; simpl; [reflexivity|]. now rewrite Hx. Qed.

(** C1.  A file gets at most one kind: [_analyze_file] runs the analyser
    of the kind [spec_classify] returns, which is the first marker, in the
    order controller, service, repository, persisted entity, external
    client, that the text matches (and none when no class or interface
    name is declared).  A text that matches no marker leaves the analyser
    as it was, as does a file that cannot be read; a text that has none of
    the event shapes yields no event.  All functions are total: no case
    raises. *)
Theorem classifier_first_marker_or_nothing :
  map fst markers = [Controller; Service; Repository; PersistedEntity; ExternalClient]
  ∧ (∀ list_of_set self f content,
       sf_text f = Some content ->
       _analyze_file list_of_set self f
       = match spec_classify content with
         | Some k =>
             analyze_as list_of_set k self (declared_name content) content (sf_rel f)
         | None => self
         end)
  ∧ (∀ content k,
       spec_classify content = Some k ->
       ∃ earlier r later,
         markers = earlier ++ (k, r) :: later
         ∧ Re.matches r content = true
         ∧ Forall (fun kr => Re.matches kr.2 content = false) earlier)
  ∧ (∀ list_of_set self f content,
       sf_text f = Some content ->
       Forall (fun kr => Re.matches kr.2 content = false) markers ->
       spec_classify content = None ∧ _analyze_file list_of_set self f = self)
  ∧ (∀ list_of_set self f, sf_text f = None -> _analyze_file list_of_set self f = self)
  ∧ (∀ f content,
       sf_text f = Some content ->
       Forall (fun shape => Re.matches shape content = false) ScanEvents.EVENT_PATTERNS ->
       ScanEvents._is_event_class content = false
       ∧ ScanEvents._parse_event_file f = None
       ∧ ∀ events, ScanEvents.scan_file events f = events).
Proof.
  split; [reflexivity|]. split; [exact analyze_file_dispatch|].
  split; [|split; [|split]].
  - intros content k H. unfold spec_classify in H.
    destruct (Re.search re_class content); [|discriminate].
    now apply first_marker_Some.
  - intros list_of_set self f content Htext Hall.
    assert (spec_classify content = None) as Hnone.
    { unfold spec_classify. destruct (Re.search re_class content); [|reflexivity].
      now apply first_marker_None. }
    split; [exact Hnone|].
    now rewrite (analyze_file_dispatch _ _ _ _ Htext), Hnone.
  - intros list_of_set self f Htext. unfold _analyze_file. now rewrite Htext.
  - intros f content Htext Hall.
    assert (ScanEvents._is_event_class content = false) as Hcls
      by (now apply existsb_false_Forall).
    assert (ScanEvents._parse_event_file f = None) as Hparse.
    { unfold ScanEvents._parse_event_file. now rewrite Htext, Hcls. }
    repeat split; [assumption..|].
    intros events. unfold ScanEvents.scan_file. rewrite Hparse.
    now destruct (ScanEvents._is_event_package (sf_path f)).
Qed.

(** A text that carries three markers is a controller, and the sample
    class without markers leaves a fresh analyser as it was. *)
Lemma classifier_first_marker_or_nothing_witness :
  spec_classify
    "@Repository @Service @RestController public class Mixed { }" = Some Controller
  ∧ _analyze_file Py.dedup init Samples.plain_class = init.
Proof.
  split; [vm_compute; reflexivity|].
  apply (proj1 (proj2 (proj2 (proj2 classifier_first_marker_or_nothing)))
           Py.dedup init Samples.plain_class _ eq_refl).
  vm_compute. repeat constructor.
Defined.

End ClassifierFacts.

(** ** Events: bounded contexts, record parameters, the serialised scan *)
Module ScanEventsFacts.
Import ScanEvents.

Lemma mem_true_iff x l : Py.mem x l = true <-> x ∈ l.
Proof.
  unfold Py.mem. rewrite existsb_exists. split.
  - intros (y & Hin & Heq). apply String.eqb_eq in Heq as ->. now apply list_elem_of_In.
  - intros H. exists x. split; [now apply list_elem_of_In | apply String.eqb_refl].
Qed.

Lemma mem_false_iff x l : Py.mem x l = false <-> x ∉ l.
Proof.
  rewrite <- mem_true_iff. destruct (Py.mem x l); split; congruence.
Qed.

(** The loop skips its first iteration: index 0 never returns. *)
Lemma context_loop_zero parts part rest :
  context_loop parts 0 (part :: rest) = context_loop parts 1 rest.
Proof. cbn [context_loop Nat.ltb Nat.leb]. now rewrite andb_false_r. Qed.

Lemma context_loop_none parts i rest :
  Forall (fun q => q ∉ context_markers) rest -> context_loop parts i rest = None.
Proof.
  intros H. revert i.
  induction H as [|q rest Hq _ IH]; intros i; cbn [context_loop]; [reflexivity|].
  apply mem_false_iff in Hq. rewrite Hq. cbn [andb]. apply IH.
Qed.

Lemma context_loop_some parts i skipped m post :
  0 < i ->
  Forall (fun q => q ∉ context_markers) skipped ->
  m ∈ context_markers ->
  context_loop parts i (skipped ++ m :: post)
  = Some (Py.capitalize (nth (i + length skipped - 1) parts EmptyString)).
Proof.
  intros Hi Hskip Hm. revert i Hi.
  induction Hskip as [|q skipped Hq _ IH]; intros i Hi; cbn [app context_loop length].
  - apply mem_true_iff in Hm. rewrite Hm.
    replace (0 <? i) with true by (symmetry; apply Nat.ltb_lt; exact Hi).
    cbn [andb]. do 3 f_equal. lia.
  - apply mem_false_iff in Hq. rewrite Hq. cbn [andb].
    rewrite IH by lia. do 3 f_equal. lia.
Qed.

Lemma split_nonempty sep s : Py.split sep s ≠ [].
Proof.
  destruct s as [|c s]; simpl; [discriminate|].
  destruct (Ascii.eqb c sep); [discriminate|].
  destruct (Py.split sep s); discriminate.
Qed.

Lemma last_item_snoc (pre : list string) p post (keep : string -> bool) :
  keep p = true ->
  Forall (fun q => keep q = false) post ->
  List.last (map Some (List.filter keep (pre ++ p :: post))) None = Some p.
Proof.
  intros Hp Hpost. rewrite List.filter_app. simpl. rewrite Hp.
  assert (List.filter keep post = []) as ->.
  { induction Hpost as [|q post Hq _ IH]; simpl; [reflexivity|]. now rewrite Hq. }
  rewrite map_app. simpl. now rewrite List.last_last.
Qed.

Lemma filter_all_dropped (l : list string) (keep : string -> bool) :
  Forall (fun q => keep q = false) l -> List.filter keep l = [].
Proof. induction 1 as [|q l Hq _ IH]; simpl; [reflexivity|]. now rewrite Hq. Qed.

(** C8.  With [parts] the dot-separated segments of the package:
    - if a marker segment stands at a position greater than zero, the
      result is the capitalised segment before the first such one;
    - if none does, the result is the capitalised last segment outside of
      com, org, net, domain, event, events;
    - if none does and every segment is one of those six, the result is
      the sentinel. *)
Theorem bounded_context_by_marker_then_last_then_unknown (package : string) :
  (∀ before previous marker after,
     Py.split "."%char package = before ++ previous :: marker :: after ->
     marker ∈ context_markers ->
     Forall (fun q => q ∉ context_markers) (tail (before ++ [previous])) ->
     _infer_bounded_context package = Py.capitalize previous)
  ∧ (∀ before segment after,
       Forall (fun q => q ∉ context_markers) (tail (Py.split "."%char package)) ->
       Py.split "."%char package = before ++ segment :: after ->
       segment ∉ generic_parts ->
       Forall (fun q => q ∈ generic_parts) after ->
       _infer_bounded_context package = Py.capitalize segment)
  ∧ (Forall (fun q => q ∉ context_markers) (tail (Py.split "."%char package)) ->
     Forall (fun q => q ∈ generic_parts) (Py.split "."%char package) ->
     _infer_bounded_context package = "Unknown").
Proof.
  unfold _infer_bounded_context.
  split; [|split].
  - intros before previous marker after Hparts Hm Hskip. rewrite Hparts.
    destruct before as [|first before]; simpl app.
    + rewrite context_loop_zero.
      rewrite (context_loop_some _ 1 [] marker after) by (auto; lia).
      reflexivity.
    + rewrite context_loop_zero.
      replace (before ++ previous :: marker :: after)
        with ((before ++ [previous]) ++ marker :: after) at 2
        by (now rewrite <- app_assoc).
      rewrite (context_loop_some _ 1 (before ++ [previous]) marker after)
        by (auto; lia).
      rewrite length_app. simpl length.
      replace (1 + (length before + 1) - 1) with (S (length before)) by lia.
      simpl nth. rewrite app_nth2 by lia.
      now replace (length before - length before) with 0 by lia.
  - intros before segment after Hnone Hparts Hseg Hafter.
    destruct (Py.split "."%char package) as [|first rest] eqn:E;
      [now destruct (split_nonempty _ _ E)|].
    rewrite context_loop_zero, (context_loop_none _ _ _ Hnone), Hparts.
    rewrite (last_item_snoc before segment after).
    + reflexivity.
    + apply mem_false_iff in Hseg. now rewrite Hseg.
    + eapply Forall_impl; [exact Hafter|]. intros q Hq. cbn beta.
      apply mem_true_iff in Hq. now rewrite Hq.
  - intros Hnone Hall.
    destruct (Py.split "."%char package) as [|first rest] eqn:E;
      [now destruct (split_nonempty _ _ E)|].
    rewrite context_loop_zero, (context_loop_none _ _ _ Hnone).
    rewrite filter_all_dropped; [reflexivity|].
    eapply Forall_impl; [exact Hall|]. intros q Hq. cbn beta.
    apply mem_true_iff in Hq. now rewrite Hq.
Qed.

Lemma bounded_context_by_marker_then_last_then_unknown_witness :
  _infer_bounded_context "com.example.order.domain.event" = "Order"
  ∧ _infer_bounded_context "com.acme.billing" = "Billing"
  ∧ _infer_bounded_context "com" = "Unknown".
Proof.
  split; [|split].
  - apply (proj1 (bounded_context_by_marker_then_last_then_unknown
                    "com.example.order.domain.event")
             ["com"; "example"] "order" "domain" ["event"]).
    + reflexivity.
    + apply mem_true_iff. reflexivity.
    + repeat (constructor; [apply mem_false_iff; reflexivity|]). constructor.
  - apply (proj1 (proj2 (bounded_context_by_marker_then_last_then_unknown
                           "com.acme.billing"))
             ["com"; "acme"] "billing" []).
    + repeat (constructor; [apply mem_false_iff; reflexivity|]). constructor.
    + reflexivity.
    + apply mem_false_iff. reflexivity.
    + constructor.
  - apply (proj2 (proj2 (bounded_context_by_marker_then_last_then_unknown "com"))).
    + constructor.
    + constructor; [apply mem_true_iff; reflexivity | constructor].
Defined.

(** C3.  A record header whose parameter list is
    [String orderId, java.util.List<String> items] yields exactly two
    members, [orderId : String] and [items : java.util.List<String>]. *)
Theorem record_parameters_two_members (content : string) (m : Re.rmatch) :
  Re.search re_record_params content = Some m ->
  Re.group_str content m 1 = "String orderId, java.util.List<String> items" ->
  _extract_fields content true
  = [FieldInfo.Mk "orderId" "String" None [];
     FieldInfo.Mk "items" "java.util.List<String>" None []].
Proof.
  intros Hsearch Hparams. unfold _extract_fields. rewrite Hsearch, Hparams.
  vm_compute. reflexivity.
Qed.

Lemma record_parameters_two_members_witness :
  _extract_fields Samples.order_placed_text true
  = [FieldInfo.Mk "orderId" "String" None [];
     FieldInfo.Mk "items" "java.util.List<String>" None []].
Proof.
  apply (record_parameters_two_members Samples.order_placed_text
           (Re.MkMatch 66 135 [(1, (90, 134))])).
  - vm_compute. reflexivity.
  - vm_compute. reflexivity.
Defined.

(** The split is on every comma: a type with a comma of its own is cut
    in two, and the cut pieces are taken for members. *)
Example naive_comma_split_of_generic_type :
  flat_map record_field (Py.split ","%char "String id, Map<String, Integer> counts")
  = [FieldInfo.Mk "id" "String" None [];
     FieldInfo.Mk "counts" "Integer>" None []].
Proof. vm_compute. reflexivity. Qed.

(** The same declaration through the whole file parser. *)
Example order_placed_event_fields :
  EventInfo.fields <$> _parse_event_file Samples.order_placed_event
  = Some [FieldInfo.Mk "orderId" "String" None [];
          FieldInfo.Mk "items" "java.util.List<String>" None []].
Proof. vm_compute. reflexivity. Qed.

(** *** The scan as a function of the enumeration *)

Lemma scan_file_app events f : scan_file events f = events ++ scan_file [] f.
Proof.
  unfold scan_file. destruct (_is_event_package (sf_path f)); [|now rewrite app_nil_r].
  destruct (_parse_event_file f); [reflexivity | now rewrite app_nil_r].
Qed.

Lemma foldl_scan_file files events :
  foldl scan_file events files = events ++ flat_map (scan_file []) files.
Proof.
  revert events. induction files as [|f files IH]; intros events; simpl.
  - now rewrite app_nil_r.
  - now rewrite IH, scan_file_app, <- app_assoc.
Qed.

(** The events of a scan are those of its files, in enumeration order. *)
Lemma scan_flat_map files : scan files = flat_map (scan_file []) files.
Proof. unfold scan. now rewrite foldl_scan_file. Qed.

Lemma scan_Permutation files files' : files ≡ₚ files' -> scan files ≡ₚ scan files'.
Proof. intros H. rewrite !scan_flat_map. now apply Permutation_flat_map. Qed.

Lemma set_listing_Permutation list_of_set list_of_set' (l l' : list string) :
  set_listing list_of_set -> set_listing list_of_set' ->
  l ≡ₚ l' -> list_of_set l ≡ₚ list_of_set' l'.
Proof.
  intros H H' Hperm.
  destruct (H l) as [Hnd Hel], (H' l') as [Hnd' Hel'].
  apply NoDup_Permutation; [assumption..|].
  intros x. rewrite Hel, Hel'. now rewrite Hperm.
Qed.

Lemma dedup_elem_of (l : list string) x : x ∈ Py.dedup l <-> x ∈ l.
Proof.
  induction l as [|y l IH]; simpl; [reflexivity|].
  rewrite !elem_of_cons, <- IH, !list_elem_of_In, List.filter_In, negb_true_iff.
  destruct (String.eqb_spec y x) as [->|Hne]; [tauto|].
  split; [tauto|]. intros [->|H]; [now left | right; now split].
Qed.

Lemma dedup_NoDup (l : list string) : NoDup (Py.dedup l).
Proof.
  induction l as [|y l IH]; simpl; constructor.
  - rewrite list_elem_of_In, List.filter_In, negb_true_iff, String.eqb_refl.
    intros [_ H]. discriminate.
  - now apply NoDup_ListNoDup, List.NoDup_filter, NoDup_ListNoDup.
Qed.

Lemma dedup_set_listing : set_listing Py.dedup.
Proof. intros l. split; [apply dedup_NoDup | apply dedup_elem_of]. Qed.

Lemma rev_dedup_set_listing : set_listing (fun l => rev (Py.dedup l)).
Proof.
  intros l. split.
  - apply NoDup_ListNoDup, List.NoDup_rev, NoDup_ListNoDup, dedup_NoDup.
  - intros x. rewrite list_elem_of_In, <- in_rev, <- list_elem_of_In.
    apply dedup_elem_of.
Qed.

(** The labels of the summary are the bounded contexts of the events,
    each distinct one once. *)
Lemma summary_contexts_distinct list_of_set (events : list EventInfo.t) :
  set_listing list_of_set ->
  NoDup (summary_contexts list_of_set events)
  ∧ ∀ label, label ∈ summary_contexts list_of_set events
             <-> ∃ e, e ∈ events ∧ EventInfo.bounded_context e = label.
Proof.
  intros Hset. unfold summary_contexts.
  destruct (Hset (map EventInfo.bounded_context events)) as [Hnd Hel].
  split; [exact Hnd|]. intros label. rewrite Hel, list_elem_of_In, in_map_iff.
  split; intros (e & He & Hin); exists e.
  - split; [now apply list_elem_of_In | exact He].
  - split; [exact Hin | now apply list_elem_of_In].
Qed.

(** C7, as the code has it.  The events of a scan are those of the files
    in enumeration order; nothing sorts them.  Two runs over the same
    files, whatever the two enumeration orders and the two set iteration
    orders, serialise dictionaries of one shape whose event lists are
    permutations of each other, whose counts are equal and whose lists of
    bounded contexts are permutations of each other; each of the two
    lists holds the bounded contexts of the events, each distinct label
    once. *)
Theorem scan_output_same_up_to_order
    (list_of_set list_of_set' : list string -> list string)
    (files files' : list SourceFile) :
  set_listing list_of_set -> set_listing list_of_set' -> files ≡ₚ files' ->
  scan files = flat_map (scan_file []) files
  ∧ ∃ events events' labels labels',
      report list_of_set (scan files)
      = Json.JDict
          [("events", Json.JList events);
           ("summary", Json.JDict [("total_events", Json.JInt (length events));
                                   ("bounded_contexts",
                                    Json.JList (map Json.JStr labels))])]
      ∧ report list_of_set' (scan files')
        = Json.JDict
            [("events", Json.JList events');
             ("summary", Json.JDict [("total_events", Json.JInt (length events'));
                                     ("bounded_contexts",
                                      Json.JList (map Json.JStr labels'))])]
      ∧ events ≡ₚ events'
      ∧ length events = length events'
      ∧ map Json.JStr labels ≡ₚ map Json.JStr labels'
      ∧ labels ≡ₚ labels'
      ∧ NoDup labels ∧ NoDup labels'
      ∧ (∀ label, label ∈ labels
                  <-> ∃ e, e ∈ scan files ∧ EventInfo.bounded_context e = label)
      ∧ (∀ label, label ∈ labels'
                  <-> ∃ e, e ∈ scan files' ∧ EventInfo.bounded_context e = label).
Proof.
  intros Hset Hset' Hperm. split; [apply scan_flat_map|].
  pose proof (scan_Permutation _ _ Hperm) as Hscan.
  exists (map asdict_event (scan files)), (map asdict_event (scan files')),
         (summary_contexts list_of_set (scan files)),
         (summary_contexts list_of_set' (scan files')).
  unfold report. rewrite !length_map.
  destruct (summary_contexts_distinct list_of_set (scan files) Hset) as [Hnd Hel].
  destruct (summary_contexts_distinct list_of_set' (scan files') Hset') as [Hnd' Hel'].
  assert (summary_contexts list_of_set (scan files)
          ≡ₚ summary_contexts list_of_set' (scan files')) as Hlabels.
  { unfold summary_contexts.
    apply set_listing_Permutation; [assumption..|]. now apply Permutation_map. }
  do 2 (split; [reflexivity|]).
  split; [now apply Permutation_map|]. split; [now apply Permutation_length|].
  split; [now apply Permutation_map|]. split; [exact Hlabels|].
  split; [exact Hnd|]. split; [exact Hnd'|]. split; [exact Hel | exact Hel'].
Qed.

Lemma scan_output_same_up_to_order_witness :
  scan [Samples.order_placed_event; Samples.user_created_event]
  = flat_map (scan_file []) [Samples.order_placed_event; Samples.user_created_event]
  ∧ ∃ events events' labels labels',
      report Py.dedup (scan [Samples.order_placed_event; Samples.user_created_event])
      = Json.JDict
          [("events", Json.JList events);
           ("summary", Json.JDict [("total_events", Json.JInt (length events));
                                   ("bounded_contexts",
                                    Json.JList (map Json.JStr labels))])]
      ∧ report (fun l => rev (Py.dedup l))
               (scan [Samples.user_created_event; Samples.order_placed_event])
        = Json.JDict
            [("events", Json.JList events');
             ("summary", Json.JDict [("total_events", Json.JInt (length events'));
                                     ("bounded_contexts",
                                      Json.JList (map Json.JStr labels'))])]
      ∧ events ≡ₚ events'
      ∧ length events = length events'
      ∧ map Json.JStr labels ≡ₚ map Json.JStr labels'
      ∧ labels ≡ₚ labels'
      ∧ NoDup labels ∧ NoDup labels'
      ∧ (∀ label, label ∈ labels
                  <-> ∃ e, e ∈ scan [Samples.order_placed_event; Samples.user_created_event]
                           ∧ EventInfo.bounded_context e = label)
      ∧ (∀ label, label ∈ labels'
                  <-> ∃ e, e ∈ scan [Samples.user_created_event; Samples.order_placed_event]
                           ∧ EventInfo.bounded_context e = label).
Proof.
  apply (scan_output_same_up_to_order Py.dedup (fun l => rev (Py.dedup l))
           [Samples.order_placed_event; Samples.user_created_event]
           [Samples.user_created_event; Samples.order_placed_event]).
  - exact dedup_set_listing.
  - exact rev_dedup_set_listing.
  - apply perm_swap.
Defined.

(** C7, as stated, fails: the same two files enumerated in the other
    order give another text.  (Both events are of one bounded context, so
    the summary is the same in both.) *)
Lemma scan_output_depends_on_enumeration_order :
  run Py.dedup [Samples.order_placed_event; Samples.order_paid_event]
  ≠ run Py.dedup [Samples.order_paid_event; Samples.order_placed_event].
Proof. apply String.eqb_neq. vm_compute. reflexivity. Qed.

(** So does the iteration order of the set of bounded contexts: the same
    enumeration under two set orders gives two texts. *)
Example scan_output_depends_on_set_order :
  run Py.dedup [Samples.order_placed_event; Samples.user_created_event]
  ≠ run (fun l => rev (Py.dedup l)) [Samples.order_placed_event; Samples.user_created_event].
Proof. apply String.eqb_neq. vm_compute. reflexivity. Qed.

End ScanEventsFacts.

(** ** Publish calls *)
Module PublisherFacts.
Import AnalyzePublishers.

(** [_find_method_name] looks at the line of the call first: when that
    line has the shape of a signature or call, its name is the answer and
    no earlier line is read. *)
Lemma find_method_name_reads_call_line (lines : list string) i l m :
  lines !! i = Some l ->
  Re.search re_method (Py.strip l) = Some m ->
  _find_method_name lines (S i) = Re.group_str (Py.strip l) m 1.
Proof.
  intros Hl Hm. unfold _find_method_name.
  rewrite (take_S_r _ _ _ Hl), rev_app_distr. simpl. now rewrite Hm.
Qed.

(** The first and the third pattern both match the sample call, the second
    does not; the call line itself has the shape [re_method] looks for. *)
Example sample_call_patterns :
  let line := "        eventPublisher.publishEvent(new OrderPlacedEvent(id));" in
  map (fun pattern => Re.matches pattern line) patterns = [true; false; true]
  ∧ (fun m => Re.group_str (Py.strip line) m 1) <$> Re.search re_method (Py.strip line)
    = Some "publishEvent".
Proof. vm_compute. split; reflexivity. Qed.

(** C4 on the code.  The service sample calls
    [eventPublisher.publishEvent(new OrderPlacedEvent(id))] once, on line
    12, inside [placeOrder].  The analyser reports the call twice, and
    names [publishEvent] as the calling method in both findings; the
    snippet is not empty. *)
Theorem publish_call_found_twice_under_call_name :
  map (fun p => (PublisherInfo.event_name p, PublisherInfo.method_name p,
                 PublisherInfo.line_number p,
                 negb (String.eqb (PublisherInfo.code_snippet p) EmptyString)))
      (analyze [Samples.order_service])
  = [("OrderPlacedEvent", "publishEvent", 12, true);
     ("OrderPlacedEvent", "publishEvent", 12, true)].
Proof. vm_compute. reflexivity. Qed.

End PublisherFacts.

(** ** Listeners *)
Module ListenerFacts.
Import AnalyzeListeners.

(** What [_parse_listener] puts into a record it returns. *)
Lemma parse_listener_Some lines start_line file_path package class_name has_class_async info :
  _parse_listener lines start_line file_path package class_name has_class_async = Some info ->
  ∃ method_line method_match event_name,
    find_method_line lines start_line = Some method_line
    ∧ Re.search re_method (nth method_line lines EmptyString) = Some method_match
    ∧ resolve_event_name (nth method_line lines EmptyString)
                         (nth start_line lines EmptyString) = Some event_name
    ∧ info = ListenerInfo.Mk
               event_name class_name
               (Re.group_str (nth method_line lines EmptyString) method_match 2)
               file_path (start_line + 1) package
               (async_loop (skipn (S start_line) lines) has_class_async)
               (Py.contains "@TransactionalEventListener" (nth start_line lines EmptyString))
               (if Py.contains "@TransactionalEventListener"
                               (nth start_line lines EmptyString)
                then match Re.search re_phase (nth start_line lines EmptyString) with
                     | Some phase_match =>
                         Some (Re.group_str (nth start_line lines EmptyString) phase_match 1)
                     | None => None
                     end
                else None)
               (match Re.search re_condition (nth start_line lines EmptyString) with
                | Some condition_match =>
                    Some (Re.group_str (nth start_line lines EmptyString) condition_match 1)
                | None => None
                end)
               (_extract_javadoc lines start_line).
Proof.
  unfold _parse_listener. intros H.
  destruct (find_method_line lines start_line) as [[|j]|]; try discriminate.
  destruct (Re.search re_method (nth (S j) lines EmptyString)) as [mm|] eqn:Emm;
    try discriminate.
  destruct (resolve_event_name (nth (S j) lines EmptyString)
                               (nth start_line lines EmptyString)) as [ev|] eqn:Eev;
    try discriminate.
  injection H as <-. exists (S j), mm, ev. repeat split; assumption || reflexivity.
Qed.

(** What the extractor records of the phase: the token written after
    [phase = TransactionPhase.] on the annotation line of a transactional
    listener, and nothing otherwise. *)
Theorem listener_phase_absent_unless_written
    lines start_line file_path package class_name has_class_async info :
  _parse_listener lines start_line file_path package class_name has_class_async = Some info ->
  let annotation_line := nth start_line lines EmptyString in
  ListenerInfo.is_transactional info
  = Py.contains "@TransactionalEventListener" annotation_line
  ∧ (Re.search re_phase annotation_line = None ->
     ListenerInfo.transaction_phase info = None)
  ∧ (ListenerInfo.is_transactional info = false ->
     ListenerInfo.transaction_phase info = None)
  ∧ (∀ phase_match,
       ListenerInfo.is_transactional info = true ->
       Re.search re_phase annotation_line = Some phase_match ->
       ListenerInfo.transaction_phase info
       = Some (Re.group_str annotation_line phase_match 1)).
Proof.
  intros H annotation_line.
  apply parse_listener_Some in H as (j & mm & ev & _ & _ & _ & ->).
  cbn [ListenerInfo.is_transactional ListenerInfo.transaction_phase].
  fold annotation_line.
  destruct (Py.contains "@TransactionalEventListener" annotation_line);
    (split; [reflexivity|]); (split; [|split]).
  - now intros ->.
  - discriminate.
  - now intros phase_match _ ->.
  - reflexivity.
  - reflexivity.
  - discriminate.
Qed.

Lemma listener_phase_absent_unless_written_witness :
  ListenerInfo.transaction_phase Samples.mail_listener_info = None.
Proof.
  destruct (listener_phase_absent_unless_written
              (Py.split newline Samples.mail_listener_text) 3
              "src/mail/MailListener.java" "com.shop.mail" "MailListener" false
              Samples.mail_listener_info) as [_ [Hnone _]].
  - vm_compute. reflexivity.
  - apply Hnone. vm_compute. reflexivity.
Defined.

(** The transactional listener of the sample is emitted with no phase at
    all. *)
Lemma listener_phase_not_defaulted :
  analyze [Samples.mail_listener] = [Samples.mail_listener_info]
  ∧ ListenerInfo.is_transactional Samples.mail_listener_info = true
  ∧ ListenerInfo.transaction_phase Samples.mail_listener_info ≠ Some "AFTER_COMMIT".
Proof. split; [vm_compute; reflexivity|]. split; [reflexivity | discriminate]. Qed.

(** C5, as the code has it.  The default that C5 states is written in
    the renderers, [listener.get('transaction_phase', 'AFTER_COMMIT')],
    and is never used.  For a transactional listener whose annotation
    line names no phase the extractor records no phase; [asdict] writes
    the key all the same, with [None] under it; so the renderers' [get]
    finds the key and returns [None], not the default, and a listener
    that is not asynchronous is drawn with (None) where (AFTER_COMMIT)
    was meant. *)
Theorem transactional_listener_without_phase_drawn_as_None
    lines start_line file_path package class_name has_class_async info :
  _parse_listener lines start_line file_path package class_name has_class_async = Some info ->
  Py.contains "@TransactionalEventListener" (nth start_line lines EmptyString) = true ->
  Re.search re_phase (nth start_line lines EmptyString) = None ->
  ListenerInfo.is_transactional info = true
  ∧ ListenerInfo.transaction_phase info = None
  ∧ ListenerRendering.get "transaction_phase" (ListenerRendering.PyStr "AFTER_COMMIT")
                          (ListenerRendering.asdict info)
    = ListenerRendering.PyNone
  ∧ (ListenerInfo.is_async info = false ->
     ListenerRendering.annotation (ListenerRendering.asdict info) = " (None)"
     ∧ ListenerRendering.annotation (ListenerRendering.asdict info) ≠ " (AFTER_COMMIT)").
Proof.
  intros H Htx Hphase.
  apply parse_listener_Some in H as (j & mm & ev & _ & _ & _ & ->).
  cbn [ListenerInfo.is_transactional ListenerInfo.transaction_phase ListenerInfo.is_async].
  rewrite Htx, Hphase.
  split; [reflexivity|]. split; [reflexivity|]. split; [reflexivity|].
  intros Hasync. unfold ListenerRendering.annotation, ListenerRendering.asdict.
  cbn [ListenerInfo.is_transactional ListenerInfo.transaction_phase ListenerInfo.is_async
       ListenerInfo.event_name ListenerInfo.class_name ListenerInfo.method_name
       ListenerInfo.file_path ListenerInfo.line_number ListenerInfo.package
       ListenerInfo.condition ListenerInfo.javadoc].
  rewrite ?Htx, ?Hphase, Hasync.
  split; [reflexivity | discriminate].
Qed.

Lemma transactional_listener_without_phase_drawn_as_None_witness :
  analyze [Samples.mail_listener] = [Samples.mail_listener_info]
  ∧ ListenerInfo.transaction_phase Samples.mail_listener_info = None
  ∧ ListenerRendering.annotation (ListenerRendering.asdict Samples.mail_listener_info)
    = " (None)".
Proof.
  split; [vm_compute; reflexivity|].
  destruct (transactional_listener_without_phase_drawn_as_None
              (Py.split newline Samples.mail_listener_text) 3
              "src/mail/MailListener.java" "com.shop.mail" "MailListener" false
              Samples.mail_listener_info) as (_ & Hnone & _ & Hdrawn).
  - vm_compute. reflexivity.
  - vm_compute. reflexivity.
  - vm_compute. reflexivity.
  - split; [exact Hnone|]. apply Hdrawn. reflexivity.
Defined.

(** C6, as the code has it.  A marked method whose event type is found
    neither in its parameter list nor in the annotation yields no record;
    every record that is emitted carries the event type that was
    resolved. *)
Theorem listener_without_event_type_dropped
    lines start_line file_path package class_name has_class_async :
  ((∀ method_line,
      find_method_line lines start_line = Some method_line ->
      resolve_event_name (nth method_line lines EmptyString)
                         (nth start_line lines EmptyString) = None) ->
   _parse_listener lines start_line file_path package class_name has_class_async = None
   ∧ ∀ line, listeners_of_line lines file_path package class_name has_class_async
                               start_line line = [])
  ∧ (∀ info,
       _parse_listener lines start_line file_path package class_name has_class_async
       = Some info ->
       ∃ method_line,
         find_method_line lines start_line = Some method_line
         ∧ resolve_event_name (nth method_line lines EmptyString)
                              (nth start_line lines EmptyString)
           = Some (ListenerInfo.event_name info)).
Proof.
  split.
  - intros H.
    assert (_parse_listener lines start_line file_path package class_name has_class_async
            = None) as Hnone.
    { unfold _parse_listener.
      destruct (find_method_line lines start_line) as [[|j]|] eqn:E; try reflexivity.
      rewrite (H (S j) eq_refl).
      now destruct (Re.search re_method (nth (S j) lines EmptyString)). }
    split; [exact Hnone|]. intros line. unfold listeners_of_line. rewrite Hnone.
    now destruct (_ || _).
  - intros info H.
    apply parse_listener_Some in H as (j & mm & ev & Hj & _ & Hev & ->).
    exists j. now split.
Qed.

Lemma listener_without_event_type_dropped_witness :
  _parse_listener (Py.split newline Samples.text_listener_text) 3
                  "src/mail/TextListener.java" "com.shop.mail" "TextListener" false = None.
Proof.
  apply (proj1 (listener_without_event_type_dropped
                  (Py.split newline Samples.text_listener_text) 3
                  "src/mail/TextListener.java" "com.shop.mail" "TextListener" false)).
  intros method_line H. vm_compute in H. injection H as <-. vm_compute. reflexivity.
Defined.

(** C6, as stated, fails: line 4 of the sample carries the marker, line 5
    is its method, no event type can be resolved, and the analyser emits
    nothing for it. *)
Lemma listener_without_event_type_not_emitted :
  Py.contains "@EventListener" (nth 3 (Py.split newline Samples.text_listener_text) EmptyString)
  = true
  ∧ find_method_line (Py.split newline Samples.text_listener_text) 3 = Some 4
  ∧ resolve_event_name (nth 4 (Py.split newline Samples.text_listener_text) EmptyString)
                       (nth 3 (Py.split newline Samples.text_listener_text) EmptyString)
    = None
  ∧ analyze [Samples.text_listener] = [].
Proof. vm_compute. repeat split. Qed.

End ListenerFacts.

(* ===================================================================== *)
(** * Part III: further properties of the analysers *)
(* ===================================================================== *)

(** ** String facts used below *)
Module PyFacts.

Lemma concat_cons_nonempty sep x (l : list string) :
  x ≠ EmptyString -> String.concat sep (x :: l) ≠ EmptyString.
Proof.
  intros Hx. destruct x as [|c x]; [congruence|].
  destruct l; simpl; discriminate.
Qed.

Lemma append_nonempty_l (a b : string) : a ≠ EmptyString -> (a +:+ b) ≠ EmptyString.
Proof. destruct a; [congruence | discriminate]. Qed.

(** The runs [split_ws] returns are not empty and hold no white space. *)
Lemma split_ws_aux_parts s :
  (forall c, In c (list_ascii_of_string (Py.split_ws_aux s).1) -> Py.isspace c = false)
  /\ Forall (fun w => w ≠ EmptyString
                      /\ forall c, In c (list_ascii_of_string w) -> Py.isspace c = false)
            (Py.split_ws_aux s).2.
Proof.
  induction s as [|c s [IHw IHws]]; simpl.
  - split; [intros c [] | constructor].
  - destruct (Py.split_ws_aux s) as [w ws] eqn:E. simpl in IHw, IHws.
    destruct (Py.isspace c) eqn:Hc; simpl.
    + split; [intros c' []|].
      destruct w as [|c0 w]; [exact IHws|].
      constructor; [|exact IHws]. split; [discriminate | exact IHw].
    + split; [|exact IHws].
      intros c' [<-|Hin]; [exact Hc | now apply IHw].
Qed.

Lemma split_ws_parts s :
  Forall (fun w => w ≠ EmptyString
                   /\ forall c, In c (list_ascii_of_string w) -> Py.isspace c = false)
         (Py.split_ws s).
Proof.
  unfold Py.split_ws. pose proof (split_ws_aux_parts s) as [Hw Hws].
  destruct (Py.split_ws_aux s) as [w ws]. simpl in Hw, Hws.
  destruct w as [|c w]; [exact Hws|].
  constructor; [|exact Hws]. split; [discriminate | exact Hw].
Qed.

Lemma last_Some_elem_of (l : list string) x :
  List.last (map Some l) None = Some x -> x ∈ l.
Proof.
  induction l as [|y l IH]; simpl; [discriminate|].
  destruct l as [|z l].
  - simpl. intros [= ->]. apply list_elem_of_here.
  - intros H. apply list_elem_of_further, IH, H.
Qed.

End PyFacts.

(** ** More on the event scan *)
Module ScanProperties.
Import ScanEvents.

(** X1.  The events of a scan are exactly the events parsed from the
    enumerated files that lie in an event package, and there are at most
    as many as files. *)
Theorem scan_events_exactly_parsed_event_files (files : list SourceFile) :
  (forall e,
     e ∈ scan files <->
     exists f, f ∈ files /\ _is_event_package (sf_path f) = true
               /\ _parse_event_file f = Some e)
  /\ length (scan files) <= length files.
Proof.
  rewrite ScanEventsFacts.scan_flat_map. split.
  - intros e. rewrite list_elem_of_In, in_flat_map. split.
    + intros (f & Hf & He). exists f. apply list_elem_of_In in Hf.
      unfold scan_file in He.
      destruct (_is_event_package (sf_path f)); [|destruct He].
      destruct (_parse_event_file f) as [e'|]; [|destruct He].
      destruct He as [<-|[]]. now repeat split.
    + intros (f & Hf & Hpkg & Hparse). exists f. split; [now apply list_elem_of_In|].
      unfold scan_file. rewrite Hpkg, Hparse. now left.
  - induction files as [|f files IH]; simpl; [lia|].
    rewrite length_app. unfold scan_file at 1.
    destruct (_is_event_package (sf_path f)); [|simpl; lia].
    destruct (_parse_event_file f); simpl; lia.
Qed.

(** X2.  Every member read off a record header has a name and a type that
    are not empty, a name without white space, no Javadoc and no
    annotations. *)
Theorem record_members_have_name_and_type (content : string) (fld : FieldInfo.t) :
  fld ∈ _extract_fields content true ->
  FieldInfo.name fld ≠ EmptyString
  /\ FieldInfo.type fld ≠ EmptyString
  /\ (forall c, In c (list_ascii_of_string (FieldInfo.name fld)) -> Py.isspace c = false)
  /\ FieldInfo.javadoc fld = None
  /\ FieldInfo.annotations fld = [].
Proof.
  unfold _extract_fields. destruct (Re.search re_record_params content) as [m|];
    [|intros H; inversion H].
  rewrite list_elem_of_In, in_flat_map. intros (param & _ & H).
  unfold record_field in H.
  destruct (String.eqb (Py.strip param) EmptyString); [destruct H|].
  pose proof (PyFacts.split_ws_parts (Py.strip param)) as Hparts.
  destruct (2 <=? length (Py.split_ws (Py.strip param))) eqn:Hlen; [|destruct H].
  apply Nat.leb_le in Hlen.
  destruct (List.last (map Some (Py.split_ws (Py.strip param))) None) as [nm|] eqn:Hlast;
    [|destruct H].
  destruct H as [<-|[]]. cbn [FieldInfo.name FieldInfo.type FieldInfo.javadoc
                              FieldInfo.annotations].
  apply PyFacts.last_Some_elem_of in Hlast.
  rewrite Forall_forall in Hparts. destruct (Hparts _ Hlast) as [Hne Hws].
  repeat split; try assumption.
  destruct (Py.split_ws (Py.strip param)) as [|p0 [|p1 ps]] eqn:E; simpl in Hlen; try lia.
  assert (p0 ≠ EmptyString) as Hp0 by (apply (Hparts p0), list_elem_of_here).
  replace (length (p0 :: p1 :: ps) - 1) with (S (length ps)) by (simpl; lia).
  cbn [take]. unfold Py.join. now apply PyFacts.concat_cons_nonempty.
Qed.

Lemma record_members_have_name_and_type_witness :
  FieldInfo.name (FieldInfo.Mk "items" "java.util.List<String>" None []) ≠ EmptyString
  /\ FieldInfo.type (FieldInfo.Mk "items" "java.util.List<String>" None []) ≠ EmptyString
  /\ (forall c, In c (list_ascii_of_string
                        (FieldInfo.name (FieldInfo.Mk "items" "java.util.List<String>" None [])))
                -> Py.isspace c = false)
  /\ FieldInfo.javadoc (FieldInfo.Mk "items" "java.util.List<String>" None []) = None
  /\ FieldInfo.annotations (FieldInfo.Mk "items" "java.util.List<String>" None []) = [].
Proof.
  apply (record_members_have_name_and_type Samples.order_placed_text).
  vm_compute. apply list_elem_of_further, list_elem_of_here.
Defined.

End ScanProperties.

(** ** More on the project analyser *)
Module ProjectProperties.
Import AnalyzeProject.

Section Run.
Variable list_of_set : list string -> list string.

(** What one file adds: at most one process or one data store, of the
    shapes the per-kind analysers build, and external entities of the two
    kinds. *)
Lemma analyze_file_adds self f :
  exists ps ds es,
    processes (_analyze_file list_of_set self f) = processes self ++ ps
    /\ data_stores (_analyze_file list_of_set self f) = data_stores self ++ ds
    /\ external_entities (_analyze_file list_of_set self f) = external_entities self ++ es
    /\ length ps + length ds <= 1
    /\ Forall (fun p => Process.name p = Process.class_name p
                        /\ (Process.type p = "controller" \/ Process.type p = "service"
                            \/ Process.type p = "repository")
                        /\ (Process.type p = "repository" -> Process.dependencies p = [])
                        /\ (Process.type p = "service" -> length (Process.methods p) <= 10)) ps
    /\ Forall (fun d => DataStore.type d = "database") ds
    /\ Forall (fun e => (ExternalEntity.type e = "client"
                         \/ ExternalEntity.type e = "external_service")
                        /\ length (ExternalEntity.references e) = 1) es.
Proof.
  unfold _analyze_file.
  destruct (sf_text f) as [content|];
    [|exists [], [], []; rewrite !app_nil_r; repeat split; auto].
  destruct (Re.search re_class content) as [class_match|];
    [|exists [], [], []; rewrite !app_nil_r; repeat split; auto].
  destruct (Re.matches re_controller content).
  { unfold _analyze_controller. cbn [processes data_stores external_entities].
    destruct (Py.mem _ _).
    - eexists _, [], [].
      do 3 (split; [first [reflexivity | now rewrite app_nil_r]|]). split; [simpl; lia|].
      split; [|split; constructor]. constructor; [|constructor].
      cbn. repeat split; auto; discriminate.
    - eexists _, [], _.
      do 3 (split; [first [reflexivity | now rewrite app_nil_r]|]). split; [simpl; lia|].
      split; [|split; [constructor|]]; (constructor; [|constructor]);
        cbn; repeat split; auto; discriminate. }
  destruct (Re.matches re_service content).
  { unfold _analyze_service. cbn [processes data_stores external_entities].
    eexists _, [], [].
    do 3 (split; [first [reflexivity | now rewrite app_nil_r]|]). split; [simpl; lia|].
    split; [|split; constructor]. constructor; [|constructor].
    cbn. repeat split; auto; try discriminate.
    rewrite length_take. lia. }
  destruct (Re.matches re_repository content).
  { unfold _analyze_repository. cbn [processes data_stores external_entities].
    eexists _, [], [].
    do 3 (split; [first [reflexivity | now rewrite app_nil_r]|]). split; [simpl; lia|].
    split; [|split; constructor]. constructor; [|constructor].
    cbn. repeat split; auto; discriminate. }
  destruct (Re.matches re_entity content).
  { unfold _analyze_entity. cbn [processes data_stores external_entities].
    eexists [], _, [].
    do 3 (split; [first [reflexivity | now rewrite app_nil_r]|]). split; [simpl; lia|].
    split; [constructor|]. split; constructor; [reflexivity | constructor]. }
  destruct (Re.matches re_external_client content).
  { unfold _analyze_external_client. cbn [processes data_stores external_entities].
    eexists [], [], _.
    do 3 (split; [first [reflexivity | now rewrite app_nil_r]|]). split; [simpl; lia|].
    split; [constructor|]. split; constructor; [|constructor].
    cbn. split; auto. }
  exists [], [], []. rewrite !app_nil_r. repeat split; auto.
Qed.

(** The components of a finished run have the shapes the per-kind
    analysers build. *)
Lemma run_components (files : list SourceFile) :
  Forall (fun p => Process.name p = Process.class_name p
                   /\ (Process.type p = "controller" \/ Process.type p = "service"
                       \/ Process.type p = "repository")
                   /\ (Process.type p = "repository" -> Process.dependencies p = [])
                   /\ (Process.type p = "service" -> length (Process.methods p) <= 10))
         (processes (analyze list_of_set files))
  /\ Forall (fun d => DataStore.type d = "database")
            (data_stores (analyze list_of_set files))
  /\ Forall (fun e => (ExternalEntity.type e = "client"
                       \/ ExternalEntity.type e = "external_service")
                      /\ length (ExternalEntity.references e) = 1)
            (external_entities (analyze list_of_set files))
  /\ length (processes (analyze list_of_set files))
     + length (data_stores (analyze list_of_set files)) <= length files.
Proof.
  unfold analyze, _infer_data_flows. cbn [processes data_stores external_entities].
  assert (forall self n,
    Forall (fun p => Process.name p = Process.class_name p
                   /\ (Process.type p = "controller" \/ Process.type p = "service"
                       \/ Process.type p = "repository")
                   /\ (Process.type p = "repository" -> Process.dependencies p = [])
                   /\ (Process.type p = "service" -> length (Process.methods p) <= 10))
           (processes self) ->
    Forall (fun d => DataStore.type d = "database") (data_stores self) ->
    Forall (fun e => (ExternalEntity.type e = "client"
                       \/ ExternalEntity.type e = "external_service")
                      /\ length (ExternalEntity.references e) = 1)
           (external_entities self) ->
    length (processes self) + length (data_stores self) <= n ->
    let r := foldl (_analyze_file list_of_set) self files in
    Forall (fun p => Process.name p = Process.class_name p
                   /\ (Process.type p = "controller" \/ Process.type p = "service"
                       \/ Process.type p = "repository")
                   /\ (Process.type p = "repository" -> Process.dependencies p = [])
                   /\ (Process.type p = "service" -> length (Process.methods p) <= 10))
           (processes r)
    /\ Forall (fun d => DataStore.type d = "database") (data_stores r)
    /\ Forall (fun e => (ExternalEntity.type e = "client"
                       \/ ExternalEntity.type e = "external_service")
                      /\ length (ExternalEntity.references e) = 1)
              (external_entities r)
    /\ length (processes r) + length (data_stores r) <= n + length files) as Hfold.
  { induction files as [|f fs IH]; intros self n Hp Hd He Hn; cbn [foldl length].
    - repeat split; try assumption. lia.
    - destruct (analyze_file_adds self f)
        as (ps & ds & es & Eps & Eds & Ees & Hlen & Hps & Hds & Hes).
      destruct (IH (_analyze_file list_of_set self f) (S n)) as (H1 & H2 & H3 & H4).
      + rewrite Eps. apply Forall_app. now split.
      + rewrite Eds. apply Forall_app. now split.
      + rewrite Ees. apply Forall_app. now split.
      + rewrite Eps, Eds, !length_app. lia.
      + repeat split; try assumption. cbv zeta in H4. lia. }
  destruct (Hfold init 0) as (H1 & H2 & H3 & H4);
    [constructor | constructor | constructor | simpl; lia |].
  repeat split; assumption.
Qed.

(** X3.  In a finished run every process has its class name as its name
    and is a controller, a service or a repository; a repository declares
    no dependencies and a service lists at most ten methods; every data
    store is a database; every external entity is a client or an external
    service and refers to one class.  Each file contributes at most one
    process or data store. *)
Theorem components_well_formed (files : list SourceFile) :
  Forall (fun p => Process.name p = Process.class_name p
                   /\ (Process.type p = "controller" \/ Process.type p = "service"
                       \/ Process.type p = "repository")
                   /\ (Process.type p = "repository" -> Process.dependencies p = [])
                   /\ (Process.type p = "service" -> length (Process.methods p) <= 10))
         (processes (analyze list_of_set files))
  /\ Forall (fun d => DataStore.type d = "database")
            (data_stores (analyze list_of_set files))
  /\ Forall (fun e => (ExternalEntity.type e = "client"
                       \/ ExternalEntity.type e = "external_service")
                      /\ length (ExternalEntity.references e) = 1)
            (external_entities (analyze list_of_set files))
  /\ length (processes (analyze list_of_set files))
     + length (data_stores (analyze list_of_set files)) <= length files.
Proof. apply run_components. Qed.

(** X4.  Every dependency edge of a finished run carries the data type
    business_data and the flow type request or query.  It starts at a
    controller or a service, never at a repository, and it is a query
    edge exactly when it goes from a service to a repository. *)
Theorem dependency_flows_start_at_callers (files : list SourceFile) :
  Forall (fun f =>
            DataFlow.data_type f = "business_data"
            /\ (DataFlow.flow_type f = "request" \/ DataFlow.flow_type f = "query")
            /\ exists source target,
                 source ∈ processes (analyze list_of_set files)
                 /\ process_map (processes (analyze list_of_set files))
                      !! DataFlow.to_component f = Some target
                 /\ DataFlow.from_component f = Process.class_name source
                 /\ (Process.type source = "controller" \/ Process.type source = "service")
                 /\ (DataFlow.flow_type f = "query" <->
                     Process.type source = "service" /\ Process.type target = "repository"))
         (data_flows (analyze list_of_set files)).
Proof.
  apply Forall_forall. intros f Hf.
  rewrite AnalyzeProjectFacts.analyze_data_flows in Hf.
  apply AnalyzeProjectFacts.inferred_flows_inv
    in Hf as (process & dep & target & Hp & Hdep & Hm & ->).
  destruct (AnalyzeProjectFacts.process_map_lookup _ _ _ Hm) as [_ Hn].
  destruct (run_components files) as [Hwf _].
  rewrite Forall_forall in Hwf. destruct (Hwf _ Hp) as (_ & Htype & Hrepo & _).
  cbn [DataFlow.data_type DataFlow.flow_type DataFlow.to_component
       DataFlow.from_component].
  rewrite AnalyzeProjectFacts.flow_type_of_spec. unfold spec_flow_kind.
  split; [reflexivity|]. split; [repeat case_decide; auto|].
  exists process, target. rewrite Hn.
  do 3 (split; [assumption || reflexivity|]). split; [|split].
  - destruct Htype as [H|[H|H]]; auto.
    rewrite (Hrepo H) in Hdep. inversion Hdep.
  - repeat case_decide; try discriminate; intros _; assumption.
  - intros Hq. repeat case_decide; try reflexivity; try tauto.
    destruct Hq as [H1 _]. destruct H as [H2 _]. congruence.
Qed.

(** X5.  Edges are not de-duplicated: a run has one edge for every
    occurrence of a dependency that is the class name of a process of the
    run, and none for the others. *)
Theorem one_flow_per_resolved_dependency (files : list SourceFile) :
  length (data_flows (analyze list_of_set files))
  = length (List.filter
              (fun dep => bool_decide
                            (dep ∈ map Process.class_name
                                       (processes (analyze list_of_set files))))
              (flat_map Process.dependencies (processes (analyze list_of_set files)))).
Proof.
  rewrite AnalyzeProjectFacts.analyze_data_flows. unfold inferred_flows.
  set (all := processes (analyze list_of_set files)).
  assert (forall process dep,
             length (flows_of_dependency (process_map all) process dep)
             = length (List.filter
                         (fun dep => bool_decide (dep ∈ map Process.class_name all)) [dep]))
    as Hone.
  { intros process dep. unfold flows_of_dependency. cbn [List.filter].
    destruct (process_map all !! dep) as [target|] eqn:E.
    - apply AnalyzeProjectFacts.process_map_lookup in E as [Hin <-].
      rewrite bool_decide_eq_true_2; [reflexivity|].
      apply list_elem_of_In, in_map, list_elem_of_In, Hin.
    - rewrite bool_decide_eq_false_2; [reflexivity|].
      intros Hin. apply list_elem_of_In, in_map_iff in Hin as (q & Hq & Hin).
      apply list_elem_of_In, AnalyzeProjectFacts.process_map_is_Some in Hin.
      rewrite Hq, E in Hin. now destruct Hin. }
  assert (forall ps : list Process.t,
             length (flat_map (fun process =>
                                 flat_map (flows_of_dependency (process_map all) process)
                                          (Process.dependencies process)) ps)
             = length (List.filter
                         (fun dep => bool_decide (dep ∈ map Process.class_name all))
                         (flat_map Process.dependencies ps))) as Hall.
  { induction ps as [|p ps IH]; cbn [flat_map]; [reflexivity|].
    rewrite length_app, List.filter_app, length_app, IH. f_equal.
    induction (Process.dependencies p) as [|d ds IHd]; cbn [flat_map]; [reflexivity|].
    rewrite length_app, IHd, Hone. cbn [List.filter].
    destruct (bool_decide _); reflexivity. }
  apply Hall.
Qed.

End Run.

End ProjectProperties.

(** ** List facts used below *)
Module ListFacts.

Lemma elem_of_concat_imap {A B} (f : nat -> A -> list B) (l : list A) (x : B) :
  x ∈ concat (imap f l) <-> exists i y, l !! i = Some y /\ x ∈ f i y.
Proof.
  rewrite list_elem_of_In, in_concat. split.
  - intros (ys & Hys & Hx). apply list_elem_of_In, elem_of_lookup_imap in Hys
      as (i & y & -> & Hy).
    exists i, y. split; [exact Hy | now apply list_elem_of_In].
  - intros (i & y & Hy & Hx). exists (f i y). split.
    + apply list_elem_of_In, elem_of_lookup_imap. eauto.
    + now apply list_elem_of_In.
Qed.

(** [find] over a range of indices returns the first index that passes. *)
Lemma find_seq (p : nat -> bool) (n a j : nat) :
  List.find p (seq a n) = Some j ->
  a <= j < a + n /\ p j = true /\ forall i, a <= i < j -> p i = false.
Proof.
  revert a. induction n as [|n IH]; intros a; simpl; [discriminate|].
  destruct (p a) eqn:E.
  - intros [= <-]. repeat split; [lia.. | assumption | intros i Hi; lia].
  - intros H. apply IH in H as (Hj & Hp & Hfirst).
    repeat split; [lia.. | assumption |].
    intros i Hi. destruct (decide (i = a)) as [->|]; [assumption | apply Hfirst; lia].
Qed.

Lemma find_seq_none (p : nat -> bool) (n a : nat) :
  (forall i, a <= i < a + n -> p i = false) -> List.find p (seq a n) = None.
Proof.
  revert a. induction n as [|n IH]; intros a H; simpl; [reflexivity|].
  rewrite (H a) by lia. apply IH. intros i Hi. apply H. lia.
Qed.

(** A loop that only appends: the result for a list of inputs is the
    concatenation of the results for each input. *)
Lemma foldl_appending {A B} (step : list B -> A -> list B) (l : list A) (acc : list B) :
  (forall acc x, step acc x = acc ++ step [] x) ->
  foldl step acc l = acc ++ flat_map (step []) l.
Proof.
  intros Hstep. revert acc. induction l as [|x l IH]; intros acc; simpl.
  - now rewrite app_nil_r.
  - now rewrite IH, Hstep, <- app_assoc.
Qed.

End ListFacts.

(** ** More on the listener analyser *)
Module ListenerProperties.
Import AnalyzeListeners.

Lemma async_loop_true rest : async_loop rest true = true.
Proof.
  induction rest as [|l rest IH]; simpl; [reflexivity|].
  destruct (Py.startswith "public" (Py.strip l)); [reflexivity|].
  now destruct (Py.contains "@Async" l).
Qed.

Lemma listener_file_app listeners f :
  _analyze_file listeners f = listeners ++ _analyze_file [] f.
Proof. unfold _analyze_file. destruct (sf_text f); [reflexivity | now rewrite app_nil_r]. Qed.

Lemma listener_flat_map files : analyze files = flat_map (_analyze_file []) files.
Proof. unfold analyze. now rewrite (ListFacts.foldl_appending _ _ _ listener_file_app). Qed.

(** X6.  The method of a listener is looked for in the nine lines below
    the annotation only.  Without a signature there, the marker yields no
    record; a record that is emitted names the method of the first line
    with a signature among them. *)
Theorem listener_method_within_nine_lines
    lines start_line file_path package class_name has_class_async :
  ((forall j, start_line < j < start_line + 10 ->
              Re.matches re_method (nth j lines EmptyString) = false) ->
   _parse_listener lines start_line file_path package class_name has_class_async = None)
  /\ (forall info,
        _parse_listener lines start_line file_path package class_name has_class_async
        = Some info ->
        exists j m,
          start_line < j < start_line + 10 /\ j < length lines
          /\ (forall i, start_line < i < j ->
                        Re.matches re_method (nth i lines EmptyString) = false)
          /\ Re.search re_method (nth j lines EmptyString) = Some m
          /\ ListenerInfo.method_name info = Re.group_str (nth j lines EmptyString) m 2).
Proof.
  split.
  - intros Hnone. unfold _parse_listener.
    assert (find_method_line lines start_line = None) as ->; [|reflexivity].
    unfold find_method_line. apply ListFacts.find_seq_none.
    intros i Hi. apply Hnone. lia.
  - intros info H.
    apply ListenerFacts.parse_listener_Some in H as (j & m & ev & Hj & Hm & _ & ->).
    unfold find_method_line in Hj. apply ListFacts.find_seq in Hj as (Hrange & _ & Hfirst).
    exists j, m. cbn [ListenerInfo.method_name].
    split; [lia|]. split; [lia|]. split; [intros i Hi; apply Hfirst; lia|].
    split; [assumption | reflexivity].
Qed.

(** A marker followed by nine lines of other annotations and then the
    method: nothing is emitted. *)
Example listener_method_on_tenth_line_dropped :
  _parse_listener
    ["@EventListener"; "@A1"; "@A2"; "@A3"; "@A4"; "@A5"; "@A6"; "@A7"; "@A8"; "@A9";
     "public void on(OrderEvent e) {"] 0 "L.java" "p" "L" false = None
  /\ (ListenerInfo.method_name <$>
      _parse_listener
        ["@EventListener"; "@A1"; "@A2"; "@A3"; "@A4"; "@A5"; "@A6"; "@A7"; "@A8";
         "public void on(OrderEvent e) {"] 0 "L.java" "p" "L" false) = Some "on".
Proof. vm_compute. split; reflexivity. Qed.

(** X7.  Every record of a run stems from a marker line of a readable
    file: it carries that file's relative path, class name and package,
    its line number is the marker line's (counted from one), it is
    transactional exactly when that line has the transactional marker, it
    has a phase only if it is transactional, and it is asynchronous
    whenever the text of the file contains @Async anywhere. *)
Theorem listener_records_stem_from_marker_lines (files : list SourceFile) :
  Forall (fun l =>
            exists f content line,
              f ∈ files /\ sf_text f = Some content
              /\ ListenerInfo.file_path l = sf_rel f
              /\ ListenerInfo.class_name l = _extract_class_name content
              /\ ListenerInfo.package l = _extract_package content
              /\ 1 <= ListenerInfo.line_number l <= length (Py.split newline content)
              /\ Py.split newline content !! (ListenerInfo.line_number l - 1) = Some line
              /\ (Py.contains "@EventListener" line = true
                  \/ Py.contains "@TransactionalEventListener" line = true)
              /\ ListenerInfo.is_transactional l
                 = Py.contains "@TransactionalEventListener" line
              /\ (ListenerInfo.transaction_phase l ≠ None ->
                  ListenerInfo.is_transactional l = true)
              /\ (Py.contains "@Async" content = true -> ListenerInfo.is_async l = true))
         (analyze files).
Proof.
  apply Forall_forall. intros l Hl.
  rewrite listener_flat_map in Hl. apply list_elem_of_In, in_flat_map in Hl as (f & Hf & Hl).
  unfold _analyze_file in Hl. destruct (sf_text f) as [content|] eqn:Htext; [|destruct Hl].
  unfold _find_listeners in Hl. cbn [app] in Hl.
  apply list_elem_of_In, ListFacts.elem_of_concat_imap in Hl as (i & line & Hline & Hl).
  unfold listeners_of_line in Hl.
  destruct (Py.contains "@EventListener" line || Py.contains "@TransactionalEventListener" line)
    eqn:Hmark; [|inversion Hl].
  destruct (_parse_listener _ _ _ _ _ _) as [info|] eqn:Hparse; [|inversion Hl].
  apply list_elem_of_singleton in Hl as ->.
  apply ListenerFacts.parse_listener_Some in Hparse as (j & m & ev & _ & _ & _ & ->).
  rewrite (nth_lookup_Some _ _ EmptyString _ Hline).
  cbn [ListenerInfo.file_path ListenerInfo.class_name ListenerInfo.package
       ListenerInfo.line_number ListenerInfo.is_transactional
       ListenerInfo.transaction_phase ListenerInfo.is_async].
  exists f, content, line. apply lookup_lt_Some in Hline as Hlt.
  replace (i + 1 - 1) with i by lia.
  split; [now apply list_elem_of_In|]. split; [exact Htext|].
  do 3 (split; [reflexivity|]).
  split; [lia|]. split; [assumption|]. split; [now apply orb_true_iff|].
  split; [reflexivity|]. split.
  - destruct (Py.contains "@TransactionalEventListener" line); [reflexivity | congruence].
  - intros ->. apply async_loop_true.
Qed.

End ListenerProperties.

(** ** More on the publisher analyser *)
Module PublisherProperties.
Import AnalyzePublishers.

Lemma publisher_file_app publishers f :
  _analyze_file publishers f = publishers ++ _analyze_file [] f.
Proof. unfold _analyze_file. destruct (sf_text f); [reflexivity | now rewrite app_nil_r]. Qed.

Lemma publisher_flat_map files : analyze files = flat_map (_analyze_file []) files.
Proof. unfold analyze. now rewrite (ListFacts.foldl_appending _ _ _ publisher_file_app). Qed.

(** The snippet of a line of the file is never empty. *)
Lemma code_snippet_nonempty lines line_num context :
  1 <= line_num <= length lines -> _get_code_snippet lines line_num context ≠ EmptyString.
Proof.
  intros Hn. unfold _get_code_snippet.
  destruct (Nat.min (length lines) (line_num + context) - (line_num - context - 1))
    as [|k] eqn:E; [lia|].
  cbn [seq map]. apply PyFacts.concat_cons_nonempty, PyFacts.append_nonempty_l.
  now destruct (_ =? _).
Qed.

(** X8.  Every finding of a run stems from a line of a readable file that
    one of the three patterns matches: it carries that file's relative
    path, class name and package, the line's number (counted from one),
    the event type the pattern captured, the method name and the snippet
    computed for that line; the snippet is never empty. *)
Theorem publish_findings_stem_from_matching_lines (files : list SourceFile) :
  Forall (fun p =>
            exists f content line pattern m,
              f ∈ files /\ sf_text f = Some content
              /\ PublisherInfo.file_path p = sf_rel f
              /\ PublisherInfo.class_name p = _extract_class_name content
              /\ PublisherInfo.package p = _extract_package content
              /\ 1 <= PublisherInfo.line_number p <= length (Py.split newline content)
              /\ Py.split newline content !! (PublisherInfo.line_number p - 1) = Some line
              /\ pattern ∈ patterns
              /\ Re.search pattern line = Some m
              /\ PublisherInfo.event_name p = Re.group_str line m 1
              /\ PublisherInfo.method_name p
                 = _find_method_name (Py.split newline content) (PublisherInfo.line_number p)
              /\ PublisherInfo.code_snippet p
                 = _get_code_snippet (Py.split newline content)
                                     (PublisherInfo.line_number p) 2
              /\ PublisherInfo.code_snippet p ≠ EmptyString)
         (analyze files).
Proof.
  apply Forall_forall. intros p Hp.
  rewrite publisher_flat_map in Hp. apply list_elem_of_In, in_flat_map in Hp as (f & Hf & Hp).
  unfold _analyze_file in Hp. destruct (sf_text f) as [content|] eqn:Htext; [|destruct Hp].
  unfold _find_publish_calls in Hp. cbn [app] in Hp.
  apply list_elem_of_In, ListFacts.elem_of_concat_imap in Hp as (i & line & Hline & Hp).
  unfold findings_of_line in Hp.
  apply list_elem_of_In, in_flat_map in Hp as (pattern & Hpat & Hp).
  destruct (Re.search pattern line) as [m|] eqn:Hm; [|destruct Hp].
  destruct Hp as [<-|[]].
  cbn [PublisherInfo.file_path PublisherInfo.class_name PublisherInfo.package
       PublisherInfo.line_number PublisherInfo.event_name PublisherInfo.method_name
       PublisherInfo.code_snippet].
  exists f, content, line, pattern, m. apply lookup_lt_Some in Hline as Hlt.
  replace (S i - 1) with i by lia.
  split; [now apply list_elem_of_In|]. split; [exact Htext|].
  do 3 (split; [reflexivity|]). split; [lia|]. split; [assumption|].
  split; [now apply list_elem_of_In|]. split; [assumption|].
  do 3 (split; [reflexivity|]). apply code_snippet_nonempty. lia.
Qed.

Lemma first_signature_skip skipped rest :
  Forall (fun l => Re.search re_method (Py.strip l) = None) skipped ->
  first_signature (skipped ++ rest) = first_signature rest.
Proof. induction 1 as [|l skipped Hl _ IH]; simpl; [reflexivity|]. now rewrite Hl. Qed.

(** X9.  The method name of a call on line [target_line] is read off the
    nearest line, from the call line itself upwards, that has the shape of
    a signature or call; it is "unknown" when no line up to the call line
    has that shape. *)
Theorem find_method_name_nearest_shape (lines : list string) (target_line : nat) :
  ((forall i l, i < target_line -> lines !! i = Some l ->
                Re.search re_method (Py.strip l) = None) ->
   _find_method_name lines target_line = "unknown")
  /\ (forall i l m,
        i < target_line -> lines !! i = Some l ->
        Re.search re_method (Py.strip l) = Some m ->
        (forall j l', i < j < target_line -> lines !! j = Some l' ->
                      Re.search re_method (Py.strip l') = None) ->
        _find_method_name lines target_line = Re.group_str (Py.strip l) m 1).
Proof.
  unfold _find_method_name. split.
  - intros Hnone.
    rewrite <- (app_nil_r (rev _)), first_signature_skip; [reflexivity|].
    apply Forall_forall. intros l Hl.
    apply list_elem_of_In, in_rev, list_elem_of_In, list_elem_of_lookup in Hl as (i & Hi).
    apply lookup_take_Some in Hi as [Hi Hlt]. eauto.
  - intros i l m Hlt Hl Hm Hlater.
    assert (take target_line lines !! i = Some l) as Htake
      by (rewrite lookup_take_lt by exact Hlt; exact Hl).
    rewrite <- (take_drop_middle _ _ _ Htake), rev_app_distr. cbn [rev].
    rewrite <- app_assoc. cbn [app].
    rewrite first_signature_skip; [simpl; now rewrite Hm|].
    apply Forall_forall. intros l' Hl'.
    apply list_elem_of_In, in_rev, list_elem_of_In, list_elem_of_lookup in Hl' as (k & Hk).
    rewrite lookup_drop in Hk. apply lookup_take_Some in Hk as [Hk Hklt].
    apply (Hlater (S i + k) l'); [lia | exact Hk].
Qed.

End PublisherProperties.

(** ** Files are analysed independently of each other *)
Module IndependenceProperties.

Lemma project_file_components list_of_set self f :
  AnalyzeProject.processes (AnalyzeProject._analyze_file list_of_set self f)
  = AnalyzeProject.processes self
    ++ AnalyzeProject.processes
         (AnalyzeProject._analyze_file list_of_set AnalyzeProject.init f)
  /\ AnalyzeProject.data_stores (AnalyzeProject._analyze_file list_of_set self f)
     = AnalyzeProject.data_stores self
       ++ AnalyzeProject.data_stores
            (AnalyzeProject._analyze_file list_of_set AnalyzeProject.init f).
Proof.
  unfold AnalyzeProject._analyze_file.
  destruct (sf_text f) as [content|]; [|now rewrite !app_nil_r].
  destruct (Re.search AnalyzeProject.re_class content); [|now rewrite !app_nil_r].
  repeat match goal with
         | |- context [if Re.matches ?r content then _ else _] =>
             destruct (Re.matches r content)
         end; cbn; now rewrite ?app_nil_r.
Qed.

Lemma project_foldl_components list_of_set files self :
  AnalyzeProject.processes (foldl (AnalyzeProject._analyze_file list_of_set) self files)
  = AnalyzeProject.processes self
    ++ flat_map (fun f => AnalyzeProject.processes
                            (AnalyzeProject._analyze_file list_of_set AnalyzeProject.init f))
                files
  /\ AnalyzeProject.data_stores (foldl (AnalyzeProject._analyze_file list_of_set) self files)
     = AnalyzeProject.data_stores self
       ++ flat_map (fun f => AnalyzeProject.data_stores
                               (AnalyzeProject._analyze_file list_of_set AnalyzeProject.init f))
                   files.
Proof.
  revert self. induction files as [|f files IH]; intros self; cbn [foldl flat_map].
  - now rewrite !app_nil_r.
  - destruct (IH (AnalyzeProject._analyze_file list_of_set self f)) as [-> ->].
    destruct (project_file_components list_of_set self f) as [-> ->].
    now rewrite <- !app_assoc.
Qed.

(** X10.  The analysers read each file on its own: for two enumerations
    one after the other, the events, the publish findings, the listener
    records, and the processes and data stores of the project analyser are
    those of the first followed by those of the second. *)
Theorem analysers_read_files_independently
    (list_of_set : list string -> list string) (files more : list SourceFile) :
  ScanEvents.scan (files ++ more) = ScanEvents.scan files ++ ScanEvents.scan more
  /\ AnalyzePublishers.analyze (files ++ more)
     = AnalyzePublishers.analyze files ++ AnalyzePublishers.analyze more
  /\ AnalyzeListeners.analyze (files ++ more)
     = AnalyzeListeners.analyze files ++ AnalyzeListeners.analyze more
  /\ AnalyzeProject.processes (AnalyzeProject.analyze list_of_set (files ++ more))
     = AnalyzeProject.processes (AnalyzeProject.analyze list_of_set files)
       ++ AnalyzeProject.processes (AnalyzeProject.analyze list_of_set more)
  /\ AnalyzeProject.data_stores (AnalyzeProject.analyze list_of_set (files ++ more))
     = AnalyzeProject.data_stores (AnalyzeProject.analyze list_of_set files)
       ++ AnalyzeProject.data_stores (AnalyzeProject.analyze list_of_set more).
Proof.
  rewrite !ScanEventsFacts.scan_flat_map, !PublisherProperties.publisher_flat_map,
    !ListenerProperties.listener_flat_map, !flat_map_app.
  do 3 (split; [reflexivity|]).
  unfold AnalyzeProject.analyze, AnalyzeProject._infer_data_flows.
  cbn [AnalyzeProject.processes AnalyzeProject.data_stores].
  split.
  - rewrite !(proj1 (project_foldl_components list_of_set _ _)), flat_map_app.
    reflexivity.
  - rewrite !(proj2 (project_foldl_components list_of_set _ _)), flat_map_app.
    reflexivity.
Qed.

(** Data flows are not of that kind: an edge needs both of its ends in
    the same run. *)
Example flows_need_both_ends_in_one_run :
  AnalyzeProject.data_flows
    (AnalyzeProject.analyze Py.dedup [Samples.order_controller; Samples.order_service])
  = [Samples.request_edge]
  /\ AnalyzeProject.data_flows (AnalyzeProject.analyze Py.dedup [Samples.order_controller])
     ++ AnalyzeProject.data_flows (AnalyzeProject.analyze Py.dedup [Samples.order_service])
     = [].
Proof. vm_compute. split; reflexivity. Qed.

End IndependenceProperties.

(** ** The lines of a snippet *)
Module SnippetProperties.
Import AnalyzePublishers.

Lemma split_single sep (w : string) :
  (forall c, In c (list_ascii_of_string w) -> c ≠ sep) -> Py.split sep w = [w].
Proof.
  induction w as [|c w IH]; intros H; simpl; [reflexivity|].
  destruct (Ascii.eqb_spec c sep) as [->|_]; [now destruct (H sep (or_introl eq_refl))|].
  rewrite IH; [reflexivity|]. intros c' Hc'. apply H. now right.
Qed.

Lemma split_app_sep sep (w rest : string) :
  (forall c, In c (list_ascii_of_string w) -> c ≠ sep) ->
  Py.split sep (w +:+ String sep rest) = w :: Py.split sep rest.
Proof.
  induction w as [|c w IH]; intros H; simpl.
  - now rewrite Ascii.eqb_refl.
  - destruct (Ascii.eqb_spec c sep) as [->|_]; [now destruct (H sep (or_introl eq_refl))|].
    rewrite IH; [reflexivity|]. intros c' Hc'. apply H. now right.
Qed.

(** Joining with a separator and splitting at it gives the list back when
    no element holds the separator. *)
Lemma split_join sep (l : list string) :
  l ≠ [] ->
  Forall (fun w => forall c, In c (list_ascii_of_string w) -> c ≠ sep) l ->
  Py.split sep (Py.join (String sep EmptyString) l) = l.
Proof.
  intros Hne Hall. unfold Py.join.
  induction Hall as [|w l Hw Hl IH]; [congruence|].
  destruct l as [|w' l].
  - simpl. now apply split_single.
  - change (String.concat (String sep EmptyString) (w :: w' :: l))
      with (w +:+ String sep (String.concat (String sep EmptyString) (w' :: l))).
    rewrite split_app_sep by exact Hw. f_equal. apply IH. discriminate.
Qed.

(** The lines [split] returns hold no separator. *)
Lemma split_no_sep sep s :
  Forall (fun w => forall c, In c (list_ascii_of_string w) -> c ≠ sep) (Py.split sep s).
Proof.
  induction s as [|c s IH]; simpl.
  - constructor; [intros c [] | constructor].
  - destruct (Ascii.eqb_spec c sep) as [->|Hne].
    + constructor; [intros c [] | exact IH].
    + destruct (Py.split sep s) as [|w ws]; [repeat constructor; intros c' [<-|[]]; exact Hne|].
      inversion IH as [|? ? Hw Hws]; subst.
      constructor; [|exact Hws]. intros c' [<-|Hc']; [exact Hne | now apply Hw].
Qed.

Lemma in_append_chars (a b : string) c :
  In c (list_ascii_of_string (a +:+ b)) ->
  In c (list_ascii_of_string a) \/ In c (list_ascii_of_string b).
Proof.
  induction a as [|x a IH]; simpl; [now right|].
  intros [<-|H]; [now left; left|]. destruct (IH H); [left; now right | now right].
Qed.

(** X11.  For a call on line [line_num] of a text, the lines of the
    snippet are the lines [line_num - 2] to [line_num + 2] of the text
    that exist, at most five, each behind four more characters: an arrow
    before the call line, blanks before the others. *)
Theorem snippet_lines_are_marked_window (content : string) (line_num : nat) :
  1 <= line_num <= length (Py.split newline content) ->
  let lines := Py.split newline content in
  let start := line_num - 3 in
  let stop := Nat.min (length lines) (line_num + 2) in
  Py.split newline (_get_code_snippet lines line_num 2)
  = map (fun i => (if i =? line_num - 1 then ">>> " else "    ") +:+ nth i lines EmptyString)
        (seq start (stop - start))
  /\ start <= line_num - 1 < stop
  /\ length (Py.split newline (_get_code_snippet lines line_num 2)) <= 5.
Proof.
  intros Hn lines start stop. subst lines start stop.
  set (lines := Py.split newline content) in *.
  assert (Py.split newline (_get_code_snippet lines line_num 2)
          = map (fun i => (if i =? line_num - 1 then ">>> " else "    ")
                          +:+ nth i lines EmptyString)
                (seq (line_num - 3)
                     (Nat.min (length lines) (line_num + 2) - (line_num - 3)))) as Hsplit.
  { unfold _get_code_snippet.
    replace (line_num - 2 - 1) with (line_num - 3) by lia.
    apply split_join.
    - destruct (Nat.min (length lines) (line_num + 2) - (line_num - 3)) eqn:E;
        [lia | discriminate].
    - apply Forall_forall. intros w Hw.
      apply list_elem_of_In, in_map_iff in Hw as (i & <- & Hi).
      apply in_seq in Hi. intros c Hc. apply in_append_chars in Hc as [Hc|Hc].
      + destruct (i =? line_num - 1); simpl in Hc;
          repeat (destruct Hc as [<-|Hc]; [discriminate|]); destruct Hc.
      + assert (i < length lines) as Hlt by lia.
        pose proof (split_no_sep newline content) as Hall. fold lines in Hall.
        rewrite Forall_forall in Hall. apply (Hall (nth i lines EmptyString)); [|exact Hc].
        apply list_elem_of_In, nth_In, Hlt. }
  split; [exact Hsplit|]. split; [lia|].
  rewrite Hsplit, length_map, length_seq. lia.
Qed.

Lemma snippet_lines_are_marked_window_witness :
  Py.split newline
    (_get_code_snippet (Py.split newline Samples.order_placed_text) 1 2)
  = [">>> package com.shop.order.event;"; "    "; "    /** An order was placed. */"].
Proof.
  destruct (snippet_lines_are_marked_window Samples.order_placed_text 1) as [H _].
  - vm_compute. lia.
  - rewrite H. vm_compute. reflexivity.
Defined.

End SnippetProperties.

(** ** Grouping by event *)
Module GroupingProperties.

Section GroupBy.
Context {A : Type}.
Variable key : A -> string.

Lemma group_by_event_snoc (items : list A) (x : A) :
  Grouping.group_by_event key (items ++ [x])
  = Grouping.group_step key (Grouping.group_by_event key items) x.
Proof. unfold Grouping.group_by_event. apply foldl_snoc. Qed.

(** The list found under a key holds the items of that key, in the order
    in which they were given; a key without items is not in the
    dictionary. *)
Lemma group_by_event_lookup (items : list A) (e : string) :
  Grouping.group_by_event key items !! e
  = match List.filter (fun x => String.eqb (key x) e) items with
    | [] => None
    | found => Some found
    end.
Proof.
  induction items as [|x items IH] using rev_ind; [apply lookup_empty|].
  rewrite group_by_event_snoc, List.filter_app. cbn [List.filter].
  unfold Grouping.group_step.
  destruct (String.eqb_spec (key x) e) as [->|Hne].
  - rewrite lookup_insert_eq. f_equal.
    destruct (Grouping.group_by_event key items !! e) as [l|] eqn:E.
    + rewrite E. simpl. destruct (List.filter _ items); [discriminate|].
      injection IH as ->. now destruct (_ :: _).
    + rewrite lookup_insert_eq. simpl.
      destruct (List.filter _ items); [reflexivity | discriminate].
  - rewrite app_nil_r, lookup_insert_ne by exact Hne.
    destruct (Grouping.group_by_event key items !! key x);
      [exact IH | now rewrite lookup_insert_ne].
Qed.

End GroupBy.

(** X12.  [group_by_event] of the publisher and of the listener analyser:
    under an event name stand exactly the records of that event, in the
    order of the list; an event name without records is no key of the
    dictionary. *)
Theorem group_by_event_collects_by_name :
  (forall publishers e,
      publishers_group_by_event publishers !! e
      = match List.filter
                (fun p => String.eqb (AnalyzePublishers.PublisherInfo.event_name p) e)
                publishers with
        | [] => None
        | found => Some found
        end)
  /\ (forall listeners e,
        listeners_group_by_event listeners !! e
        = match List.filter
                  (fun l => String.eqb (AnalyzeListeners.ListenerInfo.event_name l) e)
                  listeners with
          | [] => None
          | found => Some found
          end).
Proof. split; intros; apply group_by_event_lookup. Qed.

End GroupingProperties.

(** ** The pipeline of [generate_all_docs.py] *)
Module PipelineProperties.
Import Pipeline.

(** A required step raises exactly when the return code is not zero. *)
Lemma required_step_outcome w s t :
  required_step w s t
  = (if bool_decide (returncode w s = Some 0%Z) then Returned else Raised, t ++ [s]).
Proof.
  unfold required_step. destruct (returncode w s) as [rc|].
  - destruct (Z.eqb_spec rc 0) as [->|Hne].
    + now rewrite bool_decide_eq_true_2.
    + rewrite bool_decide_eq_false_2; [reflexivity | congruence].
  - now rewrite bool_decide_eq_false_2.
Qed.

(** With every required script returning zero only the fifth step decides. *)
Lemma run_success w :
  (forall s, s ∈ required -> returncode w s = Some 0%Z) ->
  run w = if diagram_script_exists w
          then match returncode w GenerateDiagramsScript with
               | Some _ => (0, required ++ [GenerateDiagramsScript])
               | None => (1, required ++ [GenerateDiagramsScript])
               end
          else (0, required).
Proof.
  intros Hall. unfold run, and_then. rewrite !required_step_outcome.
  rewrite !bool_decide_eq_true_2 by (apply Hall; unfold required; set_solver).
  unfold _step5_generate_diagrams.
  destruct (diagram_script_exists w); [|reflexivity].
  now destruct (returncode w GenerateDiagramsScript).
Qed.

(** The run ends at the first required script that does not return zero. *)
Lemma run_failure w before s after :
  required = before ++ s :: after ->
  (forall b, b ∈ before -> returncode w b = Some 0%Z) ->
  returncode w s ≠ Some 0%Z ->
  run w = (1, before ++ [s]).
Proof.
  intros Hsplit Hbefore Hfail. unfold run, and_then. rewrite !required_step_outcome.
  unfold required in Hsplit.
  destruct before as [|b1 [|b2 [|b3 [|b4 before]]]]; simplify_eq/=;
    repeat match goal with
    | |- context [bool_decide (returncode w ?x = Some 0%Z)] =>
        first [ rewrite (bool_decide_eq_false_2 _ Hfail)
              | rewrite (bool_decide_eq_true_2 (returncode w x = Some 0%Z))
                  by (apply Hbefore; set_solver) ]
    end; try reflexivity.
  destruct before; discriminate.
Qed.

(** Unless every required script returns zero, there is a first one that
    does not. *)
Lemma first_failure w :
  ¬ (forall s, s ∈ required -> returncode w s = Some 0%Z) ->
  exists before s after, required = before ++ s :: after
    /\ (forall b, b ∈ before -> returncode w b = Some 0%Z) /\ returncode w s ≠ Some 0%Z.
Proof.
  intros Hnot. generalize dependent required. intros l.
  induction l as [|x l IH]; intros Hnot.
  - exfalso. apply Hnot. intros s Hs. inversion Hs.
  - destruct (decide (returncode w x = Some 0%Z)) as [Hx|Hx].
    + destruct IH as (before & s & after & -> & Hb & Hs).
      { intros Hall. apply Hnot. intros s Hs. apply elem_of_cons in Hs as [->|Hs]; auto. }
      exists (x :: before), s, after. split; [reflexivity|]. split; [|exact Hs].
      intros b Hbin. apply elem_of_cons in Hbin as [->|Hbin]; auto.
    + exists [], x, l. split; [reflexivity|]. split; [|exact Hx]. intros b Hbin. inversion Hbin.
Qed.

(** X13. [EventDocPipeline.run] launches the four required scripts in
    their fixed order; the first one whose return code is not zero (or
    whose launch raises) ends the run with exit code 1, and no later
    script, the diagram generator included, is launched. *)
Theorem pipeline_stops_at_first_failure w before s after :
  required = before ++ s :: after ->
  (forall b, b ∈ before -> returncode w b = Some 0%Z) ->
  returncode w s ≠ Some 0%Z ->
  run w = (1, before ++ [s]).
Proof. apply run_failure. Qed.

Lemma pipeline_stops_at_first_failure_witness :
  run (MkWorld (fun s => match s with
                         | ScanEventsScript => Some 0%Z
                         | AnalyzePublishersScript => Some 2%Z
                         | _ => Some 0%Z
                         end) true)
  = (1, [ScanEventsScript; AnalyzePublishersScript]).
Proof.
  apply (pipeline_stops_at_first_failure _ [ScanEventsScript] AnalyzePublishersScript
           [AnalyzeListenersScript; GenerateEventDocsScript]).
  - reflexivity.
  - intros b Hb. apply list_elem_of_singleton in Hb as ->. reflexivity.
  - discriminate.
Defined.

(** X14. The exit code of [EventDocPipeline.run] is 0 or 1.  It is 0
    exactly when each of the four required scripts returns zero and the
    launch of the diagram generator, where that script exists, does not
    raise: a return code other than zero of the diagram generator is
    tolerated.  A run that exits with 0 has launched the four scripts in
    order, followed by the diagram generator if it exists. *)
Theorem pipeline_exit_code w :
  ((run w).1 = 0 \/ (run w).1 = 1)
  /\ ((run w).1 = 0 <->
      (forall s, s ∈ required -> returncode w s = Some 0%Z)
      /\ (diagram_script_exists w = true -> returncode w GenerateDiagramsScript ≠ None))
  /\ ((run w).1 = 0 ->
      (run w).2 = required ++ (if diagram_script_exists w then [GenerateDiagramsScript] else [])).
Proof.
  destruct (decide (Forall (fun s => returncode w s = Some 0%Z) required)) as [Hall|Hnot].
  - rewrite Forall_forall in Hall. rewrite (run_success w Hall).
    destruct (diagram_script_exists w); [destruct (returncode w GenerateDiagramsScript) eqn:E|]; cbn.
    + split; [now left|]. split; [|reflexivity].
      split; [intros _; split; [exact Hall | intros _; congruence] | reflexivity].
    + split; [now right|]. split; [|discriminate].
      split; [discriminate | intros [_ H]; now destruct H].
    + split; [now left|]. split; [|reflexivity].
      split; [intros _; split; [exact Hall | discriminate] | reflexivity].
  - rewrite Forall_forall in Hnot.
    destruct (first_failure w Hnot) as (before & s & after & Hsplit & Hb & Hs).
    rewrite (run_failure w before s after Hsplit Hb Hs). cbn.
    split; [now right|]. split; [|discriminate].
    split; [discriminate | intros [H _]; now destruct Hnot].
Qed.

End PipelineProperties.

(** ** Strings *)
Module StringFacts.

Lemma append_cons (c : ascii) (a b : string) : String c a +:+ b = String c (a +:+ b).
Proof. reflexivity. Qed.

Lemma append_nil_l (b : string) : EmptyString +:+ b = b.
Proof. reflexivity. Qed.

Lemma string_length_app (a b : string) : String.length (a +:+ b) = String.length a + String.length b.
Proof.
  induction a as [|c a IH]; [reflexivity|].
  rewrite append_cons. cbn [String.length]. now rewrite IH.
Qed.

Lemma string_app_assoc (a b c : string) : (a +:+ b) +:+ c = a +:+ (b +:+ c).
Proof. induction a as [|x a IH]; [reflexivity|]. rewrite !append_cons. now f_equal. Qed.

Lemma string_app_nil_r (a : string) : a +:+ EmptyString = a.
Proof. induction a as [|x a IH]; [reflexivity|]. rewrite append_cons. now f_equal. Qed.

Lemma substring_prefix (w s : string) :
  String.substring 0 (String.length w) (w +:+ s) = w.
Proof.
  induction w as [|c w IH]; [now destruct s|].
  rewrite append_cons. cbn [String.length String.substring]. now rewrite IH.
Qed.

Lemma substring_middle (pre w s : string) :
  String.substring (String.length pre) (String.length w) (pre +:+ (w +:+ s)) = w.
Proof.
  induction pre as [|c pre IH]; [exact (substring_prefix w s)|].
  rewrite append_cons. cbn [String.length String.substring]. exact IH.
Qed.

(** Appending the same tail to two strings that differ gives strings
    that differ. *)
Lemma append_inv_tail (c : string) : forall a b : string, a +:+ c = b +:+ c -> a = b.
Proof.
  induction a as [|x a IH]; intros [|y b] H.
  - reflexivity.
  - change (c = String y (b +:+ c)) in H. apply (f_equal String.length) in H.
    cbn [String.length] in H. rewrite string_length_app in H. lia.
  - change (String x (a +:+ c) = c) in H. apply (f_equal String.length) in H.
    cbn [String.length] in H. rewrite string_length_app in H. lia.
  - rewrite !append_cons in H. injection H as -> H. f_equal. now apply IH.
Qed.

End StringFacts.

(** ** The matcher is sound for the language of a pattern *)
Module ReSoundness.
Import Re ReLang StringFacts.

Lemma at_pos_app subj pos w s :
  at_pos subj pos (w +:+ s) -> at_pos subj (pos + String.length w) s.
Proof.
  intros (pre & -> & <-). exists (pre +:+ w). split.
  - now rewrite string_app_assoc.
  - apply string_length_app.
Qed.

Lemma at_pos_substring subj pos w s :
  at_pos subj pos (w +:+ s) ->
  String.substring pos (pos + String.length w - pos) subj = w.
Proof.
  intros (pre & -> & <-). replace (String.length pre + String.length w - String.length pre)
    with (String.length w) by lia. apply substring_middle.
Qed.

Section Sound.
Context {R : Type}.
Variable Q : nat -> string -> Prop.
Variable subj : string.

Lemma loop_sound (a : regex) greedy
    (body : string -> nat -> caps -> (string -> nat -> caps -> option R) -> option R)
    (k : string -> nat -> caps -> option R) (x : R) :
  (forall s pos cs k',
      at_pos subj pos s -> caps_in Q subj cs -> body s pos cs k' = Some x ->
      hands_over Q subj a s pos cs k' x (fun _ => false)) ->
  forall fuel s pos cs,
    at_pos subj pos s -> caps_in Q subj cs ->
    loop body greedy k fuel s pos cs = Some x ->
    hands_over Q subj (Star greedy a) s pos cs k x (fun _ => false).
Proof.
  intros Hbody.
  assert (forall s pos cs, k s pos cs = Some x -> caps_in Q subj cs ->
            hands_over Q subj (Star greedy a) s pos cs k x (fun _ => false)) as Hleave.
  { intros s pos cs E Hcs. exists EmptyString, s, cs. split; [reflexivity|].
    split; [constructor|]. rewrite Nat.add_0_r. split; [exact E|]. split; [exact Hcs|].
    intros n [?|?]; [discriminate | assumption]. }
  induction fuel as [|fuel IH]; intros s pos cs Hpos Hcs H; cbn [loop] in H.
  - now apply Hleave.
  - cbv zeta in H.
    match type of H with
    | (if greedy then match ?again with _ => _ end else _) = _ =>
        assert (again = Some x -> hands_over Q subj (Star greedy a) s pos cs k x (fun _ => false))
          as Hagain
    end.
    { intros E. apply Hbody in E as (w1 & s1 & cs1 & -> & Hw1 & E & Hcs1 & Hmono1);
        [|assumption..].
      destruct (_ <=? pos); [discriminate|].
      apply IH in E as (w2 & s2 & cs2 & -> & Hw2 & E & Hcs2 & Hmono2);
        [|now apply at_pos_app | assumption].
      exists (w1 +:+ w2), s2, cs2. split; [now rewrite string_app_assoc|].
      split; [now constructor|]. rewrite string_length_app, Nat.add_assoc.
      split; [exact E|]. split; [exact Hcs2|].
      intros n [?|Hn]; [discriminate|]. apply Hmono2. right. apply Hmono1. now right. }
    destruct greedy.
    + match type of H with
      | match ?again with _ => _ end = _ => destruct again eqn:E
      end.
      * injection H as ->. now apply Hagain.
      * now apply Hleave.
    + destruct (k s pos cs) eqn:E.
      * injection H as ->. now apply Hleave.
      * now apply Hagain.
Qed.

Lemma run_sound (r : regex) :
  groups_in Q r ->
  forall s pos cs (k : string -> nat -> caps -> option R) x,
    at_pos subj pos s -> caps_in Q subj cs ->
    run r s pos cs k = Some x ->
    hands_over Q subj r s pos cs k x (fun n => sets n r).
Proof.
  induction r as [| c | p | a IHa b IHb | a IHa b IHb | greedy a IHa | g a IHa];
    intros HQ s pos cs k x Hpos Hcs H; cbn [run] in H; cbn [groups_in] in HQ.
  - exists EmptyString, s, cs. split; [reflexivity|]. split; [constructor|].
    rewrite Nat.add_0_r. split; [exact H|]. split; [exact Hcs|].
    intros n [?|?]; [discriminate | assumption].
  - destruct s as [|c' s']; [discriminate|].
    destruct (Ascii.eqb_spec c c') as [<-|]; [|discriminate].
    exists (String c EmptyString), s', cs. split; [reflexivity|]. split; [constructor|].
    cbn [String.length]. rewrite Nat.add_1_r. split; [exact H|]. split; [exact Hcs|].
    intros n [?|?]; [discriminate | assumption].
  - destruct s as [|c' s']; [discriminate|].
    destruct (p c') eqn:Ep; [|discriminate].
    exists (String c' EmptyString), s', cs. split; [reflexivity|]. split; [now constructor|].
    cbn [String.length]. rewrite Nat.add_1_r. split; [exact H|]. split; [exact Hcs|].
    intros n [?|?]; [discriminate | assumption].
  - destruct HQ as [HQa HQb].
    apply IHa in H as (w1 & s1 & cs1 & -> & Hw1 & H & Hcs1 & Hmono1); [|assumption..].
    apply IHb in H as (w2 & s2 & cs2 & -> & Hw2 & H & Hcs2 & Hmono2);
      [|assumption | now apply at_pos_app | assumption].
    exists (w1 +:+ w2), s2, cs2. split; [now rewrite string_app_assoc|].
    split; [now constructor|]. rewrite string_length_app, Nat.add_assoc.
    split; [exact H|]. split; [exact Hcs2|].
    intros n Hn. apply Hmono2. cbn [sets] in Hn.
    destruct (sets n b); [now left|]. right. apply Hmono1.
    rewrite orb_false_r in Hn. exact Hn.
  - destruct HQ as [HQa HQb]. destruct (run a s pos cs k) eqn:E.
    + injection H as ->.
      apply IHa in E as (w & s' & cs' & -> & Hw & E & Hcs' & Hmono); [|assumption..].
      exists w, s', cs'. split; [reflexivity|]. split; [now apply lang_alt_l|].
      split; [exact E|]. split; [exact Hcs'|].
      intros n Hn. apply Hmono. cbn [sets] in Hn. destruct Hn as [Hn|Hn]; [|now right].
      apply andb_true_iff in Hn as [Hn _]. now left.
    + apply IHb in H as (w & s' & cs' & -> & Hw & E' & Hcs' & Hmono); [|assumption..].
      exists w, s', cs'. split; [reflexivity|]. split; [now apply lang_alt_r|].
      split; [exact E'|]. split; [exact Hcs'|].
      intros n Hn. apply Hmono. cbn [sets] in Hn. destruct Hn as [Hn|Hn]; [|now right].
      apply andb_true_iff in Hn as [_ Hn]. now left.
  - eapply loop_sound; [|eassumption..].
    intros s0 pos0 cs0 k' Hpos0 Hcs0 E.
    apply IHa in E as (w & s' & cs' & -> & Hw & E & Hcs' & Hmono); [|assumption..].
    exists w, s', cs'. split; [reflexivity|]. split; [exact Hw|]. split; [exact E|].
    split; [exact Hcs'|]. intros n [?|Hn]; [discriminate|]. apply Hmono. now right.
  - destruct HQ as [HQg HQa].
    apply IHa in H as (w & s' & cs' & -> & Hw & H & Hcs' & Hmono); [|assumption..].
    exists w, s', ((g, (pos, pos + String.length w)) :: cs').
    split; [reflexivity|]. split; [now constructor|]. split; [exact H|].
    split.
    + constructor; [|exact Hcs']. cbn [fst snd].
      rewrite (at_pos_substring _ _ _ _ Hpos). now apply HQg.
    + intros n Hn. cbn [lookup_cap]. destruct (Nat.eqb_spec g n) as [->|Hne]; [eexists; reflexivity|].
      apply Hmono. cbn [sets] in Hn. destruct Hn as [Hn|Hn]; [|now right].
      apply orb_true_iff in Hn as [Hn|Hn]; [|now left].
      apply Nat.eqb_eq in Hn. contradiction.
Qed.

End Sound.

Lemma at_pos_length subj pos s : at_pos subj pos s -> String.length subj = pos + String.length s.
Proof. intros (pre & -> & <-). apply string_length_app. Qed.

Lemma match_at_sound Q subj r s pos m :
  groups_in Q r -> at_pos subj pos s ->
  match_at r s pos = Some m -> sound_match Q subj r m.
Proof.
  intros HQ Hpos H. unfold match_at in H.
  eapply (run_sound Q subj r HQ) in H as (w & s' & cs' & -> & Hw & H & Hcs & Hmono);
    [|exact Hpos | constructor].
  injection H as <-. unfold sound_match, group0. cbn [m_start m_end m_caps].
  rewrite (at_pos_substring _ _ _ _ Hpos). split; [exact Hw|]. split; [exact Hcs|].
  split; [intros n Hn; apply Hmono; now left|].
  apply at_pos_length in Hpos. rewrite string_length_app in Hpos. lia.
Qed.

Lemma at_pos_tail subj pos c s : at_pos subj pos (String c s) -> at_pos subj (S pos) s.
Proof.
  intros H. change (String c s) with (String c EmptyString +:+ s) in H.
  apply at_pos_app in H. cbn [String.length] in H. now rewrite Nat.add_1_r in H.
Qed.

Lemma search_from_sound Q subj r :
  groups_in Q r ->
  forall s pos m, at_pos subj pos s -> search_from r s pos = Some m -> sound_match Q subj r m.
Proof.
  intros HQ. induction s as [|c s IH]; intros pos m Hpos H; cbn [search_from] in H.
  - destruct (match_at r EmptyString pos) eqn:E; [|discriminate].
    injection H as ->. eapply match_at_sound; eassumption.
  - destruct (match_at r (String c s) pos) eqn:E.
    + injection H as ->. eapply match_at_sound; eassumption.
    + eapply IH; [|exact H]. eapply at_pos_tail, Hpos.
Qed.

Lemma at_pos_0 subj : at_pos subj 0 subj.
Proof. now exists EmptyString. Qed.

Lemma search_sound Q r s m :
  groups_in Q r -> search r s = Some m -> sound_match Q s r m.
Proof. intros HQ H. eapply search_from_sound; [exact HQ | apply at_pos_0 | exact H]. Qed.

Lemma lookup_cap_in Q subj cs n a b :
  caps_in Q subj cs -> lookup_cap n cs = Some (a, b) -> Q n (String.substring a (b - a) subj).
Proof.
  unfold caps_in. induction cs as [|[i span] cs IH]; intros Hcs H; [discriminate|].
  apply Forall_cons in Hcs as [Hhd Htl]. cbn [lookup_cap] in H.
  destruct (Nat.eqb_spec i n) as [->|_]; [|now apply IH].
  injection H as ->. exact Hhd.
Qed.

(** A group that every match sets holds a word of its language. *)
Lemma sound_match_group Q subj r m n :
  sound_match Q subj r m -> sets n r = true -> Q n (group_str subj m n).
Proof.
  intros (_ & Hcs & Hset & _) Hn. unfold group_str, group.
  destruct (Hset n Hn) as [[a b] E]. rewrite E. eapply lookup_cap_in; eassumption.
Qed.

Lemma search_group Q r s m n :
  groups_in Q r -> sets n r = true -> search r s = Some m -> Q n (group_str s m n).
Proof. intros HQ Hn H. eapply sound_match_group; [eapply search_sound; eassumption | exact Hn]. Qed.

Lemma at_pos_drop subj d : forall pos s,
  at_pos subj pos s -> d <= String.length s -> at_pos subj (pos + d) (drop d s).
Proof.
  induction d as [|d IH]; intros pos s Hpos Hd.
  - rewrite Nat.add_0_r. now destruct s.
  - destruct s as [|c s]; [cbn in Hd; lia|]. cbn [drop].
    replace (pos + S d) with (S pos + d) by lia. apply IH; [eapply at_pos_tail, Hpos|].
    cbn [String.length] in Hd. lia.
Qed.

Lemma finditer_from_sound Q subj r :
  groups_in Q r ->
  forall fuel s pos, at_pos subj pos s ->
    Forall (sound_match Q subj r) (finditer_from fuel r s pos).
Proof.
  intros HQ. induction fuel as [|fuel IH]; intros s pos Hpos; cbn [finditer_from].
  - constructor.
  - destruct (search_from r s pos) as [m|] eqn:E; [|constructor].
    pose proof (ReFacts.search_from_span _ _ _ _ E) as [Hs He].
    constructor; [eapply search_from_sound; eassumption|].
    set (next := if m_end m <=? m_start m then S (m_end m) else m_end m).
    destruct (String.length s + pos <? next) eqn:El; [constructor|].
    apply Nat.ltb_ge in El.
    assert (pos <= next) by (unfold next; destruct (_ <=? _); lia).
    replace next with (pos + (next - pos)) at 2 by lia.
    apply IH, at_pos_drop; [exact Hpos | lia].
Qed.

Lemma finditer_sound Q r s :
  groups_in Q r -> Forall (sound_match Q s r) (finditer r s).
Proof. intros HQ. apply finditer_from_sound; [exact HQ | apply at_pos_0]. Qed.

Lemma findall1_group Q r s :
  groups_in Q r -> sets 1 r = true -> Forall (Q 1) (findall1 r s).
Proof.
  intros HQ Hn. unfold findall1. apply Forall_fmap.
  eapply Forall_impl; [apply finditer_sound, HQ|].
  intros m Hm. cbn. now apply sound_match_group with (r := r).
Qed.

(** The words of the patterns that the groups of the scripts hold. *)
Lemma lang_lit s w : lang (lit s) w -> w = s.
Proof.
  revert w. induction s as [|c s IH]; intros w H; cbn [lit] in H.
  - now inversion H.
  - destruct s as [|c' s'].
    + now inversion H.
    + inversion H as [| | |a b w1 w2 H1 H2| | | | |]; subst.
      inversion H1; subst. apply IH in H2 as ->. reflexivity.
Qed.

Lemma all_chars_nil p : all_chars p EmptyString.
Proof. intros c []. Qed.

Lemma all_chars_app p a b : all_chars p a -> all_chars p b -> all_chars p (a +:+ b).
Proof.
  intros Ha Hb c Hc. induction a as [|x a IH].
  - now apply Hb.
  - rewrite append_cons in Hc. cbn in Hc. destruct Hc as [<-|Hc].
    + apply Ha. now left.
    + apply IH; [|exact Hc]. intros c' Hc'. apply Ha. now right.
Qed.

Lemma lang_cls_chars p w : lang (Cls p) w -> w <> EmptyString /\ all_chars p w.
Proof.
  intros H. inversion H; subst. split; [discriminate|].
  intros c' [<-|[]]. assumption.
Qed.

Lemma lang_star_cls greedy p w : lang (Star greedy (Cls p)) w -> all_chars p w.
Proof.
  intros H. remember (Star greedy (Cls p)) as r eqn:Er.
  induction H as [| | | | | | |g a w1 w2 H1 _ H2 IH2|]; try discriminate.
  - apply all_chars_nil.
  - injection Er as -> ->. apply all_chars_app; [now apply lang_cls_chars in H1|].
    now apply IH2.
Qed.

Lemma lang_plus_cls p w : lang (plus (Cls p)) w -> w <> EmptyString /\ all_chars p w.
Proof.
  unfold plus. intros H. inversion H as [| | |a b w1 w2 H1 H2| | | | |]; subst.
  apply lang_star_cls in H2. pose proof (lang_cls_chars _ _ H1) as [Hne Hall].
  split.
  - inversion H1; subst. discriminate.
  - now apply all_chars_app.
Qed.

Lemma lang_word w : lang (plus word) w -> word_string w.
Proof. apply lang_plus_cls. Qed.

Lemma lang_event_type_body w : lang (cat [plus word; lit "Event"]) w -> event_word w.
Proof.
  cbn [cat]. intros H. inversion H as [| | |a b w1 w2 H1 H2| | | | |]; subst.
  apply (lang_lit "Event") in H2 as ->. exists w1. split; [now apply lang_word | reflexivity].
Qed.

(** Proves [groups_in Q r] for a pattern of the scripts, where [Q] asks
    group [k] for a word or for an event word. *)
Ltac groups_words :=
  cbn;
  repeat match goal with
         | |- _ /\ _ => split
         | |- True => exact I
         | |- forall w, lang _ w -> _ => intros ? ?
         | |- _ = _ -> _ => intros ?; try discriminate
         | H : lang _ ?w |- word_string ?w => exact (lang_word _ H)
         | H : lang _ ?w |- event_word ?w => exact (lang_event_type_body _ H)
         end.

(** The group [k] of the first match of a pattern. *)
Lemma search_group_at (P : string -> Prop) k r s m :
  groups_in (fun n w => n = k -> P w) r -> sets k r = true ->
  search r s = Some m -> P (group_str s m k).
Proof. intros HQ Hk H. now apply (search_group _ r s m k HQ Hk H). Qed.

Lemma findall1_group_at (P : string -> Prop) r s :
  groups_in (fun n w => n = 1 -> P w) r -> sets 1 r = true -> Forall P (findall1 r s).
Proof.
  intros HQ Hk. eapply Forall_impl; [apply (findall1_group _ r s HQ Hk)|].
  cbn. auto.
Qed.

End ReSoundness.

(** ** The names the analysers record *)
Module PublisherNames.
Import Re ReLang ReSoundness AnalyzePublishers.

Lemma pattern_groups pattern :
  pattern ∈ patterns ->
  groups_in (fun n w => n = 1 -> event_word w) pattern /\ sets 1 pattern = true.
Proof.
  unfold patterns. intros H.
  repeat (apply elem_of_cons in H as [->|H]); [| | |inversion H];
    (split; [groups_words | reflexivity]).
Qed.

Lemma publisher_class_name_shape content :
  _extract_class_name content = "Unknown" \/ word_string (_extract_class_name content).
Proof.
  unfold _extract_class_name. destruct (search re_class_name content) as [m|] eqn:E; [|now left].
  right. eapply search_group_at; [| |exact E]; [groups_words | reflexivity].
Qed.

(** X15.  Every finding of a run names an event type that ends in Event
    behind at least one more word character and holds word characters
    only; its class name is a non-empty word, or Unknown where the text
    declares no class, interface or record. *)
Theorem published_event_names_end_with_Event (files : list SourceFile) :
  Forall (fun p => event_word (PublisherInfo.event_name p)
                   /\ (PublisherInfo.class_name p = "Unknown"
                       \/ word_string (PublisherInfo.class_name p)))
         (analyze files).
Proof.
  apply Forall_forall. intros p Hp.
  rewrite PublisherProperties.publisher_flat_map in Hp.
  apply list_elem_of_In, in_flat_map in Hp as (f & Hf & Hp).
  unfold _analyze_file in Hp. destruct (sf_text f) as [content|] eqn:Htext; [|destruct Hp].
  unfold _find_publish_calls in Hp. cbn [app] in Hp.
  apply list_elem_of_In, ListFacts.elem_of_concat_imap in Hp as (i & line & Hline & Hp).
  unfold findings_of_line in Hp.
  apply list_elem_of_In, in_flat_map in Hp as (pattern & Hpat & Hp).
  destruct (Re.search pattern line) as [m|] eqn:Hm; [|destruct Hp].
  destruct Hp as [<-|[]]. cbn [PublisherInfo.event_name PublisherInfo.class_name].
  apply list_elem_of_In, pattern_groups in Hpat as [HQ Hk].
  split; [exact (search_group_at _ _ _ _ _ HQ Hk Hm) | apply publisher_class_name_shape].
Qed.
End PublisherNames.

Module ListenerNames.
Import Re ReLang ReSoundness AnalyzeListeners.

Lemma resolve_event_name_shape method_line annotation_line event_name :
  resolve_event_name method_line annotation_line = Some event_name -> event_word event_name.
Proof.
  unfold resolve_event_name, _extract_event_from_parameter.
  assert (forall r s m, r = re_event_param \/ r = re_classes \/ r = re_single_class ->
                        search r s = Some m -> event_word (group_str s m 1)) as Hshape.
  { intros r s m Hr Hm. eapply search_group_at; [| |exact Hm].
    - destruct Hr as [->|[->| ->]]; groups_words.
    - destruct Hr as [->|[->| ->]]; reflexivity. }
  destruct (search re_params method_line) as [pm|].
  - destruct (search re_event_param _) as [em|] eqn:E1.
    + intros [= <-]. eapply Hshape; [|exact E1]. auto.
    + destruct (search re_classes annotation_line) as [cm|] eqn:E2.
      * intros [= <-]. eapply Hshape; [|exact E2]. auto.
      * destruct (search re_single_class annotation_line) as [sm|] eqn:E3; [|discriminate].
        intros [= <-]. eapply Hshape; [|exact E3]. auto.
  - destruct (search re_classes annotation_line) as [cm|] eqn:E2.
    + intros [= <-]. eapply Hshape; [|exact E2]. auto.
    + destruct (search re_single_class annotation_line) as [sm|] eqn:E3; [|discriminate].
      intros [= <-]. eapply Hshape; [|exact E3]. auto.
Qed.

(** X16.  Every record of a run names an event type that ends in Event
    behind at least one more word character, and a method whose name is a
    non-empty word; a phase, where there is one, is a non-empty word. *)
Theorem listener_names_are_words (files : list SourceFile) :
  Forall (fun l => event_word (ListenerInfo.event_name l)
                   /\ word_string (ListenerInfo.method_name l)
                   /\ (forall phase, ListenerInfo.transaction_phase l = Some phase ->
                                     word_string phase))
         (analyze files).
Proof.
  apply Forall_forall. intros l Hl.
  rewrite ListenerProperties.listener_flat_map in Hl.
  apply list_elem_of_In, in_flat_map in Hl as (f & Hf & Hl).
  unfold _analyze_file in Hl. destruct (sf_text f) as [content|] eqn:Htext; [|destruct Hl].
  unfold _find_listeners in Hl. cbn [app] in Hl.
  apply list_elem_of_In, ListFacts.elem_of_concat_imap in Hl as (i & line & Hline & Hl).
  unfold listeners_of_line in Hl.
  destruct (_ || _); [|inversion Hl].
  destruct (_parse_listener _ _ _ _ _ _) as [info|] eqn:Hparse; [|inversion Hl].
  apply list_elem_of_singleton in Hl as ->.
  apply ListenerFacts.parse_listener_Some in Hparse as (j & m & ev & _ & Hm & Hev & ->).
  cbn [ListenerInfo.event_name ListenerInfo.method_name ListenerInfo.transaction_phase].
  split; [eapply resolve_event_name_shape, Hev|]. split.
  - eapply search_group_at; [| |exact Hm]; [groups_words | reflexivity].
  - intros phase. destruct (Py.contains _ _); [|discriminate].
    destruct (search re_phase _) as [pm|] eqn:Ep; [|discriminate].
    intros [= <-]. eapply search_group_at; [| |exact Ep]; [groups_words | reflexivity].
Qed.
End ListenerNames.

Module EventNames.
Import Re ReLang ReSoundness ScanEvents.

Lemma event_class_name_shape content class_name :
  _extract_class_name content = Some class_name -> word_string class_name.
Proof.
  unfold _extract_class_name.
  destruct (search re_class_name content) as [m|] eqn:E1.
  - intros [= <-]. eapply search_group_at; [| |exact E1]; [groups_words | reflexivity].
  - destruct (search re_record_name content) as [m|] eqn:E2; [|discriminate].
    intros [= <-]. eapply search_group_at; [| |exact E2]; [groups_words | reflexivity].
Qed.

Lemma class_fields_shape content :
  Forall (fun fld => word_string (FieldInfo.name fld)) (_extract_fields content false).
Proof.
  unfold _extract_fields. apply Forall_fmap.
  eapply Forall_impl;
    [apply (finditer_sound (fun n w => n = 2 -> word_string w)); groups_words|].
  intros m Hm. cbn [FieldInfo.name compose].
  now apply (sound_match_group _ _ _ _ 2 Hm).
Qed.

(** X17.  Every event of a scan has a name that is a non-empty word, and
    so has every field of an event that is not a record. *)
Theorem event_names_are_words (files : list SourceFile) :
  Forall (fun e => word_string (EventInfo.name e)
                   /\ (EventInfo.is_record e = false ->
                       Forall (fun fld => word_string (FieldInfo.name fld))
                              (EventInfo.fields e)))
         (scan files).
Proof.
  apply Forall_forall. intros e He.
  rewrite ScanEventsFacts.scan_flat_map in He.
  apply list_elem_of_In, in_flat_map in He as (f & _ & He).
  unfold scan_file in He. destruct (_is_event_package _); [|destruct He].
  destruct (_parse_event_file f) as [e'|] eqn:Hparse; [|destruct He].
  destruct He as [<-|[]]. unfold _parse_event_file in Hparse.
  destruct (sf_text f) as [content|]; [|discriminate].
  destruct (negb _); [discriminate|].
  destruct (_extract_class_name content) as [class_name|] eqn:Hname; [|discriminate].
  injection Hparse as <-. cbn [EventInfo.name EventInfo.is_record EventInfo.fields].
  split; [eapply event_class_name_shape, Hname|].
  intros ->. apply class_fields_shape.
Qed.
End EventNames.

Module ComponentNames.
Import Re ReLang ReSoundness AnalyzeProject.

Section Run.
Variable list_of_set : list string -> list string.

(** What one file adds, by name. *)
Lemma analyze_file_names self f :
  exists ps ds es,
    processes (_analyze_file list_of_set self f) = processes self ++ ps
    /\ data_stores (_analyze_file list_of_set self f) = data_stores self ++ ds
    /\ external_entities (_analyze_file list_of_set self f) = external_entities self ++ es
    /\ Forall (fun p => word_string (Process.class_name p)
                        /\ Forall word_string (Process.dependencies p)
                        /\ (Process.type p <> "repository" ->
                            Forall word_string (Process.methods p))) ps
    /\ Forall (fun d => (word_string (DataStore.name d)
                         \/ DataStore.name d = Py.lower (DataStore.entity_class d))
                        /\ word_string (DataStore.entity_class d)) ds
    /\ Forall (fun e => Forall word_string (ExternalEntity.references e)) es.
Proof.
  unfold _analyze_file.
  destruct (sf_text f) as [content|];
    [|exists [], [], []; rewrite !app_nil_r; repeat split; auto].
  destruct (search re_class content) as [class_match|] eqn:Hclass;
    [|exists [], [], []; rewrite !app_nil_r; repeat split; auto].
  assert (word_string (group_str content class_match 1)) as Hname.
  { eapply search_group_at; [| |exact Hclass]; [groups_words | reflexivity]. }
  assert (Forall word_string (findall1 re_autowired content)) as Hdeps.
  { apply findall1_group_at; [groups_words | reflexivity]. }
  destruct (matches re_controller content).
  { unfold _analyze_controller. cbn [processes data_stores external_entities].
    assert (Forall word_string (findall1 re_mapping_method content)) as Hmethods.
    { apply findall1_group_at; [groups_words | reflexivity]. }
    destruct (Py.mem _ _).
    - eexists _, [], [].
      do 3 (split; [first [reflexivity | now rewrite app_nil_r]|]).
      split; [|split; constructor]. constructor; [|constructor].
      cbn [Process.class_name Process.dependencies Process.methods]. auto.
    - eexists _, [], _.
      do 3 (split; [first [reflexivity | now rewrite app_nil_r]|]).
      split; [|split; [constructor|]]; (constructor; [|constructor]).
      + cbn [Process.class_name Process.dependencies Process.methods]. auto.
      + cbn [ExternalEntity.references]. constructor; [exact Hname | constructor]. }
  destruct (matches re_service content).
  { unfold _analyze_service. cbn [processes data_stores external_entities].
    eexists _, [], [].
    do 3 (split; [first [reflexivity | now rewrite app_nil_r]|]).
    split; [|split; constructor]. constructor; [|constructor].
    cbn [Process.class_name Process.dependencies Process.methods].
    split; [exact Hname|]. split; [exact Hdeps|]. intros _.
    apply Forall_take, findall1_group_at; [groups_words | reflexivity]. }
  destruct (matches re_repository content).
  { unfold _analyze_repository. cbn [processes data_stores external_entities].
    eexists _, [], [].
    do 3 (split; [first [reflexivity | now rewrite app_nil_r]|]).
    split; [|split; constructor]. constructor; [|constructor].
    cbn [Process.class_name Process.dependencies Process.methods Process.type].
    split; [exact Hname|]. split; [constructor|]. intros H. now destruct H. }
  destruct (matches re_entity content).
  { unfold _analyze_entity. cbn [processes data_stores external_entities].
    eexists [], _, [].
    do 3 (split; [first [reflexivity | now rewrite app_nil_r]|]).
    split; [constructor|]. split; [|constructor]. constructor; [|constructor].
    cbn [DataStore.name DataStore.entity_class]. split; [|exact Hname].
    destruct (search re_table_name content) as [tm|] eqn:Htable.
    - left. eapply search_group_at; [| |exact Htable]; [groups_words | reflexivity].
    - right. reflexivity. }
  destruct (matches re_external_client content).
  { unfold _analyze_external_client. cbn [processes data_stores external_entities].
    eexists [], [], _.
    do 3 (split; [first [reflexivity | now rewrite app_nil_r]|]).
    split; [constructor|]. split; [constructor|]. constructor; [|constructor].
    cbn [ExternalEntity.references]. constructor; [exact Hname | constructor]. }
  exists [], [], []. rewrite !app_nil_r. repeat split; auto.
Qed.

Lemma run_names (files : list SourceFile) : forall self,
  Forall (fun p => word_string (Process.class_name p)
                   /\ Forall word_string (Process.dependencies p)
                   /\ (Process.type p <> "repository" ->
                       Forall word_string (Process.methods p))) (processes self) ->
  Forall (fun d => (word_string (DataStore.name d)
                    \/ DataStore.name d = Py.lower (DataStore.entity_class d))
                   /\ word_string (DataStore.entity_class d)) (data_stores self) ->
  Forall (fun e => Forall word_string (ExternalEntity.references e))
         (external_entities self) ->
  Forall (fun p => word_string (Process.class_name p)
                   /\ Forall word_string (Process.dependencies p)
                   /\ (Process.type p <> "repository" ->
                       Forall word_string (Process.methods p)))
         (processes (foldl (_analyze_file list_of_set) self files))
  /\ Forall (fun d => (word_string (DataStore.name d)
                       \/ DataStore.name d = Py.lower (DataStore.entity_class d))
                      /\ word_string (DataStore.entity_class d))
            (data_stores (foldl (_analyze_file list_of_set) self files))
  /\ Forall (fun e => Forall word_string (ExternalEntity.references e))
            (external_entities (foldl (_analyze_file list_of_set) self files)).
Proof.
  induction files as [|f fs IH]; intros self Hp Hd He; cbn [foldl]; [auto|].
  destruct (analyze_file_names self f) as (ps & ds & es & Eps & Eds & Ees & Hps & Hds & Hes).
  apply IH.
  - rewrite Eps. apply Forall_app. now split.
  - rewrite Eds. apply Forall_app. now split.
  - rewrite Ees. apply Forall_app. now split.
Qed.

(** X18.  In a finished run the class name and the dependencies of every
    process are non-empty words, and so are the methods of a controller or
    service, the entity class of every data store, the class an external
    entity refers to, and both ends of every edge.  The name of a data
    store is a non-empty word where it is read off [@Table(name = ...)],
    and the entity class in lower case otherwise. *)
Theorem component_names_are_words (files : list SourceFile) :
  Forall (fun p => word_string (Process.class_name p)
                   /\ Forall word_string (Process.dependencies p)
                   /\ (Process.type p <> "repository" ->
                       Forall word_string (Process.methods p)))
         (processes (analyze list_of_set files))
  /\ Forall (fun d => (word_string (DataStore.name d)
                       \/ DataStore.name d = Py.lower (DataStore.entity_class d))
                      /\ word_string (DataStore.entity_class d))
            (data_stores (analyze list_of_set files))
  /\ Forall (fun e => Forall word_string (ExternalEntity.references e))
            (external_entities (analyze list_of_set files))
  /\ Forall (fun f => word_string (DataFlow.from_component f)
                      /\ word_string (DataFlow.to_component f))
            (data_flows (analyze list_of_set files)).
Proof.
  destruct (run_names files init) as (Hp & Hd & He); [constructor..|].
  do 3 (split; [unfold analyze, _infer_data_flows;
                 cbn [processes data_stores external_entities]; assumption|]).
  apply Forall_forall. intros f Hf.
  rewrite AnalyzeProjectFacts.analyze_data_flows in Hf.
  apply AnalyzeProjectFacts.inferred_flows_inv
    in Hf as (process & dep & target & Hin & Hdep & Hm & ->).
  cbn [DataFlow.from_component DataFlow.to_component].
  destruct (AnalyzeProjectFacts.process_map_lookup _ _ _ Hm) as [Htarget _].
  unfold analyze, _infer_data_flows in Hin, Htarget. cbn [processes] in Hin, Htarget.
  rewrite Forall_forall in Hp.
  split; [apply (Hp _ Hin) | apply (Hp _ Htarget)].
Qed.

End Run.
End ComponentNames.

(** ** One call, two findings *)
Module DoubleCount.
Import Re AnalyzePublishers.

Lemma loop_mono {R R' : Type}
    (body : string -> nat -> caps -> (string -> nat -> caps -> option R) -> option R)
    (body' : string -> nat -> caps -> (string -> nat -> caps -> option R') -> option R')
    greedy (k : string -> nat -> caps -> option R) (k' : string -> nat -> caps -> option R') :
  (forall s pos cs h h',
      (forall s p c, is_Some (h s p c) -> is_Some (h' s p c)) ->
      is_Some (body s pos cs h) -> is_Some (body' s pos cs h')) ->
  (forall s p c, is_Some (k s p c) -> is_Some (k' s p c)) ->
  forall fuel s pos cs,
    is_Some (loop body greedy k fuel s pos cs) -> is_Some (loop body' greedy k' fuel s pos cs).
Proof.
  intros Hbody Hk. induction fuel as [|fuel IH]; intros s pos cs; cbn [loop]; [apply Hk|].
  cbv zeta.
  match goal with
  | |- is_Some (if greedy then match ?again with _ => _ end else _) ->
       is_Some (if greedy then match ?again' with _ => _ end else _) =>
      assert (is_Some again -> is_Some again') as Hagain
  end.
  { apply Hbody. intros s1 p1 c1. destruct (p1 <=? pos); [intros [? ?]; discriminate | apply IH]. }
  destruct greedy.
  - match goal with
    | |- is_Some (match ?again with _ => _ end) -> is_Some (match ?again' with _ => _ end) =>
        destruct again eqn:E; destruct again' eqn:E'
    end; intros H; try (eexists; reflexivity).
    + destruct Hagain as [? ?]; [eexists; reflexivity | discriminate].
    + now apply Hk.
  - destruct (k s pos cs) eqn:E.
    + intros _. destruct (Hk s pos cs) as [x' ->]; [rewrite E; eexists; reflexivity|].
      eexists; reflexivity.
    + intros H. destruct (k' s pos cs); [eexists; reflexivity | now apply Hagain].
Qed.

(** Whether a run succeeds depends on its continuation only through
    whether that succeeds. *)
Lemma run_mono {R R' : Type} (r : regex) :
  forall s pos cs (k : string -> nat -> caps -> option R)
         (k' : string -> nat -> caps -> option R'),
    (forall s p c, is_Some (k s p c) -> is_Some (k' s p c)) ->
    is_Some (run r s pos cs k) -> is_Some (run r s pos cs k').
Proof.
  induction r as [| c | p | a IHa b IHb | a IHa b IHb | greedy a IHa | g a IHa];
    intros s pos cs k k' Hk; cbn [run].
  - apply Hk.
  - destruct s as [|c' s']; [intros [? ?]; discriminate|].
    destruct (Ascii.eqb c c'); [apply Hk | intros [? ?]; discriminate].
  - destruct s as [|c' s']; [intros [? ?]; discriminate|].
    destruct (p c'); [apply Hk | intros [? ?]; discriminate].
  - apply IHa. intros s1 p1 c1. now apply IHb.
  - destruct (run a s pos cs k) eqn:E.
    + intros _. destruct (IHa s pos cs k k' Hk) as [x' ->]; [rewrite E; eexists; reflexivity|].
      eexists; reflexivity.
    + intros H. destruct (run a s pos cs k'); [eexists; reflexivity | now apply (IHb _ _ _ k)].
  - apply loop_mono; [|exact Hk]. intros s1 p1 c1 h h' Hh. now apply IHa.
  - apply IHa. intros s1 p1 c1. apply Hk.
Qed.

(** Where a pattern [c r] matches, [r] matches one character later. *)
Lemma search_from_tail (c : ascii) (x rest : regex) :
  forall s pos,
    is_Some (search_from (Seq (Seq (Lit c) x) rest) s pos) ->
    is_Some (search_from (Seq x rest) s pos).
Proof.
  induction s as [|c' s IH]; intros pos; cbn [search_from].
  - unfold match_at at 1. cbn [run]. intros [? H]. discriminate.
  - destruct (match_at (Seq (Seq (Lit c) x) rest) (String c' s) pos) eqn:E.
    + intros _. destruct (match_at (Seq x rest) (String c' s) pos); [eexists; reflexivity|].
      assert (is_Some (match_at (Seq x rest) s (S pos))) as [m' Hm'].
      { unfold match_at in E |- *. cbn [run] in E |- *.
        destruct (Ascii.eqb c c'); [|discriminate].
        eapply run_mono; [|rewrite E; eexists; reflexivity].
        intros s1 p1 c1. apply run_mono. intros; eexists; reflexivity. }
      destruct s; cbn [search_from]; rewrite Hm'; eexists; reflexivity.
    + intros H. apply IH in H.
      destruct (match_at (Seq x rest) (String c' s) pos); [eexists; reflexivity | exact H].
Qed.

Lemma first_pattern_then_third line :
  matches (nth 0 patterns Eps) line = true -> matches (nth 2 patterns Eps) line = true.
Proof.
  unfold matches, search. cbn [nth patterns]. intros H.
  destruct (search_from _ line 0) eqn:E in H; [|discriminate].
  destruct (search_from_tail "." (lit "publishEvent")
              (cat [star ws; lit "("; star ws; lit "new"; plus ws; event_type]) line 0)
    as [m' Hm'].
  { eexists. exact E. }
  change (search_from (cat [lit "publishEvent"; star ws; lit "("; star ws; lit "new";
                            plus ws; event_type]) line 0 = Some m') in Hm'.
  now rewrite Hm'.
Qed.

(** X19.  For every line of a text the analyser has one finding for each
    of its three patterns that matches the line.  A line that the first
    pattern matches, a call of publishEvent on an object, is matched by
    the third pattern too, so that such a call is reported at least
    twice. *)
Theorem dotted_publish_call_found_twice
    (lines : list string) file_path package class_name (i : nat) (line : string) :
  lines !! i = Some line ->
  length (findings_of_line lines file_path package class_name (S i) line)
  = length (List.filter (fun pattern => matches pattern line) patterns)
  /\ (matches (nth 0 patterns Eps) line = true ->
      matches (nth 2 patterns Eps) line = true
      /\ 2 <= length (findings_of_line lines file_path package class_name (S i) line)).
Proof.
  intros _.
  assert (length (findings_of_line lines file_path package class_name (S i) line)
          = length (List.filter (fun pattern => matches pattern line) patterns)) as Hlen.
  { unfold findings_of_line.
    induction patterns as [|pattern ps IH]; [reflexivity|].
    cbn [flat_map List.filter]. rewrite length_app, IH. unfold matches.
    destruct (search pattern line); reflexivity. }
  split; [exact Hlen|]. intros H1.
  pose proof (first_pattern_then_third line H1) as H3.
  split; [exact H3|]. rewrite Hlen.
  cbn [nth patterns] in H1, H3. unfold patterns. cbn [List.filter].
  rewrite H1, H3.
  match goal with |- context [if ?b then _ else _] => destruct b end; cbn [length]; lia.
Qed.

(** The call on line 12 of the sample service, in the lines of its
    file. *)
Lemma dotted_publish_call_found_twice_witness :
  Py.split newline (default EmptyString (sf_text Samples.order_service)) !! 11
  = Some "        eventPublisher.publishEvent(new OrderPlacedEvent(id));"
  /\ matches (nth 0 patterns Eps)
             "        eventPublisher.publishEvent(new OrderPlacedEvent(id));" = true
  /\ matches (nth 2 patterns Eps)
             "        eventPublisher.publishEvent(new OrderPlacedEvent(id));" = true
  /\ length (findings_of_line
               (Py.split newline (default EmptyString (sf_text Samples.order_service)))
               "src/order/OrderService.java" "com.shop.order" "OrderService" 12
               "        eventPublisher.publishEvent(new OrderPlacedEvent(id));")
     = length (List.filter
                 (fun pattern =>
                    matches pattern
                      "        eventPublisher.publishEvent(new OrderPlacedEvent(id));")
                 patterns)
  /\ 2 <= length (findings_of_line
                    (Py.split newline (default EmptyString (sf_text Samples.order_service)))
                    "src/order/OrderService.java" "com.shop.order" "OrderService" 12
                    "        eventPublisher.publishEvent(new OrderPlacedEvent(id));").
Proof.
  assert (Py.split newline (default EmptyString (sf_text Samples.order_service)) !! 11
          = Some "        eventPublisher.publishEvent(new OrderPlacedEvent(id));") as Hline
    by (vm_compute; reflexivity).
  assert (matches (nth 0 patterns Eps)
            "        eventPublisher.publishEvent(new OrderPlacedEvent(id));" = true) as Hfirst
    by (vm_compute; reflexivity).
  destruct (dotted_publish_call_found_twice
              (Py.split newline (default EmptyString (sf_text Samples.order_service)))
              "src/order/OrderService.java" "com.shop.order" "OrderService" 11
              "        eventPublisher.publishEvent(new OrderPlacedEvent(id));" Hline)
    as [Hlen Htwice].
  destruct (Htwice Hfirst) as [Hthird Hcount].
  repeat split; assumption.
Defined.

End DoubleCount.

(** ** The node ids of [generate_mermaid.py] *)
Module NodeIdProperties.
Import GenerateMermaid.

Lemma decimal_inj n m : Json.decimal n = Json.decimal m -> n = m.
Proof.
  unfold Json.decimal. intros H. apply Unsigned.to_uint_inj.
  apply (f_equal NilEmpty.uint_of_string) in H. rewrite !NilEmpty.usu in H. congruence.
Qed.

Lemma node_name_inj n m : "node" +:+ Json.decimal n = "node" +:+ Json.decimal m -> n = m.
Proof. intros H. apply decimal_inj. now injection H. Qed.

Lemma get_node_id_known g name id :
  node_ids g !! name = Some id -> _get_node_id g name = (id, g).
Proof. unfold _get_node_id. now intros ->. Qed.

Lemma get_node_id_keeps g name other id :
  node_ids g !! other = Some id -> node_ids (_get_node_id g name).2 !! other = Some id.
Proof.
  intros H. unfold _get_node_id. destruct (node_ids g !! name) eqn:E; [exact H|].
  cbn [snd node_ids]. rewrite lookup_insert_ne; [exact H | congruence].
Qed.

Lemma get_node_id_domain g name other :
  is_Some (node_ids (_get_node_id g name).2 !! other)
  <-> other = name \/ is_Some (node_ids g !! other).
Proof.
  unfold _get_node_id. destruct (node_ids g !! name) eqn:E; cbn [snd node_ids].
  - split; [auto|]. intros [->|H]; [rewrite E; eauto | exact H].
  - rewrite lookup_insert_is_Some. split.
    + intros [->|[_ H]]; auto.
    + intros [->|H]; [now left|]. destruct (decide (name = other)); [now left | now right].
Qed.

Lemma get_node_id_well_numbered g name :
  well_numbered g -> well_numbered (_get_node_id g name).2.
Proof.
  intros (Hsize & Hform & Hinj). unfold _get_node_id.
  destruct (node_ids g !! name) eqn:E; [repeat split; assumption|].
  cbn [snd]. unfold well_numbered. cbn [node_ids counter].
  split; [|split].
  - rewrite map_size_insert_None by exact E. now rewrite Hsize.
  - intros other id Hl. apply lookup_insert_Some in Hl as [[<- <-]|[Hne Hl]].
    + exists (S (counter g)). split; [lia | reflexivity].
    + destruct (Hform _ _ Hl) as (k & Hk & ->). exists k. split; [lia | reflexivity].
  - intros a b id Ha Hb.
    apply lookup_insert_Some in Ha as [[<- <-]|[Hna Ha]];
      apply lookup_insert_Some in Hb as [[<- Hb]|[Hnb Hb]]; try reflexivity.
    + destruct (Hform _ _ Hb) as (k & Hk & Hid). apply node_name_inj in Hid. lia.
    + subst id. destruct (Hform _ _ Ha) as (k & Hk & Hid). apply node_name_inj in Hid. lia.
    + eapply Hinj; eassumption.
Qed.

Lemma init_well_numbered : well_numbered init.
Proof.
  split; [reflexivity|]. split.
  - intros name id H. cbn in H. now rewrite lookup_empty in H.
  - intros a b id H. cbn in H. now rewrite lookup_empty in H.
Qed.

Lemma allocate_well_numbered names : forall g, well_numbered g -> well_numbered (allocate g names).
Proof.
  induction names as [|name names IH]; intros g Hg; [exact Hg|].
  apply IH, get_node_id_well_numbered, Hg.
Qed.

Lemma allocate_domain names : forall g other,
  is_Some (node_ids (allocate g names) !! other)
  <-> other ∈ names \/ is_Some (node_ids g !! other).
Proof.
  induction names as [|name names IH]; intros g other; cbn [allocate foldl].
  - split; [auto|]. intros [H|H]; [inversion H | exact H].
  - change (foldl _ ?g' names) with (allocate g' names).
    rewrite IH, get_node_id_domain, elem_of_cons. tauto.
Qed.

Lemma allocate_known names : forall g,
  Forall (fun name => is_Some (node_ids g !! name)) names -> allocate g names = g.
Proof.
  induction names as [|name names IH]; intros g H; [reflexivity|].
  apply Forall_cons in H as [[id Hid] H]. cbn [allocate foldl].
  rewrite (get_node_id_known _ _ _ Hid). apply IH, H.
Qed.

Lemma allocate_app g l1 l2 : allocate g (l1 ++ l2) = allocate (allocate g l1) l2.
Proof. apply foldl_app. Qed.

Lemma allocate_counter names : forall g,
  counter (allocate g names) <= counter g + length names.
Proof.
  induction names as [|name names IH]; intros g; cbn [allocate foldl length]; [lia|].
  change (foldl _ ?g' names) with (allocate g' names).
  etransitivity; [apply IH|]. unfold _get_node_id.
  destruct (node_ids g !! name); cbn [snd counter]; lia.
Qed.

(** X20.  After the generator has been asked for the ids of a list of
    names, the names with an id are those of the list; asking again for
    one of them returns its id, of the form node<k> with k between 1 and
    the counter, and changes nothing; two names of the list with the same
    id are the same name; the counter is the number of names that have an
    id, at most the length of the list. *)
Theorem node_ids_stable_and_distinct (names : list string) :
  let g := allocate init names in
  (forall name, name ∈ names <-> is_Some (node_ids g !! name))
  /\ (forall name, name ∈ names ->
        exists k, 1 <= k <= counter g
                  /\ _get_node_id g name = ("node" +:+ Json.decimal k, g))
  /\ (forall a b, a ∈ names -> b ∈ names ->
        (_get_node_id g a).1 = (_get_node_id g b).1 -> a = b)
  /\ size (node_ids g) = counter g
  /\ counter g <= length names.
Proof.
  intros g.
  assert (forall name, name ∈ names <-> is_Some (node_ids g !! name)) as Hdom.
  { intros name. unfold g. rewrite allocate_domain. cbn. rewrite lookup_empty.
    split; [auto|]. intros [H|[? H]]; [exact H | discriminate]. }
  destruct (allocate_well_numbered names init init_well_numbered) as (Hsize & Hform & Hinj).
  fold g in Hsize, Hform, Hinj.
  split; [exact Hdom|]. split; [|split; [|split; [exact Hsize|]]].
  - intros name Hin. apply Hdom in Hin as [id Hid].
    destruct (Hform _ _ Hid) as (k & Hk & ->). exists k. split; [exact Hk|].
    now apply get_node_id_known.
  - intros a b Ha Hb. apply Hdom in Ha as [ida Ha]. apply Hdom in Hb as [idb Hb].
    rewrite (get_node_id_known _ _ _ Ha), (get_node_id_known _ _ _ Hb). cbn.
    intros <-. eapply Hinj; eassumption.
  - apply (allocate_counter names init).
Qed.

End NodeIdProperties.

(** ** The diagram of a finished run *)
Module DiagramProperties.
Import GenerateMermaid NodeIdProperties AnalyzeProject.


Lemma append_state line (w : Writer) : (append line w).1 = w.1.
Proof. reflexivity. Qed.

Lemma entity_node_state w entity :
  (entity_node w entity).1 = (_get_node_id w.1 (ExternalEntity.name entity)).2.
Proof.
  unfold entity_node. destruct (_get_node_id _ _) as [id g]. now destruct (_get_shape _).
Qed.

Lemma process_node_state w process :
  (process_node w process).1 = (_get_node_id w.1 (Process.class_name process)).2.
Proof.
  unfold process_node. destruct (_get_node_id _ _) as [id g]. now destruct (_get_shape _).
Qed.

Lemma store_node_state w store :
  (store_node w store).1 = (_get_node_id w.1 (DataStore.name store)).2.
Proof.
  unfold store_node. destruct (_get_node_id _ _) as [id g]. now destruct (_get_shape _).
Qed.

Lemma class_line_state style w name :
  (class_line style w name).1 = (_get_node_id w.1 name).2.
Proof. unfold class_line. now destruct (_get_node_id _ _) as [id g]. Qed.

Lemma flow_edge_state w flow :
  (flow_edge w flow).1
  = allocate w.1 [DataFlow.from_component flow; DataFlow.to_component flow].
Proof.
  unfold flow_edge. cbn [allocate foldl].
  destruct (_get_node_id w.1 _) as [id g]. cbn [snd].
  now destruct (_get_node_id g _) as [id' g'].
Qed.

(** A loop whose steps allocate the node of one name each. *)
Lemma foldl_allocates {A} (step : Writer -> A -> Writer) (name : A -> string) (l : list A) :
  (forall w x, (step w x).1 = (_get_node_id w.1 (name x)).2) ->
  forall w, (foldl step w l).1 = allocate w.1 (map name l).
Proof.
  intros Hstep. induction l as [|x l IH]; intros w; [reflexivity|].
  cbn [foldl map]. rewrite IH, Hstep. reflexivity.
Qed.

(** A loop whose steps leave the generator as it is. *)
Lemma foldl_state_fixed {A} (step : Writer -> A -> Writer) (l : list A) g :
  (forall w x, x ∈ l -> w.1 = g -> (step w x).1 = g) ->
  forall w, w.1 = g -> (foldl step w l).1 = g.
Proof.
  induction l as [|x l IH]; intros Hstep w Hw; [exact Hw|].
  cbn [foldl]. apply IH.
  - intros w' y Hy. apply Hstep. now right.
  - apply Hstep; [now left | exact Hw].
Qed.

Lemma declare_nodes_state data w :
  (declare_nodes data w).1 = allocate w.1 (declared_names data).
Proof.
  unfold declare_nodes, declared_names.
  rewrite (foldl_allocates store_node DataStore.name _ store_node_state), !append_state.
  rewrite (foldl_allocates process_node Process.class_name _ process_node_state), !append_state.
  rewrite (foldl_allocates entity_node ExternalEntity.name _ entity_node_state), !append_state.
  now rewrite !allocate_app.
Qed.

Section Known.
Variable data : JavaProjectAnalyzer.
Variable g : MermaidDFDGenerator.
Hypothesis Hknown : forall name, name ∈ declared_names data -> is_Some (node_ids g !! name).

Lemma known_entity entity :
  entity ∈ external_entities data -> is_Some (node_ids g !! ExternalEntity.name entity).
Proof.
  intros H. apply Hknown. unfold declared_names. rewrite !elem_of_app. left.
  apply list_elem_of_In, in_map, list_elem_of_In, H.
Qed.

Lemma known_process process :
  process ∈ processes data -> is_Some (node_ids g !! Process.class_name process).
Proof.
  intros H. apply Hknown. unfold declared_names. rewrite !elem_of_app. right. left.
  apply list_elem_of_In, in_map, list_elem_of_In, H.
Qed.

Lemma known_store store :
  store ∈ data_stores data -> is_Some (node_ids g !! DataStore.name store).
Proof.
  intros H. apply Hknown. unfold declared_names. rewrite !elem_of_app. right. right.
  apply list_elem_of_In, in_map, list_elem_of_In, H.
Qed.

Lemma client_edges_state w entity :
  entity ∈ external_entities data -> w.1 = g -> (client_edges w entity).1 = g.
Proof.
  intros Hin Hw. unfold client_edges. destruct (String.eqb _ _); [|exact Hw].
  apply foldl_state_fixed; [|exact Hw].
  intros w' ref _ Hw'. unfold client_edge. rewrite Hw'.
  destruct (node_ids g !! ref) as [ref_id|] eqn:Eref; [|exact Hw'].
  destruct (known_entity entity Hin) as [id Hid].
  rewrite (get_node_id_known _ _ _ Hid), (get_node_id_known _ _ _ Eref). reflexivity.
Qed.

Lemma crud_edges_state w process :
  process ∈ processes data -> w.1 = g -> (crud_edges data w process).1 = g.
Proof.
  intros Hin Hw. unfold crud_edges. destruct (String.eqb _ _); [|exact Hw].
  apply foldl_state_fixed; [|exact Hw].
  intros w' store Hstore Hw'. unfold crud_edge. destruct (Py.contains _ _); [|exact Hw'].
  rewrite Hw'. destruct (known_process process Hin) as [id Hid].
  destruct (known_store store Hstore) as [id' Hid'].
  rewrite (get_node_id_known _ _ _ Hid), (get_node_id_known _ _ _ Hid'). reflexivity.
Qed.

Lemma class_lines_state style names w :
  Forall (fun name => is_Some (node_ids g !! name)) names ->
  w.1 = g -> (foldl (class_line style) w names).1 = g.
Proof.
  intros Hnames Hw. apply foldl_state_fixed; [|exact Hw].
  intros w' name Hname Hw'. rewrite class_line_state, Hw'.
  rewrite Forall_forall in Hnames. destruct (Hnames _ Hname) as [id Hid].
  now rewrite (get_node_id_known _ _ _ Hid).
Qed.

Lemma apply_styles_state w : w.1 = g -> (apply_styles data w).1 = g.
Proof.
  intros Hw. unfold apply_styles.
  repeat (apply class_lines_state;
          [apply Forall_forall; intros name Hname; apply Hknown; unfold declared_names;
           rewrite !elem_of_app; auto|]).
  exact Hw.
Qed.

Lemma draw_edges_state w :
  Forall (fun f => DataFlow.from_component f ∈ declared_names data
                   /\ DataFlow.to_component f ∈ declared_names data) (data_flows data) ->
  w.1 = g -> (draw_edges data w).1 = g.
Proof.
  intros Hflows Hw. unfold draw_edges, draw_flows.
  apply foldl_state_fixed; [intros; now apply crud_edges_state|].
  apply foldl_state_fixed; [intros; now apply client_edges_state|].
  apply foldl_state_fixed; [|exact Hw].
  intros w' f Hf Hw'. rewrite flow_edge_state, Hw'. apply allocate_known.
  rewrite Forall_forall in Hflows. destruct (Hflows _ Hf) as [Hfrom Hto].
  repeat constructor; now apply Hknown.
Qed.

End Known.

Lemma declared_known data name :
  name ∈ declared_names data
  <-> is_Some (node_ids (declare_nodes data (GenerateMermaid.init, ["graph TB"])).1 !! name).
Proof.
  rewrite declare_nodes_state, allocate_domain. cbn. rewrite lookup_empty.
  split; [auto|]. intros [H|[? H]]; [exact H | discriminate].
Qed.

(** Once the nodes are declared, the rest of [generate] allocates none,
    provided the flows connect declared names. *)
Lemma generate_state data :
  Forall (fun f => DataFlow.from_component f ∈ declared_names data
                   /\ DataFlow.to_component f ∈ declared_names data) (data_flows data) ->
  (generate_writer GenerateMermaid.init data).1 = (declare_nodes data (GenerateMermaid.init, ["graph TB"])).1.
Proof.
  intros Hflows. unfold generate_writer.
  apply apply_styles_state; [intros name; apply declared_known|].
  apply draw_edges_state; [intros name; apply declared_known | exact Hflows | reflexivity].
Qed.

(** X21.  For the components of a finished run of the project analyser,
    [generate] allocates its node ids while it declares the nodes and none
    afterwards: every id in an edge or in a class line is the id of a
    declared node, and the names with an id are the names of the external
    entities, the class names of the processes and the names of the data
    stores. *)
Theorem diagram_edges_connect_declared_nodes
    (list_of_set : list string -> list string) (files : list SourceFile) :
  let data := analyze list_of_set files in
  (generate_writer GenerateMermaid.init data).1 = (declare_nodes data (GenerateMermaid.init, ["graph TB"])).1
  /\ (declare_nodes data (GenerateMermaid.init, ["graph TB"])).1 = allocate GenerateMermaid.init (declared_names data)
  /\ (forall name, name ∈ declared_names data
                   <-> is_Some (node_ids (generate_writer GenerateMermaid.init data).1 !! name)).
Proof.
  intros data.
  assert ((generate_writer GenerateMermaid.init data).1 = (declare_nodes data (GenerateMermaid.init, ["graph TB"])).1) as E.
  { apply generate_state, Forall_forall. intros f Hf. unfold data in Hf.
    rewrite AnalyzeProjectFacts.analyze_data_flows in Hf.
    apply AnalyzeProjectFacts.inferred_flows_inv
      in Hf as (process & dep & target & Hin & Hdep & Hm & ->).
    destruct (AnalyzeProjectFacts.process_map_lookup _ _ _ Hm) as [Htarget _].
    cbn [DataFlow.from_component DataFlow.to_component].
    unfold declared_names. rewrite !elem_of_app.
    split; right; left; apply list_elem_of_In, in_map, list_elem_of_In; assumption. }
  split; [exact E|]. split; [apply declare_nodes_state|].
  intros name. rewrite E. apply declared_known.
Qed.

(** A flow between names that are no components gets its nodes while the
    edge is drawn: they are in no node section of the diagram. *)
Example undeclared_flow_endpoints_get_nodes :
  (generate_writer GenerateMermaid.init
     (MkAnalyzer [] [] [] [DataFlow.Mk "A" "B" "business_data" "request"])).2
  = ["graph TB"; "    %% External Entities"; ""; "    %% Processes"; "";
     "    %% Data Stores"; ""; "    %% Data Flows"; "    node1 -->|request| node2"; "";
     "    %% Styling";
     "    classDef externalEntity fill:#e1f5ff,stroke:#01579b,stroke-width:2px";
     "    classDef process fill:#fff9c4,stroke:#f57f17,stroke-width:2px";
     "    classDef dataStore fill:#f3e5f5,stroke:#4a148c,stroke-width:2px"].
Proof. vm_compute. reflexivity. Qed.

End DiagramProperties.

(** ** The Javadoc of a listener *)
Module JavadocProperties.
Import AnalyzeListeners.

Lemma javadoc_loop_window lines lines' indices :
  Forall (fun i => nth i lines EmptyString = nth i lines' EmptyString) indices ->
  forall in_javadoc javadoc_lines,
    javadoc_loop lines indices in_javadoc javadoc_lines
    = javadoc_loop lines' indices in_javadoc javadoc_lines.
Proof.
  induction 1 as [|i indices Hi _ IH]; intros in_javadoc javadoc_lines;
    cbn [javadoc_loop]; [reflexivity|].
  cbv zeta. rewrite Hi.
  repeat match goal with
         | |- context [javadoc_loop lines indices ?b ?a] => rewrite (IH b a)
         end.
  reflexivity.
Qed.

(** X23.  The Javadoc of a listener is read off the nineteen lines above
    the annotation, and never off the first line of the file: two texts
    that agree on those lines give the same Javadoc. *)
Theorem listener_javadoc_reads_nineteen_lines (lines lines' : list string) (line_num : nat) :
  (forall i, line_num - 20 < i < line_num ->
             nth i lines EmptyString = nth i lines' EmptyString) ->
  _extract_javadoc lines line_num = _extract_javadoc lines' line_num.
Proof.
  intros H. unfold _extract_javadoc.
  rewrite (javadoc_loop_window lines lines'); [reflexivity|].
  unfold javadoc_range. apply Forall_forall. intros i Hi.
  apply list_elem_of_In, in_rev, in_seq in Hi. apply H. lia.
Qed.

Lemma listener_javadoc_reads_nineteen_lines_witness :
  _extract_javadoc ["/** Sends the mail."; " */"; "@EventListener"] 2
  = _extract_javadoc ["/** Sends the parcel."; " */"; "@EventListener"] 2.
Proof.
  apply listener_javadoc_reads_nineteen_lines.
  intros i Hi. assert (i = 1) as -> by lia. reflexivity.
Defined.

(** A comment whose text stands on the first line of the file is lost. *)
Example javadoc_on_first_line_not_read :
  _extract_javadoc ["/** Sends the mail."; " */"; "@EventListener"] 2 = None
  /\ _extract_javadoc [""; "/** Sends the mail."; " */"; "@EventListener"] 3 = None
  /\ _extract_javadoc ["/**"; " * Sends the mail."; " */"; "@EventListener"] 3
     = Some "Sends the mail.".
Proof. vm_compute. repeat split; reflexivity. Qed.

End JavadocProperties.

(** ** The annotation the renderers draw for a listener *)
Module RenderingProperties.
Import AnalyzeListeners ListenerRendering.

(** X22.  For the dictionary of a listener record, the annotation is
    (async) for an asynchronous listener; otherwise, for a transactional
    one, the recorded phase in brackets, and (None) where no phase is
    recorded; otherwise nothing.  The key transaction_phase is always
    present, so that the default AFTER_COMMIT of the renderers is never
    used: (AFTER_COMMIT) is drawn only for a phase written in the source. *)
Theorem listener_annotation_shows_recorded_phase (l : ListenerInfo.t) :
  annotation (asdict l)
  = (if ListenerInfo.is_async l then " (async)"
     else if ListenerInfo.is_transactional l
     then " (" +:+ match ListenerInfo.transaction_phase l with
                   | Some phase => phase
                   | None => "None"
                   end +:+ ")"
     else EmptyString)
  /\ (annotation (asdict l) = " (AFTER_COMMIT)" <->
      ListenerInfo.is_async l = false /\ ListenerInfo.is_transactional l = true
      /\ ListenerInfo.transaction_phase l = Some "AFTER_COMMIT").
Proof.
  assert (annotation (asdict l)
          = (if ListenerInfo.is_async l then " (async)"
             else if ListenerInfo.is_transactional l
             then " (" +:+ match ListenerInfo.transaction_phase l with
                           | Some phase => phase
                           | None => "None"
                           end +:+ ")"
             else EmptyString)) as E.
  { destruct l as [ev cn mn fp ln pk [|] [|] [ph|] cond jd]; reflexivity. }
  split; [exact E|]. rewrite E.
  destruct l as [ev cn mn fp ln pk [|] [|] [ph|] cond jd];
    cbn [ListenerInfo.is_async ListenerInfo.is_transactional ListenerInfo.transaction_phase];
    (split; [intros H | intros (Ha & Ht & Hp); try discriminate]).
  all: try discriminate.
  - split; [reflexivity|]. split; [reflexivity|]. f_equal.
    apply (StringFacts.append_inv_tail ")" ph "AFTER_COMMIT").
    now injection H.
  - injection Hp as ->. reflexivity.
Qed.

(** The listener of the sample is transactional with no phase written:
    the analyser records none, and the renderers draw (None). *)
Example mail_listener_annotation :
  annotation (asdict Samples.mail_listener_info) = " (None)".
Proof. vm_compute. reflexivity. Qed.

End RenderingProperties.

(** ** More on strings: what [strip] keeps *)
Module StripFacts.
Import StringFacts.

Ltac norm_app :=
  repeat first [rewrite append_cons | rewrite string_app_assoc | rewrite append_nil_l].

Lemma lstrip_keeps (u post : string) c0 :
  Py.isspace c0 = false ->
  forall pre, exists pre', Py.lstrip (pre +:+ (String c0 u +:+ post)) = pre' +:+ (String c0 u +:+ post).
Proof.
  intros Hc0. induction pre as [|c pre IH].
  - exists EmptyString. change (EmptyString +:+ ?x) with x. rewrite append_cons.
    cbn [Py.lstrip]. now rewrite Hc0.
  - rewrite append_cons. cbn [Py.lstrip]. destruct (Py.isspace c); [exact IH|].
    exists (String c pre). now rewrite append_cons.
Qed.

Lemma rstrip_keeps c1 post :
  Py.isspace c1 = false ->
  forall x, exists post', Py.rstrip (x +:+ String c1 post) = x +:+ String c1 post'.
Proof.
  intros Hc1. induction x as [|c x IH].
  - change (EmptyString +:+ ?y) with y. cbn [Py.rstrip]. rewrite Hc1.
    destruct (Py.rstrip post) as [|r0 r]; [now exists EmptyString | now exists (String r0 r)].
  - destruct IH as [post' IH]. exists post'. rewrite !append_cons. cbn [Py.rstrip].
    rewrite IH. destruct x; reflexivity.
Qed.

Lemma strip_keeps pre c0 v c1 post :
  Py.isspace c0 = false -> Py.isspace c1 = false ->
  exists pre' post',
    Py.strip (pre +:+ (String c0 (v +:+ String c1 EmptyString) +:+ post))
    = pre' +:+ (String c0 (v +:+ String c1 EmptyString) +:+ post').
Proof.
  intros Hc0 Hc1. unfold Py.strip.
  destruct (lstrip_keeps (v +:+ String c1 EmptyString) post c0 Hc0 pre) as [pre' ->].
  destruct (rstrip_keeps c1 post Hc1 (pre' +:+ String c0 v)) as [post' E].
  exists pre', post'.
  rewrite !append_cons, !string_app_assoc in *. rewrite !append_cons in *.
  change (EmptyString +:+ ?y) with y in *. exact E.
Qed.

Lemma lstrip_chars c : forall s, In c (list_ascii_of_string (Py.lstrip s)) -> In c (list_ascii_of_string s).
Proof.
  induction s as [|x s IH]; cbn [Py.lstrip]; [auto|].
  destruct (Py.isspace x); [|auto]. intros H. right. now apply IH.
Qed.

Lemma rstrip_chars c : forall s, In c (list_ascii_of_string (Py.rstrip s)) -> In c (list_ascii_of_string s).
Proof.
  induction s as [|x s IH]; cbn [Py.rstrip]; [auto|].
  destruct (Py.rstrip s) as [|y r].
  - destruct (Py.isspace x); [intros []|]. intros [<-|[]]. now left.
  - intros [<-|H]; [now left|]. right. now apply IH.
Qed.

Lemma strip_chars c s : In c (list_ascii_of_string (Py.strip s)) -> In c (list_ascii_of_string s).
Proof. intros H. now apply lstrip_chars, rstrip_chars. Qed.

Lemma drop_chars c : forall n s, In c (list_ascii_of_string (Re.drop n s)) -> In c (list_ascii_of_string s).
Proof.
  induction n as [|n IH]; intros s H; [now destruct s|].
  destruct s as [|x s]; [exact H|]. right. now apply IH.
Qed.

Lemma concat_chars c sep : forall l,
  In c (list_ascii_of_string (String.concat sep l)) ->
  In c (list_ascii_of_string sep) \/ exists w, In w l /\ In c (list_ascii_of_string w).
Proof.
  induction l as [|w l IH]; cbn [String.concat]; [intros []|].
  destruct l as [|w' l].
  - intros H. right. exists w. split; [now left | exact H].
  - intros H. apply SnippetProperties.in_append_chars in H as [H|H].
    + right. exists w. split; [now left | exact H].
    + apply SnippetProperties.in_append_chars in H as [H|H]; [now left|].
      destruct (IH H) as [?|(w0 & Hw0 & Hc)]; [now left|].
      right. exists w0. split; [now right | exact Hc].
Qed.

Lemma lstrip_head s :
  Py.lstrip s = EmptyString \/ exists c t, Py.lstrip s = String c t /\ Py.isspace c = false.
Proof.
  induction s as [|x s IH]; cbn [Py.lstrip]; [now left|].
  destruct (Py.isspace x) eqn:E; [exact IH|]. right. now exists x, s.
Qed.

Lemma rstrip_nonspace c t :
  Py.isspace c = false -> exists t', Py.rstrip (String c t) = String c t'.
Proof.
  intros Hc. cbn [Py.rstrip]. destruct (Py.rstrip t) as [|y r].
  - rewrite Hc. now exists EmptyString.
  - now exists (String y r).
Qed.

(** What [strip] returns is empty or starts with a character that is no
    white space. *)
Lemma strip_head s :
  Py.strip s = EmptyString \/ exists c t, Py.strip s = String c t /\ Py.isspace c = false.
Proof.
  unfold Py.strip. destruct (lstrip_head s) as [->|(c & t & -> & Hc)]; [now left|].
  destruct (rstrip_nonspace c t Hc) as [t' ->]. right. now exists c, t'.
Qed.

End StripFacts.

(** ** The matcher is complete for the language of a pattern *)
Module ReCompleteness.
Import Re ReLang StringFacts ReSoundness.

Section Complete.
Context {R : Type}.

Lemma loop_complete (a : regex) greedy
    (body : string -> nat -> caps -> (string -> nat -> caps -> option R) -> option R) :
  (forall w, lang a w ->
     forall s' pos cs (k : string -> nat -> caps -> option R),
       (forall cs', is_Some (k s' (pos + String.length w) cs')) ->
       is_Some (body (w +:+ s') pos cs k)) ->
  forall w, lang (Star greedy a) w ->
    forall fuel s' pos cs (k : string -> nat -> caps -> option R),
      String.length w <= fuel ->
      (forall cs', is_Some (k s' (pos + String.length w) cs')) ->
      is_Some (loop body greedy k fuel (w +:+ s') pos cs).
Proof.
  intros Hbody w Hw. remember (Star greedy a) as r eqn:Er.
  induction Hw as [| | | | | |g a0|g a0 w1 w2 H1 _ H2 IH2|]; try discriminate.
  - (* no iteration *)
    injection Er as -> ->. intros fuel s' pos cs k _ Hk.
    cbn [String.length] in Hk. rewrite Nat.add_0_r in Hk. change (EmptyString +:+ s') with s'.
    destruct fuel as [|fuel]; cbn [loop]; [apply Hk|]. cbv zeta.
    destruct greedy.
    + match goal with |- is_Some (match ?x with _ => _ end) => destruct x end;
        [eexists; reflexivity | apply Hk].
    + destruct (Hk cs) as [x ->]. eexists; reflexivity.
  - injection Er as -> ->. specialize (IH2 eq_refl).
    intros fuel s' pos cs k Hfuel Hk.
    destruct w1 as [|c w1].
    { change (EmptyString +:+ w2) with w2 in *. now apply IH2. }
    rewrite string_length_app in Hfuel, Hk. cbn [String.length] in Hfuel.
    destruct fuel as [|fuel]; [lia|]. cbn [loop]. cbv zeta.
    rewrite string_app_assoc.
    match goal with
    | |- is_Some (if greedy then match ?again with _ => _ end else _) =>
        assert (is_Some again) as [x Hagain]
    end.
    { apply Hbody; [exact H1|]. intros cs'.
      destruct (Nat.leb_spec (pos + String.length (String c w1)) pos) as [Hle|_];
        [cbn [String.length] in Hle; lia|].
      apply IH2; [lia|]. intros cs''. rewrite <- Nat.add_assoc. apply Hk. }
    rewrite Hagain. destruct greedy; [eexists; reflexivity|].
    destruct (k _ pos cs); eexists; reflexivity.
Qed.

(** The matcher finds a match wherever the language has a word and the
    continuation accepts what follows it. *)
Lemma run_complete (r : regex) :
  forall w, lang r w ->
    forall s' pos cs (k : string -> nat -> caps -> option R),
      (forall cs', is_Some (k s' (pos + String.length w) cs')) ->
      is_Some (run r (w +:+ s') pos cs k).
Proof.
  induction r as [| c | p | a IHa b IHb | a IHa b IHb | greedy a IHa | g a IHa];
    intros w Hw s' pos cs k Hk.
  - inversion Hw; subst. cbn [run]. cbn [String.length] in Hk. rewrite Nat.add_0_r in Hk.
    apply Hk.
  - inversion Hw; subst. rewrite append_cons. cbn [run]. rewrite Ascii.eqb_refl.
    cbn [String.length] in Hk. rewrite Nat.add_1_r in Hk. apply Hk.
  - inversion Hw as [| |p' c Hp| | | | | |]; subst. rewrite append_cons. cbn [run]. rewrite Hp.
    cbn [String.length] in Hk. rewrite Nat.add_1_r in Hk. apply Hk.
  - inversion Hw as [| | |a' b' w1 w2 H1 H2| | | | |]; subst. cbn [run].
    rewrite string_app_assoc. apply IHa; [exact H1|]. intros cs'.
    apply IHb; [exact H2|]. intros cs''.
    rewrite <- Nat.add_assoc, <- string_length_app. apply Hk.
  - cbn [run]. inversion Hw as [| | | |a' b' w' H1|a' b' w' H2| | |]; subst.
    + destruct (IHa w H1 s' pos cs k Hk) as [x ->]. eexists; reflexivity.
    + destruct (run a (w +:+ s') pos cs k); [eexists; reflexivity|]. now apply IHb.
  - cbn [run]. apply (loop_complete a greedy (run a)); [exact IHa | exact Hw | | exact Hk].
    rewrite string_length_app. lia.
  - inversion Hw as [| | | | | | | |g' a' w' H1]; subst. cbn [run].
    apply IHa; [exact H1|]. intros cs'. apply Hk.
Qed.

End Complete.

Lemma match_at_complete r w s' pos : lang r w -> is_Some (match_at r (w +:+ s') pos).
Proof.
  intros Hw. unfold match_at. apply run_complete; [exact Hw|].
  intros cs'. eexists; reflexivity.
Qed.

Lemma search_from_complete r w post :
  lang r w -> forall pre pos, is_Some (search_from r (pre +:+ (w +:+ post)) pos).
Proof.
  intros Hw. induction pre as [|c pre IH]; intros pos.
  - change (EmptyString +:+ (w +:+ post)) with (w +:+ post).
    destruct (match_at_complete r w post pos Hw) as [m Hm].
    destruct (w +:+ post); cbn [search_from]; rewrite Hm; eexists; reflexivity.
  - rewrite append_cons. cbn [search_from].
    destruct (match_at r _ pos); [eexists; reflexivity | apply IH].
Qed.

Lemma search_complete r pre w post :
  lang r w -> is_Some (search r (pre +:+ (w +:+ post))).
Proof. intros Hw. now apply search_from_complete. Qed.

Lemma lang_star_cls_intro greedy p w : all_chars p w -> lang (Star greedy (Cls p)) w.
Proof.
  induction w as [|c w IH]; intros Hall; [constructor|].
  change (String c w) with (String c EmptyString +:+ w). constructor.
  - constructor. apply Hall. now left.
  - apply IH. intros x Hx. apply Hall. now right.
Qed.

Lemma lang_plus_cls_intro p c w :
  p c = true -> all_chars p w -> lang (plus (Cls p)) (String c w).
Proof.
  intros Hc Hall. change (String c w) with (String c EmptyString +:+ w).
  constructor; [now constructor | now apply lang_star_cls_intro].
Qed.

Lemma lang_lit_intro s : lang (lit s) s.
Proof.
  induction s as [|c s IH]; [constructor|]. cbn [lit].
  destruct s as [|c' s']; [constructor|].
  change (String c (String c' s')) with (String c EmptyString +:+ String c' s').
  constructor; [constructor | exact IH].
Qed.

Lemma lang_eps_l a b w : lang a EmptyString -> lang b w -> lang (Seq a b) w.
Proof. intros Ha Hb. change w with (EmptyString +:+ w). now constructor. Qed.

Lemma groups_in_True r : groups_in (fun _ _ => True) r.
Proof. induction r; cbn [groups_in]; auto. Qed.

(** A match lies in the subject. *)
Lemma search_from_infix subj r :
  forall s pos m, at_pos subj pos s -> search_from r s pos = Some m ->
    exists pre w post, subj = pre +:+ (w +:+ post) /\ lang r w.
Proof.
  assert (forall s pos m, at_pos subj pos s -> match_at r s pos = Some m ->
            exists pre w post, subj = pre +:+ (w +:+ post) /\ lang r w) as Hat.
  { intros s pos m Hpos H. unfold match_at in H.
    eapply (run_sound (fun _ _ => True) subj r (groups_in_True r)) in H
        as (w & s' & cs' & -> & Hw & _); [|exact Hpos | constructor].
    destruct Hpos as (pre & -> & _). now exists pre, w, s'. }
  induction s as [|c s IH]; intros pos m Hpos H; cbn [search_from] in H.
  - destruct (match_at r EmptyString pos) eqn:E; [|discriminate]. eapply Hat; eassumption.
  - destruct (match_at r (String c s) pos) eqn:E; [eapply Hat; eassumption|].
    eapply IH; [|exact H]. eapply at_pos_tail, Hpos.
Qed.

Lemma search_infix r s m :
  search r s = Some m -> exists pre w post, s = pre +:+ (w +:+ post) /\ lang r w.
Proof. apply search_from_infix, at_pos_0. Qed.

(** [matches] decides whether a word of the language occurs. *)
Lemma matches_iff r s :
  matches r s = true <-> exists pre w post, s = pre +:+ (w +:+ post) /\ lang r w.
Proof.
  unfold matches. split.
  - destruct (search r s) as [m|] eqn:E; [|discriminate]. intros _. eapply search_infix, E.
  - intros (pre & w & post & -> & Hw). now destruct (search_complete r pre w post Hw) as [m ->].
Qed.

End ReCompleteness.

(** ** The method name of a finding *)
Module CallLine.
Import Re ReLang StringFacts StripFacts ReSoundness ReCompleteness AnalyzePublishers.

(** A call [name(] with blanks before the bracket has the shape
    [_find_method_name] looks for. *)
Lemma call_shape c name blanks :
  Py.isword c = true -> all_chars Py.isword name -> lang (star ws) blanks ->
  lang re_method (String c name +:+ (blanks +:+ "(")).
Proof.
  intros Hc Hname Hblanks. unfold re_method. cbn [cat].
  apply lang_eps_l; [apply lang_alt_r; constructor|].
  apply lang_eps_l; [constructor|].
  apply lang_eps_l; [apply lang_alt_r; constructor|].
  apply lang_eps_l; [constructor|].
  constructor; [constructor; now apply lang_plus_cls_intro|].
  constructor; [exact Hblanks | constructor].
Qed.

Lemma all_chars_word_literal s :
  forallb Py.isword (list_ascii_of_string s) = true -> all_chars Py.isword s.
Proof. intros H c Hc. rewrite forallb_forall in H. now apply H. Qed.

(** Every word of a pattern holds a call of that shape. *)
Lemma pattern_holds_call pattern w :
  pattern ∈ patterns -> lang pattern w ->
  exists a c name blanks b,
    w = a +:+ ((String c name +:+ (blanks +:+ "(")) +:+ b)
    /\ Py.isword c = true /\ all_chars Py.isword name /\ lang (star ws) blanks.
Proof.
  unfold patterns. intros Hin Hw.
  repeat (apply elem_of_cons in Hin as [->|Hin]); [| | |inversion Hin];
    cbn [cat] in Hw;
    inversion Hw as [| | |? ? w1 r1 H1 Hr1| | | | |]; subst; clear Hw;
    inversion Hr1 as [| | |? ? w2 r2 H2 Hr2| | | | |]; subst; clear Hr1;
    inversion Hr2 as [| | |? ? w3 r3 H3 Hr3| | | | |]; subst; clear Hr2.
  - apply (lang_lit ".publishEvent") in H1 as ->. apply (lang_lit "(") in H3 as ->.
    exists ".", "p"%char, "ublishEvent", w2, r3.
    split; [now rewrite !string_app_assoc|].
    split; [reflexivity|]. split; [now apply all_chars_word_literal | exact H2].
  - apply (lang_lit ".publish") in H1 as ->. apply (lang_lit "(") in H3 as ->.
    exists ".", "p"%char, "ublish", w2, r3.
    split; [now rewrite !string_app_assoc|].
    split; [reflexivity|]. split; [now apply all_chars_word_literal | exact H2].
  - apply (lang_lit "publishEvent") in H1 as ->. apply (lang_lit "(") in H3 as ->.
    exists EmptyString, "p"%char, "ublishEvent", w2, r3.
    split; [now rewrite !string_app_assoc|].
    split; [reflexivity|]. split; [now apply all_chars_word_literal | exact H2].
Qed.

(** On a line that one of the patterns matches, the search of
    [_find_method_name] succeeds at once. *)
Lemma call_line_has_shape pattern line :
  pattern ∈ patterns -> is_Some (search pattern line) ->
  is_Some (search re_method (Py.strip line)).
Proof.
  intros Hin [m Hm].
  apply search_infix in Hm as (pre & w & post & -> & Hw).
  destruct (pattern_holds_call pattern w Hin Hw)
    as (a & c & name & blanks & b & -> & Hc & Hname & Hblanks).
  assert (Py.isspace c = false) as Hspace.
  { revert Hc. clear. destruct c as [[] [] [] [] [] [] [] []]; vm_compute; congruence. }
  destruct (strip_keeps (pre +:+ a) c (name +:+ blanks) "("%char (b +:+ post) Hspace eq_refl)
    as (pre' & post' & E).
  replace (pre +:+ (a +:+ (String c name +:+ blanks +:+ "(") +:+ b) +:+ post)
    with ((pre +:+ a) +:+ (String c ((name +:+ blanks) +:+ "(") +:+ (b +:+ post)))
    by (norm_app; reflexivity).
  rewrite E.
  replace (String c ((name +:+ blanks) +:+ "(")) with (String c name +:+ (blanks +:+ "("))
    by (norm_app; reflexivity).
  apply search_complete, call_shape; assumption.
Qed.

(** X24.  The method name of every finding is read off the call line
    itself: a line that one of the three patterns matches always has the
    shape the backward search looks for, so that the search stops where
    it starts and the enclosing method's signature is never consulted.
    The name is a non-empty word. *)
Theorem publish_method_name_read_off_call_line (files : list SourceFile) :
  Forall (fun p =>
            exists f content line m,
              f ∈ files /\ sf_text f = Some content
              /\ PublisherInfo.file_path p = sf_rel f
              /\ Py.split newline content !! (PublisherInfo.line_number p - 1) = Some line
              /\ search re_method (Py.strip line) = Some m
              /\ PublisherInfo.method_name p = group_str (Py.strip line) m 1
              /\ word_string (PublisherInfo.method_name p))
         (analyze files).
Proof.
  apply Forall_forall. intros p Hp.
  rewrite PublisherProperties.publisher_flat_map in Hp.
  apply list_elem_of_In, in_flat_map in Hp as (f & Hf & Hp).
  unfold _analyze_file in Hp. destruct (sf_text f) as [content|] eqn:Htext; [|destruct Hp].
  unfold _find_publish_calls in Hp. cbn [app] in Hp.
  apply list_elem_of_In, ListFacts.elem_of_concat_imap in Hp as (i & line & Hline & Hp).
  unfold findings_of_line in Hp.
  apply list_elem_of_In, in_flat_map in Hp as (pattern & Hpat & Hp).
  destruct (search pattern line) as [pm|] eqn:Hpm; [|destruct Hp].
  destruct Hp as [<-|[]].
  cbn [PublisherInfo.file_path PublisherInfo.line_number PublisherInfo.method_name].
  destruct (call_line_has_shape pattern line) as [m Hm];
    [now apply list_elem_of_In | now rewrite Hpm |].
  assert (_find_method_name (Py.split newline content) (S i) = group_str (Py.strip line) m 1)
    as ->.
  { unfold _find_method_name. rewrite (take_S_r _ _ _ Hline), rev_app_distr.
    cbn [rev app first_signature]. now rewrite Hm. }
  exists f, content, line, m. replace (S i - 1) with i by lia.
  split; [now apply list_elem_of_In|]. do 4 (split; [assumption || reflexivity|]).
  split; [reflexivity|].
  eapply search_group_at; [| |exact Hm]; [groups_words | reflexivity].
Qed.

End CallLine.

(** ** Asynchronous listeners *)
Module AsyncFile.
Import StringFacts AnalyzeListeners.

Lemma prefix_intro p post : String.prefix p (p +:+ post) = true.
Proof.
  induction p as [|c p IH]; [now destruct post|].
  rewrite append_cons. cbn [String.prefix]. destruct (ascii_dec c c); [exact IH | contradiction].
Qed.

Lemma prefix_inv p : forall s, String.prefix p s = true -> exists post, s = p +:+ post.
Proof.
  induction p as [|c p IH]; intros s H; [now exists s|].
  destruct s as [|c' s]; [discriminate|]. cbn [String.prefix] in H.
  destruct (ascii_dec c c') as [<-|]; [|discriminate].
  destruct (IH _ H) as [post ->]. now exists post.
Qed.

Lemma contains_intro needle post : forall pre,
  Py.contains needle (pre +:+ (needle +:+ post)) = true.
Proof.
  induction pre as [|c pre IH].
  - change (EmptyString +:+ ?x) with x.
    destruct (needle +:+ post) eqn:E; cbn [Py.contains]; rewrite <- ?E, prefix_intro; reflexivity.
  - rewrite append_cons. cbn [Py.contains]. rewrite IH. apply orb_true_r.
Qed.

Lemma contains_inv needle : forall s,
  Py.contains needle s = true -> exists pre post, s = pre +:+ (needle +:+ post).
Proof.
  induction s as [|c s IH]; cbn [Py.contains]; intros H.
  - rewrite orb_false_r in H. apply prefix_inv in H as [post ->]. now exists EmptyString, post.
  - apply orb_true_iff in H as [H|H].
    + apply prefix_inv in H as [post ->]. now exists EmptyString, post.
    + destruct (IH H) as (pre & post & ->). now exists (String c pre), post.
Qed.

(** The first part of a split is what the text starts with. *)
Lemma split_head sep : forall s w ws, Py.split sep s = w :: ws -> exists b, s = w +:+ b.
Proof.
  induction s as [|c s IH]; intros w ws H; cbn [Py.split] in H.
  - injection H as <- <-. now exists EmptyString.
  - destruct (Ascii.eqb c sep).
    + injection H as <- <-. now exists (String c s).
    + destruct (Py.split sep s) as [|w' ws'] eqn:E.
      * injection H as <- <-. destruct (ScanEventsFacts.split_nonempty sep s E).
      * injection H as <- <-. destruct (IH _ _ eq_refl) as [b ->]. now exists b.
Qed.

(** Every part of a split is a piece of the text. *)
Lemma split_infix sep : forall s l,
  l ∈ Py.split sep s -> exists a b, s = a +:+ (l +:+ b).
Proof.
  induction s as [|c s IH]; intros l H; cbn [Py.split] in H.
  - apply list_elem_of_singleton in H as ->. now exists EmptyString, EmptyString.
  - destruct (Ascii.eqb c sep).
    + apply elem_of_cons in H as [->|H].
      * now exists EmptyString, (String c s).
      * destruct (IH _ H) as (a & b & ->). now exists (String c a), b.
    + destruct (Py.split sep s) as [|w ws] eqn:E.
      * destruct (ScanEventsFacts.split_nonempty sep s E).
      * apply elem_of_cons in H as [->|H].
        -- destruct (split_head sep s w ws E) as [b ->]. now exists EmptyString, b.
        -- destruct (IH l) as (a & b & ->); [now right|]. now exists (String c a), b.
Qed.

Lemma contains_part needle sep s l :
  l ∈ Py.split sep s -> Py.contains needle l = true -> Py.contains needle s = true.
Proof.
  intros Hl Hc. apply split_infix in Hl as (a & b & ->).
  apply contains_inv in Hc as (pre & post & ->).
  replace (a +:+ ((pre +:+ (needle +:+ post)) +:+ b))
    with ((a +:+ pre) +:+ (needle +:+ (post +:+ b))) by (now rewrite !string_app_assoc).
  apply contains_intro.
Qed.

Lemma async_loop_inv rest : forall is_async,
  async_loop rest is_async = true ->
  is_async = true \/ exists l, l ∈ rest /\ Py.contains "@Async" l = true.
Proof.
  induction rest as [|l rest IH]; intros is_async H; cbn [async_loop] in H; [now left|].
  destruct (Py.startswith "public" (Py.strip l)); [now left|].
  destruct (Py.contains "@Async" l) eqn:E.
  - right. exists l. split; [now left | exact E].
  - destruct (IH _ H) as [->|(l' & Hl' & Hc)]; [now left|].
    right. exists l'. split; [now right | exact Hc].
Qed.

(** X25.  A listener record is asynchronous exactly when the text of
    its file contains @Async anywhere: the annotation of one method marks
    every listener of the file. *)
Theorem listener_async_is_a_property_of_the_file (files : list SourceFile) :
  Forall (fun l =>
            exists f content,
              f ∈ files /\ sf_text f = Some content
              /\ ListenerInfo.file_path l = sf_rel f
              /\ ListenerInfo.is_async l = Py.contains "@Async" content)
         (analyze files).
Proof.
  apply Forall_forall. intros l Hl.
  rewrite ListenerProperties.listener_flat_map in Hl.
  apply list_elem_of_In, in_flat_map in Hl as (f & Hf & Hl).
  unfold _analyze_file in Hl. destruct (sf_text f) as [content|] eqn:Htext; [|destruct Hl].
  unfold _find_listeners in Hl. cbn [app] in Hl.
  apply list_elem_of_In, ListFacts.elem_of_concat_imap in Hl as (i & line & Hline & Hl).
  unfold listeners_of_line in Hl.
  destruct (_ || _); [|inversion Hl].
  destruct (_parse_listener _ _ _ _ _ _) as [info|] eqn:Hparse; [|inversion Hl].
  apply list_elem_of_singleton in Hl as ->.
  apply ListenerFacts.parse_listener_Some in Hparse as (j & m & ev & _ & _ & _ & ->).
  cbn [ListenerInfo.file_path ListenerInfo.is_async].
  exists f, content. split; [now apply list_elem_of_In|]. do 2 (split; [assumption || reflexivity|]).
  destruct (Py.contains "@Async" content) eqn:Hfile; [apply ListenerProperties.async_loop_true|].
  destruct (async_loop _ false) eqn:Hloop; [|reflexivity].
  apply async_loop_inv in Hloop as [?|(l' & Hl' & Hc)]; [discriminate|].
  rewrite <- Hfile. symmetry. eapply contains_part; [|exact Hc].
  apply list_elem_of_In. rewrite <- (firstn_skipn (S i) (Py.split newline content)).
  apply in_or_app. right. now apply list_elem_of_In.
Qed.

End AsyncFile.

(** ** The Javadoc of a listener is one line *)
Module JavadocLine.
Import StringFacts StripFacts AnalyzeListeners.

Lemma javadoc_loop_lines (lines : list string) :
  Forall (fun w => forall c, In c (list_ascii_of_string w) -> c <> newline) lines ->
  forall indices in_javadoc javadoc_lines,
    Forall (fun w => (exists c t, w = String c t /\ Py.isspace c = false)
                     /\ forall c, In c (list_ascii_of_string w) -> c <> newline)
           javadoc_lines ->
    Forall (fun w => (exists c t, w = String c t /\ Py.isspace c = false)
                     /\ forall c, In c (list_ascii_of_string w) -> c <> newline)
           (javadoc_loop lines indices in_javadoc javadoc_lines).
Proof.
  intros Hlines.
  assert (forall i c, In c (list_ascii_of_string (nth i lines EmptyString)) -> c <> newline)
    as Hnth.
  { intros i c. destruct (nth_in_or_default i lines EmptyString) as [Hin| ->]; [|intros []].
    rewrite Forall_forall in Hlines. apply Hlines. now apply list_elem_of_In. }
  induction indices as [|i indices IH]; intros in_javadoc javadoc_lines Hacc;
    cbn [javadoc_loop]; [exact Hacc|].
  cbv zeta. set (line := Py.strip (nth i lines EmptyString)).
  destruct (String.eqb line "*/"); [now apply IH|].
  destruct (Py.startswith "/**" line); [exact Hacc|].
  destruct in_javadoc; [|now apply IH].
  set (line' := if Py.startswith "*" line then Py.strip (Re.drop 1 line) else line).
  destruct (negb (String.eqb line' EmptyString)) eqn:Hne; cbn [andb]; [|now apply IH].
  destruct (negb (Py.startswith "@" line')); [|now apply IH].
  apply IH. constructor; [|exact Hacc].
  apply negb_true_iff, String.eqb_neq in Hne. split.
  - assert (line' = EmptyString \/ exists c t, line' = String c t /\ Py.isspace c = false)
      as [?|?]; [|contradiction | assumption].
    unfold line', line. destruct (Py.startswith _ _); apply strip_head.
  - intros c Hc. apply (Hnth i). unfold line', line in Hc.
    destruct (Py.startswith _ _); [apply strip_chars, drop_chars in Hc|];
      now apply strip_chars in Hc.
Qed.

Lemma extract_javadoc_line lines line_num javadoc :
  Forall (fun w => forall c, In c (list_ascii_of_string w) -> c <> newline) lines ->
  _extract_javadoc lines line_num = Some javadoc ->
  javadoc <> EmptyString /\ forall c, In c (list_ascii_of_string javadoc) -> c <> newline.
Proof.
  intros Hlines. unfold _extract_javadoc.
  pose proof (javadoc_loop_lines lines Hlines (javadoc_range line_num) false [] (Forall_nil_2 _))
    as Hall.
  destruct (javadoc_loop _ _ _ _) as [|x xs]; [discriminate|]. intros [= <-].
  split.
  - apply Forall_cons in Hall as [[(c & t & -> & Hc) _] _].
    assert (exists t', String.concat " " (String c t :: xs) = String c t') as [t' E].
    { cbn [String.concat]. destruct xs; [now exists t|]. rewrite append_cons. eauto. }
    change (Py.strip (String.concat " " (String c t :: xs)) <> EmptyString). rewrite E.
    unfold Py.strip. cbn [Py.lstrip]. rewrite Hc.
    destruct (rstrip_nonspace c t' Hc) as [t'' ->]. discriminate.
  - intros c Hc. apply strip_chars in Hc.
    change (In c (list_ascii_of_string (String.concat " " (x :: xs)))) in Hc.
    apply concat_chars in Hc as [[<-|[]]|(w & Hw & Hc)]; [discriminate|].
    rewrite Forall_forall in Hall. apply list_elem_of_In in Hw.
    now apply (Hall w Hw).
Qed.

(** X26.  The Javadoc of a listener record, where there is one, is a
    single line that is not empty. *)
Theorem listener_javadoc_single_line (files : list SourceFile) :
  Forall (fun l =>
            forall javadoc, ListenerInfo.javadoc l = Some javadoc ->
              javadoc <> EmptyString
              /\ forall c, In c (list_ascii_of_string javadoc) -> c <> newline)
         (analyze files).
Proof.
  apply Forall_forall. intros l Hl.
  rewrite ListenerProperties.listener_flat_map in Hl.
  apply list_elem_of_In, in_flat_map in Hl as (f & Hf & Hl).
  unfold _analyze_file in Hl. destruct (sf_text f) as [content|] eqn:Htext; [|destruct Hl].
  unfold _find_listeners in Hl. cbn [app] in Hl.
  apply list_elem_of_In, ListFacts.elem_of_concat_imap in Hl as (i & line & Hline & Hl).
  unfold listeners_of_line in Hl.
  destruct (_ || _); [|inversion Hl].
  destruct (_parse_listener _ _ _ _ _ _) as [info|] eqn:Hparse; [|inversion Hl].
  apply list_elem_of_singleton in Hl as ->.
  apply ListenerFacts.parse_listener_Some in Hparse as (j & m & ev & _ & _ & _ & ->).
  cbn [ListenerInfo.javadoc]. intros javadoc.
  apply extract_javadoc_line, SnippetProperties.split_no_sep.
Qed.

End JavadocLine.

(** ** The context diagram *)
Module ContextDiagramProperties.
Import GenerateMermaid NodeIdProperties DiagramProperties AnalyzeProject.

Lemma context_entity_state w entity :
  (context_entity w entity).1 = (_get_node_id w.1 (ExternalEntity.name entity)).2.
Proof.
  unfold context_entity. destruct (_get_node_id _ _) as [id g]. destruct (_get_shape _).
  now repeat destruct (String.eqb _ _).
Qed.

Lemma context_store_state w store :
  (context_store w store).1 = (_get_node_id w.1 (DataStore.name store)).2.
Proof.
  unfold context_store. destruct (_get_node_id _ _) as [id g]. now destruct (_get_shape _).
Qed.

Lemma context_entity_lines w entity :
  length (context_entity w entity).2 = length w.2 + (1 + context_edges entity).
Proof.
  unfold context_entity, context_edges. destruct (_get_node_id _ _) as [id g].
  destruct (_get_shape _).
  repeat destruct (String.eqb _ _); unfold append; cbn [fst snd];
    rewrite ?length_app; cbn [length]; lia.
Qed.

Lemma context_store_lines w store : length (context_store w store).2 = length w.2 + 2.
Proof.
  unfold context_store. destruct (_get_node_id _ _) as [id g]. destruct (_get_shape _).
  unfold append; cbn [fst snd]; rewrite ?length_app; cbn [length]; lia.
Qed.

Lemma class_line_lines style w name : length (class_line style w name).2 = length w.2 + 1.
Proof.
  unfold class_line. destruct (_get_node_id _ _) as [id g].
  unfold append; cbn [fst snd]; rewrite ?length_app; cbn [length]; lia.
Qed.

Lemma foldl_lines {A} (step : Writer -> A -> Writer) (cost : A -> nat) (l : list A) :
  (forall w x, length (step w x).2 = length w.2 + cost x) ->
  forall w, length (foldl step w l).2 = length w.2 + list_sum (map cost l).
Proof.
  intros Hstep. induction l as [|x l IH]; intros w.
  - cbn [foldl map list_sum fold_right]. lia.
  - cbn [foldl map]. change (list_sum (cost x :: map cost l)) with (cost x + list_sum (map cost l)).
    rewrite IH, Hstep. lia.
Qed.

Lemma context_state data :
  (generate_context_writer GenerateMermaid.init data).1
  = allocate GenerateMermaid.init
      (map ExternalEntity.name (external_entities data)
       ++ map DataStore.name (data_stores data)).
Proof.
  unfold generate_context_writer.
  set (g := allocate GenerateMermaid.init
              (map ExternalEntity.name (external_entities data)
               ++ map DataStore.name (data_stores data))).
  assert (forall name,
            name ∈ map ExternalEntity.name (external_entities data)
                   ++ map DataStore.name (data_stores data) ->
            is_Some (node_ids g !! name)) as Hknown.
  { intros name Hname. unfold g. apply allocate_domain. now left. }
  apply class_lines_state with (g := g);
    [apply Forall_forall; intros name Hname; apply Hknown, elem_of_app; now right|].
  apply class_lines_state with (g := g);
    [apply Forall_forall; intros name Hname; apply Hknown, elem_of_app; now left|].
  rewrite !append_state.
  rewrite (foldl_allocates context_store DataStore.name _ context_store_state).
  rewrite (foldl_allocates context_entity ExternalEntity.name _ context_entity_state).
  rewrite append_state. unfold g. now rewrite allocate_app.
Qed.

Lemma node_id_not_system k : "node" +:+ Json.decimal k <> system_id.
Proof. discriminate. Qed.

(** X27.  The context diagram has a node for each name of an external
    entity or data store and for nothing else, so that no process appears
    in it; no such node has the id of the system node; and the diagram
    has ten lines of frame, two lines and its edges for each external
    entity (two edges for a client, one for an external service, none
    otherwise), and three lines for each data store. *)
Theorem context_diagram_shows_entities_and_stores (data : JavaProjectAnalyzer) :
  let w := generate_context_writer GenerateMermaid.init data in
  (forall name, is_Some (node_ids w.1 !! name)
                <-> name ∈ map ExternalEntity.name (external_entities data)
                    \/ name ∈ map DataStore.name (data_stores data))
  /\ (forall name id, node_ids w.1 !! name = Some id -> id <> system_id)
  /\ length w.2
     = 10 + list_sum (map (fun entity => 2 + context_edges entity) (external_entities data))
       + 3 * length (data_stores data).
Proof.
  intros w. unfold w. rewrite context_state.
  split; [|split].
  - intros name. rewrite allocate_domain, elem_of_app. cbn. rewrite lookup_empty.
    split; [intros [H|[? H]]; [exact H | discriminate] | now left].
  - intros name id Hid.
    destruct (allocate_well_numbered
                (map ExternalEntity.name (external_entities data)
                 ++ map DataStore.name (data_stores data))
                GenerateMermaid.init init_well_numbered) as (_ & Hform & _).
    destruct (Hform _ _ Hid) as (k & _ & ->). apply node_id_not_system.
  - unfold generate_context_writer.
    rewrite (foldl_lines (class_line "dataStore") (fun _ => 1) _
               (class_line_lines "dataStore")).
    rewrite (foldl_lines (class_line "externalEntity") (fun _ => 1) _
               (class_line_lines "externalEntity")).
    unfold append at 1 2 3 4 5 6. cbn [fst snd]. rewrite !length_app. cbn [length].
    rewrite (foldl_lines context_store (fun _ => 2) _ context_store_lines).
    rewrite (foldl_lines context_entity (fun entity => 1 + context_edges entity) _
               context_entity_lines).
    unfold append. cbn [fst snd]. rewrite !length_app. cbn [length].
    rewrite !map_map.
    assert (forall (A : Type) (l : list A) (n : nat),
              list_sum (map (fun _ => n) l) = n * length l) as Hconst.
    { intros A l n. induction l as [|x l IH]; [cbn; lia|]. cbn [map length].
      change (list_sum (n :: map (fun _ => n) l)) with (n + list_sum (map (fun _ => n) l)).
      lia. }
    assert (forall (l : list ExternalEntity.t),
              list_sum (map (fun entity => 2 + context_edges entity) l)
              = list_sum (map (fun entity => 1 + context_edges entity) l) + length l) as Hsum.
    { induction l as [|x l IH]; [reflexivity|]. cbn [map length].
      change (list_sum (?a :: ?r)) with (a + list_sum r). lia. }
    rewrite !Hconst, Hsum, ?length_map. lia.
Qed.

End ContextDiagramProperties.
